(** * Activity-tracker backend: sync reconciliation, retention and analytics

    A shallow embedding of the request handlers of
    [src/routes/sync.js], [src/routes/screenshots.js] and
    [src/routes/analytics.js], together with the tables of
    [src/models/database.js], and the properties the specification states
    about them.

    Modelling conventions.
    - A request body is a JSON value ([jsval]).  Numbers are integers,
      computed exactly; strings are sequences of ASCII characters.
    - A table is the list of its rows in insertion order.  The [SERIAL]
      surrogate keys are not represented: no statement of the handlers reads
      them.
    - Every statement is auto-committed (the handlers never open a
      transaction), so a handler that throws half-way leaves the rows
      written so far: a handler is a function from the database to an
      outcome and the database it leaves behind.
    - [NOW()] is the time of the request, passed as [now].
    - What the JavaScript runtime and the PostgreSQL driver do with a value
      is gathered in the class [Platform].

    The file has two parts: the model (the handlers, the notions their
    properties are stated with, a reference platform and example data), then
    the properties. *)

From Stdlib Require Import ZArith List String Ascii Bool Lia DecimalString.
From Stdlib Require Import Permutation Sorted.
Import ListNotations.

Open Scope string_scope.
Open Scope list_scope.
Open Scope Z_scope.

(** ** JavaScript values *)

Module JS.

#[warnings="-register-all"]
Inductive jsval : Type :=
| JUndefined
| JNull
| JBool (b : bool)
| JNum (n : Z)
| JStr (s : string)
| JArr (items : list jsval)
| JObj (props : list (string * jsval)).

(** ToBoolean: [undefined], [null], [false], [0] and [""] are falsy. *)
Definition truthy (v : jsval) : bool :=
  match v with
  | JUndefined | JNull => false
  | JBool b => b
  | JNum n => negb (n =? 0)
  | JStr s => negb (s =? "")%string
  | JArr _ | JObj _ => true
  end.

(** [a || b] *)
Definition js_or (a b : jsval) : jsval := if truthy a then a else b.

(** [!v] *)
Definition js_not (v : jsval) : bool := negb (truthy v).

(** [typeof v === 'object'] *)
Definition typeof_object (v : jsval) : bool :=
  match v with
  | JNull | JArr _ | JObj _ => true
  | _ => false
  end.

(** [Array.isArray(v)] *)
Definition isArray (v : jsval) : bool :=
  match v with JArr _ => true | _ => false end.

Fixpoint assoc (name : string) (props : list (string * jsval)) : jsval :=
  match props with
  | [] => JUndefined
  | (k, v) :: rest => if (k =? name)%string then v else assoc name rest
  end.

(** [v.name] for the property names the handlers read ([title],
    [totalSeconds], [state], ...): a [TypeError] ([None]) on [undefined]
    and [null], the own property of an object, and [undefined] on every
    other value, none of which has such a property. *)
Definition get_prop (v : jsval) (name : string) : option jsval :=
  match v with
  | JUndefined | JNull => None
  | JObj props => Some (assoc name props)
  | _ => Some JUndefined
  end.

Definition index_key (i : nat) : string :=
  NilEmpty.string_of_uint (Nat.to_uint i).

Fixpoint indexed {A : Type} (i : nat) (l : list A) : list (string * A) :=
  match l with
  | [] => []
  | x :: rest => (index_key i, x) :: indexed (S i) rest
  end.

Fixpoint chars (s : string) : list jsval :=
  match s with
  | EmptyString => []
  | String c rest => JStr (String c EmptyString) :: chars rest
  end.

(** [Object.entries(v)]: a [TypeError] ([None]) on [undefined] and [null];
    the properties of an object, in the order the object enumerates them;
    index/element pairs for an array and for the characters of a string;
    nothing for a number or a boolean. *)
Definition object_entries (v : jsval) : option (list (string * jsval)) :=
  match v with
  | JUndefined | JNull => None
  | JObj props => Some props
  | JArr items => Some (indexed 0%nat items)
  | JStr s => Some (indexed 0%nat (chars s))
  | JBool _ | JNum _ => Some []
  end.

(** The elements of an array. *)
Definition array_items (v : jsval) : list jsval :=
  match v with JArr items => items | _ => [] end.

(** [l.slice(-n)]: the last [n] elements. *)
Definition slice_last {A : Type} (n : nat) (l : list A) : list A :=
  skipn (List.length l - n)%nat l.

End JS.
Export JS.

(** ** The runtime and the database driver *)

Definition int4_min : Z := - 2 ^ 31.
Definition int4_max : Z := 2 ^ 31 - 1.

(** The behaviour of [Date], of node-pg's parameter conversion and of the
    database's text ordering, which the handlers rely on and the repository
    does not define.  The laws fix them on the values a well-typed request
    carries (string titles, integer counters) and leave the rest to the
    platform.  A text parameter is never rejected: strings are taken to be
    free of the NUL character, the one character a [TEXT] column cannot
    hold.  The text order is total and antisymmetric, as the order of a
    deterministic collation is. *)
Class Platform : Type := {
  (** [new Date(v).toISOString()]; [None] when it throws a [RangeError]
      (invalid date). *)
  toISOString : jsval -> option string;
  (** the text a non-null parameter is sent as *)
  pg_text : jsval -> string;
  (** the value an [INTEGER] column reads from a parameter; [None] when
      the database rejects it *)
  pg_int4 : jsval -> option Z;
  (** [a <= b] on [TEXT], under the database's collation *)
  text_leb : string -> string -> bool;
  (** [Buffer.from(s, 'base64').length] *)
  base64_byteLength : string -> Z;
  pg_text_JStr : forall s, pg_text (JStr s) = s;
  pg_int4_JNum :
    forall n, int4_min <= n <= int4_max -> pg_int4 (JNum n) = Some n;
  text_leb_total : forall a b, text_leb a b = true \/ text_leb b a = true;
  text_leb_antisym :
    forall a b, text_leb a b = true -> text_leb b a = true -> a = b;
  text_leb_trans :
    forall a b c, text_leb a b = true -> text_leb b c = true ->
                  text_leb a c = true
}.

(** ** Tables *)

Module Db.

(** [devices] *)
Record device : Type := {
  dev_id : string;
  dev_user_id : string;
  device_name : string;
  device_type : string;
  last_sync_at : option Z
}.

(** [usage_records].  The counters are never [NULL]: the only statement
    that writes them always binds a number.  [title] and [category] keep
    their nullable type because the upsert tests them with [COALESCE]. *)
Record usage_record : Type := {
  ur_user_id : string;
  ur_device_id : string;
  ur_domain : string;
  ur_title : option string;
  ur_category : option string;
  ur_date : string;
  total_seconds : Z;
  visits : Z;
  first_visit : option string;
  last_visit : option string;
  synced_at : Z
}.

(** [activity_events] *)
Record activity_event : Type := {
  ae_user_id : string;
  ae_device_id : string;
  ae_state : string;
  ae_timestamp : string;
  ae_date : string
}.

(** [sync_log] *)
Record sync_log_entry : Type := {
  sl_user_id : string;
  sl_device_id : string;
  sync_type : string;
  records_synced : Z;
  sl_synced_at : Z
}.

(** [screenshots] *)
Record screenshot : Type := {
  ss_id : string;
  ss_user_id : string;
  ss_device_id : string;
  ss_filename : string;
  ss_domain : string;
  ss_title : string;
  ss_url : string;
  ss_category : string;
  ss_timestamp : string;
  ss_date : string;
  file_size : Z;
  created_at : Z
}.

(** The database, and the upload directory as the list of the files it
    holds, each a (user directory, file name) pair. *)
Record db : Type := {
  users : list string;
  devices : list device;
  usage_records : list usage_record;
  activity_events : list activity_event;
  sync_log : list sync_log_entry;
  screenshots : list screenshot;
  files : list (string * string)
}.

Definition set_devices (d : db) (x : list device) : db :=
  {| users := users d; devices := x; usage_records := usage_records d;
     activity_events := activity_events d; sync_log := sync_log d;
     screenshots := screenshots d; files := files d |}.

Definition set_usage_records (d : db) (x : list usage_record) : db :=
  {| users := users d; devices := devices d; usage_records := x;
     activity_events := activity_events d; sync_log := sync_log d;
     screenshots := screenshots d; files := files d |}.

Definition set_activity_events (d : db) (x : list activity_event) : db :=
  {| users := users d; devices := devices d;
     usage_records := usage_records d;
     activity_events := x; sync_log := sync_log d;
     screenshots := screenshots d; files := files d |}.

Definition set_sync_log (d : db) (x : list sync_log_entry) : db :=
  {| users := users d; devices := devices d;
     usage_records := usage_records d;
     activity_events := activity_events d; sync_log := x;
     screenshots := screenshots d; files := files d |}.

Definition set_screenshots (d : db) (x : list screenshot) : db :=
  {| users := users d; devices := devices d;
     usage_records := usage_records d;
     activity_events := activity_events d; sync_log := sync_log d;
     screenshots := x; files := files d |}.

Definition set_files (d : db) (x : list (string * string)) : db :=
  {| users := users d; devices := devices d;
     usage_records := usage_records d;
     activity_events := activity_events d; sync_log := sync_log d;
     screenshots := screenshots d; files := x |}.

(** The columns of [UNIQUE(user_id, device_id, domain, date)]. *)
Definition merge_key : Type := (string * string * string * string)%type.

Definition key_of (r : usage_record) : merge_key :=
  (ur_user_id r, ur_device_id r, ur_domain r, ur_date r).

Definition key_eqb (a b : merge_key) : bool :=
  let '(u1, d1, m1, t1) := a in
  let '(u2, d2, m2, t2) := b in
  ((u1 =? u2) && (d1 =? d2) && (m1 =? m2) && (t1 =? t2))%string.

Fixpoint find_record (k : merge_key) (rows : list usage_record)
  : option usage_record :=
  match rows with
  | [] => None
  | r :: rest => if key_eqb (key_of r) k then Some r else find_record k rest
  end.

End Db.
Export Db.

(** ** Handlers: state and exceptions *)

Module Handler.

(** A handler body either returns a value or throws; the database it has
    reached is kept in both cases. *)
Inductive outcome (A : Type) : Type :=
| Returned (a : A)
| Thrown.
Arguments Returned {A} a.
Arguments Thrown {A}.

Definition M (A : Type) : Type := db -> outcome A * db.

Definition ret {A : Type} (a : A) : M A := fun d => (Returned a, d).

Definition throw {A : Type} : M A := fun d => (Thrown, d).

Definition bind {A B : Type} (m : M A) (f : A -> M B) : M B :=
  fun d =>
    match m d with
    | (Returned a, d') => f a d'
    | (Thrown, d') => (Thrown, d')
    end.

(** An expression that may throw. *)
Definition eval {A : Type} (o : option A) : M A :=
  match o with
  | Some a => ret a
  | None => throw
  end.

(** A [SELECT]. *)
Definition query {A : Type} (f : db -> A) : M A :=
  fun d => (Returned (f d), d).

(** An [INSERT], [UPDATE] or [DELETE] that cannot fail. *)
Definition exec (f : db -> db) : M unit :=
  fun d => (Returned tt, f d).

(** [for (const x of l) body], threading the local variables [s]. *)
Fixpoint for_of {X S : Type} (l : list X) (body : X -> S -> M S) (s : S)
  : M S :=
  match l with
  | [] => ret s
  | x :: rest => bind (body x s) (for_of rest body)
  end.

(** [try { ... } catch (err) { on_error }] *)
Definition try_catch {A : Type} (m : M A) (on_error : A) : db -> A * db :=
  fun d =>
    match m d with
    | (Returned a, d') => (a, d')
    | (Thrown, d') => (on_error, d')
    end.

End Handler.
Export Handler.

Declare Scope handler_scope.
Delimit Scope handler_scope with handler.
Notation "x <- m ;; k" := (bind m (fun x => k))
  (at level 100, m at next level, right associativity) : handler_scope.
Notation "m ;;; k" := (bind m (fun _ => k))
  (at level 100, right associativity) : handler_scope.

(** Binding on [option], for the evaluation of an argument list. *)
Notation "x <-? o ; k" := (match o with Some x => k | None => None end)
  (at level 100, o at next level, right associativity).

(** ** SQL expressions *)

Module Sql.
Section WithPlatform.
Context {P : Platform}.

(** [COALESCE(a, b)] *)
Definition coalesce {A : Type} (a b : option A) : option A :=
  match a with
  | Some _ => a
  | None => b
  end.

(** [LEAST(a, b)] on [TEXT]: PostgreSQL ignores a [NULL] argument and
    returns [NULL] only when both are. *)
Definition least (a b : option string) : option string :=
  match a, b with
  | None, _ => b
  | _, None => a
  | Some x, Some y => Some (if text_leb x y then x else y)
  end.

(** [GREATEST(a, b)] on [TEXT], with the same treatment of [NULL]. *)
Definition greatest (a b : option string) : option string :=
  match a, b with
  | None, _ => b
  | _, None => a
  | Some x, Some y => Some (if text_leb x y then y else x)
  end.

(** A parameter bound to a [TEXT] column: [null] and [undefined] are sent
    as [NULL]. *)
Definition bind_text (v : jsval) : option string :=
  match v with
  | JUndefined | JNull => None
  | _ => Some (pg_text v)
  end.

End WithPlatform.

(** [SUM(...)]: [NULL] over no rows. *)
Definition sum_of (l : list Z) : Z := fold_right Z.add 0 l.

Definition sum (l : list Z) : option Z :=
  match l with
  | [] => None
  | _ => Some (sum_of l)
  end.

(** The distinct values of a list, in the order of their first
    occurrence. *)
Fixpoint distinct {K : Type} (eqb : K -> K -> bool) (l : list K) : list K :=
  match l with
  | [] => []
  | k :: rest => k :: filter (fun k' => negb (eqb k' k)) (distinct eqb rest)
  end.

(** [COUNT(DISTINCT ...)] *)
Definition count_distinct (l : list string) : Z :=
  Z.of_nat (List.length (distinct String.eqb l)).

(** [COUNT( * )] *)
Definition count {A : Type} (l : list A) : Z := Z.of_nat (List.length l).

(** [GROUP BY key]: the groups, each with its rows. *)
Definition group_by {R K : Type} (eqb : K -> K -> bool) (key : R -> K)
  (rows : list R) : list (K * list R) :=
  map (fun k => (k, filter (fun r => eqb (key r) k) rows))
      (distinct eqb (map key rows)).

(** [ORDER BY f DESC], as a stable insertion sort: rows with equal values
    stay in table order. *)
Fixpoint insert_desc {A : Type} (f : A -> Z) (x : A) (l : list A) : list A :=
  match l with
  | [] => [x]
  | y :: rest =>
      if f y <=? f x then x :: l else y :: insert_desc f x rest
  end.

Fixpoint order_by_desc {A : Type} (f : A -> Z) (l : list A) : list A :=
  match l with
  | [] => []
  | x :: rest => insert_desc f x (order_by_desc f rest)
  end.

(** [ORDER BY f ASC], as a stable insertion sort. *)
Fixpoint insert_asc {A : Type} (f : A -> Z) (x : A) (l : list A) : list A :=
  match l with
  | [] => [x]
  | y :: rest =>
      if f x <=? f y then x :: l else y :: insert_asc f x rest
  end.

Fixpoint order_by_asc {A : Type} (f : A -> Z) (l : list A) : list A :=
  match l with
  | [] => []
  | x :: rest => insert_asc f x (order_by_asc f rest)
  end.

(** [a] comes before [b] in a descending order on [f]. *)
Definition desc {A : Type} (f : A -> Z) (a b : A) : Prop := f b <= f a.

End Sql.

(** ** [routes/sync.js]: POST /push *)

Module Sync.

(** [const { deviceId, usageData, activityEvents } = req.body] *)
Record push_body : Type := {
  deviceId : jsval;
  usageData : jsval;
  activityEvents : jsval
}.

Inductive response : Type :=
| DeviceIdRequired                                (* 400 *)
| DeviceNotFound                                  (* 404 *)
| SyncComplete (usageRecords activityEvents : Z)  (* 200 *)
| InternalServerError.                            (* 500 *)

Section WithPlatform.
Context {P : Platform}.

(** [SELECT * FROM devices WHERE id = ? AND user_id = ?] *)
Definition select_device (id : jsval) (user : string) (d : db)
  : option device :=
  find (fun dv => ((dev_id dv =? pg_text id) && (dev_user_id dv =? user))%string)
       (devices d).

(** [v ? new Date(v).toISOString() : null]; the outer [None] is the
    [RangeError] of an invalid date. *)
Definition visit_param (v : jsval) : option (option string) :=
  if truthy v then
    match toISOString v with
    | Some s => Some (Some s)
    | None => None
    end
  else Some None.

(** The ten parameters of the upsert, [VALUES (?, ?, ?, ?, ?, ?, ?, ?, ?, ?)],
    as the columns read them: the row the statement proposes
    ([EXCLUDED]). *)
Record usage_params : Type := {
  p_user_id : string;
  p_device_id : string;
  p_domain : string;
  p_title : option string;
  p_category : option string;
  p_date : string;
  p_total_seconds : Z;
  p_visits : Z;
  p_first_visit : option string;
  p_last_visit : option string
}.

Definition key_of_params (p : usage_params) : merge_key :=
  (p_user_id p, p_device_id p, p_domain p, p_date p).

(** The argument list of [.run(...)], evaluated and bound.  [None] when an
    argument throws ([data] is [null], a date is invalid) or the database
    rejects a counter. *)
Definition upsert_params (user device domain date : string) (data : jsval)
  : option usage_params :=
  title <-? get_prop data "title";
  category <-? get_prop data "category";
  totalSeconds <-? get_prop data "totalSeconds";
  visits_ <-? get_prop data "visits";
  firstVisit <-? get_prop data "firstVisit";
  lastVisit <-? get_prop data "lastVisit";
  first <-? visit_param firstVisit;
  last <-? visit_param lastVisit;
  total <-? pg_int4 (js_or totalSeconds (JNum 0));
  vis <-? pg_int4 (js_or visits_ (JNum 0));
  Some {| p_user_id := user;
          p_device_id := device;
          p_domain := domain;
          p_title := Sql.bind_text (js_or title (JStr domain));
          p_category := Sql.bind_text (js_or category (JStr "Other"));
          p_date := date;
          p_total_seconds := total;
          p_visits := vis;
          p_first_visit := first;
          p_last_visit := last |}.

(** The row a plain [INSERT] stores; [synced_at] takes its default,
    [NOW()]. *)
Definition inserted (now : Z) (e : usage_params) : usage_record :=
  {| ur_user_id := p_user_id e;
     ur_device_id := p_device_id e;
     ur_domain := p_domain e;
     ur_title := p_title e;
     ur_category := p_category e;
     ur_date := p_date e;
     total_seconds := p_total_seconds e;
     visits := p_visits e;
     first_visit := p_first_visit e;
     last_visit := p_last_visit e;
     synced_at := now |}.

(** [ON CONFLICT (user_id, device_id, domain, date) DO UPDATE SET ...]:
    [r] is the stored row, [e] the proposed one. *)
Definition on_conflict (now : Z) (r : usage_record) (e : usage_params)
  : usage_record :=
  {| ur_user_id := ur_user_id r;
     ur_device_id := ur_device_id r;
     ur_domain := ur_domain r;
     ur_title := Sql.coalesce (p_title e) (ur_title r);
     ur_category := Sql.coalesce (p_category e) (ur_category r);
     ur_date := ur_date r;
     total_seconds := Z.max (total_seconds r) (p_total_seconds e);
     visits := Z.max (visits r) (p_visits e);
     first_visit := Sql.least (first_visit r) (p_first_visit e);
     last_visit := Sql.greatest (last_visit r) (p_last_visit e);
     synced_at := now |}.

(** [INSERT INTO usage_records ... ON CONFLICT ... DO UPDATE] *)
Fixpoint upsert (now : Z) (e : usage_params) (rows : list usage_record)
  : list usage_record :=
  match rows with
  | [] => [inserted now e]
  | r :: rest =>
      if key_eqb (key_of r) (key_of_params e)
      then on_conflict now r e :: rest
      else r :: upsert now e rest
  end.

(** One iteration of the inner loop of the handler. *)
Definition upsert_entry (user device date : string) (now : Z)
  (entry : string * jsval) (usageCount : Z) : M Z :=
  (let '(domain, data) := entry in
   e <- eval (upsert_params user device domain date data) ;;
   exec (fun d => set_usage_records d (upsert now e (usage_records d))) ;;;
   ret (usageCount + 1))%handler.

(** One iteration of the outer loop. *)
Definition upsert_date (user device : string) (now : Z)
  (entry : string * jsval) (usageCount : Z) : M Z :=
  (let '(date, domains) := entry in
   entries <- eval (object_entries domains) ;;
   for_of entries (upsert_entry user device date now) usageCount)%handler.

(** The row of one activity event; [state], [timestamp] and [date] are
    [NOT NULL]. *)
Definition event_row (user device : string) (ev : jsval)
  : option activity_event :=
  state <-? get_prop ev "state";
  timestamp <-? get_prop ev "timestamp";
  date <-? get_prop ev "date";
  s <-? Sql.bind_text state;
  t <-? Sql.bind_text timestamp;
  dt <-? Sql.bind_text date;
  Some {| ae_user_id := user; ae_device_id := device;
          ae_state := s; ae_timestamp := t; ae_date := dt |}.

Definition insert_event (user device : string) (ev : jsval) (eventCount : Z)
  : M Z :=
  (row <- eval (event_row user device ev) ;;
   exec (fun d => set_activity_events d (activity_events d ++ [row])) ;;;
   ret (eventCount + 1))%handler.

(** [UPDATE devices SET last_sync_at = NOW() WHERE id = ?] *)
Definition update_last_sync (id : string) (now : Z) (d : db) : db :=
  set_devices d
    (map (fun dv =>
            if (dev_id dv =? id)%string
            then {| dev_id := dev_id dv; dev_user_id := dev_user_id dv;
                    device_name := device_name dv;
                    device_type := device_type dv;
                    last_sync_at := Some now |}
            else dv)
         (devices d)).

(** [INSERT INTO sync_log (user_id, device_id, sync_type, records_synced)] *)
Definition insert_sync_log (user device : string) (n now : Z) (d : db) : db :=
  set_sync_log d
    (sync_log d ++
     [{| sl_user_id := user; sl_device_id := device; sync_type := "push";
         records_synced := n; sl_synced_at := now |}]).

(** The body of the [try] block. *)
Definition push_body_run (user : string) (body : push_body) (now : Z)
  : M response :=
  (if js_not (deviceId body) then ret DeviceIdRequired else
   device <- query (select_device (deviceId body) user) ;;
   match device with
   | None => ret DeviceNotFound
   | Some _ =>
       let dev := pg_text (deviceId body) in
       usageCount <-
         (if truthy (usageData body) && typeof_object (usageData body) then
            dates <- eval (object_entries (usageData body)) ;;
            for_of dates (upsert_date user dev now) 0
          else ret 0) ;;
       eventCount <-
         (if truthy (activityEvents body) && isArray (activityEvents body) then
            for_of (slice_last 200 (array_items (activityEvents body)))
                   (insert_event user dev) 0
          else ret 0) ;;
       exec (update_last_sync dev now) ;;;
       exec (insert_sync_log user dev usageCount now) ;;;
       ret (SyncComplete usageCount eventCount)
   end)%handler.

(** POST /push for the authenticated [user]. *)
Definition push (user : string) (body : push_body) (now : Z) (d : db)
  : response * db :=
  try_catch (push_body_run user body now) InternalServerError d.

(** A sequence of pushes, each with its user, body and time. *)
Fixpoint pushes (l : list (string * push_body * Z)) (d : db) : db :=
  match l with
  | [] => d
  | (user, body, now) :: rest => pushes rest (snd (push user body now d))
  end.

(** *** The statements a push performs

    The control flow of the handler never reads a row it has written, so
    the upserts and inserts a push performs before it returns or throws
    are listed from the request alone.  Each list comes with a flag: [true]
    when the loop runs to its end, [false] when it throws. *)

Fixpoint entries_trace (user device date : string)
  (entries : list (string * jsval)) : list usage_params * bool :=
  match entries with
  | [] => ([], true)
  | (domain, data) :: rest =>
      match upsert_params user device domain date data with
      | None => ([], false)
      | Some e =>
          let '(es, ok) := entries_trace user device date rest in
          (e :: es, ok)
      end
  end.

Fixpoint dates_trace (user device : string) (dates : list (string * jsval))
  : list usage_params * bool :=
  match dates with
  | [] => ([], true)
  | (date, domains) :: rest =>
      match object_entries domains with
      | None => ([], false)
      | Some entries =>
          let '(es, ok) := entries_trace user device date entries in
          if ok then
            let '(es', ok') := dates_trace user device rest in
            (es ++ es', ok')
          else (es, false)
      end
  end.

Definition usage_trace (user device : string) (usageData : jsval)
  : list usage_params * bool :=
  if truthy usageData && typeof_object usageData then
    match object_entries usageData with
    | Some dates => dates_trace user device dates
    | None => ([], false)
    end
  else ([], true).

Fixpoint events_trace (user device : string) (events : list jsval)
  : list activity_event * bool :=
  match events with
  | [] => ([], true)
  | ev :: rest =>
      match event_row user device ev with
      | None => ([], false)
      | Some row =>
          let '(rows, ok) := events_trace user device rest in
          (row :: rows, ok)
      end
  end.

Definition upsert_all (now : Z) (es : list usage_params)
  (rows : list usage_record) : list usage_record :=
  fold_left (fun rows e => upsert now e rows) es rows.

(** The fields of a usage record that a merge compares: its key, its
    counters and its visit window. *)
Definition merged_fields (r : usage_record)
  : merge_key * Z * Z * option string * option string :=
  (key_of r, total_seconds r, visits r, first_visit r, last_visit r).

(** [m] is the earliest of [a] and [b], [NULL] being no bound. *)
Definition earliest_of (m a b : option string) : Prop :=
  match m with
  | None => a = None /\ b = None
  | Some x =>
      (a = Some x \/ b = Some x) /\
      (forall y, a = Some y -> text_leb x y = true) /\
      (forall y, b = Some y -> text_leb x y = true)
  end.

(** [m] is the latest of [a] and [b], [NULL] being no bound. *)
Definition latest_of (m a b : option string) : Prop :=
  match m with
  | None => a = None /\ b = None
  | Some x =>
      (a = Some x \/ b = Some x) /\
      (forall y, a = Some y -> text_leb y x = true) /\
      (forall y, b = Some y -> text_leb y x = true)
  end.

End WithPlatform.
End Sync.

(** ** POST /push: notions for its properties *)

Module SyncNotions.
Section WithPlatform.
Context {P : Platform}.

(** The events the handler inserts: the last 200 of the array. *)
Definition accepted_events (activityEvents : jsval) : list jsval :=
  if truthy activityEvents && isArray activityEvents
  then slice_last 200 (array_items activityEvents) else [].

(** The database and the response of a push, statement by statement. *)
Definition push_outcome (user : string) (body : Sync.push_body) (now : Z)
  (d : db) : Sync.response * db :=
  if js_not (Sync.deviceId body) then (Sync.DeviceIdRequired, d) else
  match Sync.select_device (Sync.deviceId body) user d with
  | None => (Sync.DeviceNotFound, d)
  | Some _ =>
      let dev := pg_text (Sync.deviceId body) in
      let ut := Sync.usage_trace user dev (Sync.usageData body) in
      let d1 :=
        set_usage_records d (Sync.upsert_all now (fst ut) (usage_records d)) in
      if snd ut then
        let et :=
          Sync.events_trace user dev
            (accepted_events (Sync.activityEvents body)) in
        let d2 := set_activity_events d1 (activity_events d1 ++ fst et) in
        if snd et then
          let n := Z.of_nat (List.length (fst ut)) in
          (Sync.SyncComplete n (Z.of_nat (List.length (fst et))),
           Sync.insert_sync_log user dev n now
             (Sync.update_last_sync dev now d2))
        else (Sync.InternalServerError, d2)
      else (Sync.InternalServerError, d1)
  end.

Definition is_some {A : Type} (o : option A) : bool :=
  match o with Some _ => true | None => false end.

(** The device [dv] with its [last_sync_at] set. *)
Definition synced (now : Z) (dv : device) : device :=
  {| dev_id := dev_id dv; dev_user_id := dev_user_id dv;
     device_name := device_name dv; device_type := device_type dv;
     last_sync_at := Some now |}.

(** The rows a push proposes, in the order it upserts them. *)
Definition usage_written (user : string) (body : Sync.push_body) (d : db)
  : list Sync.usage_params :=
  if js_not (Sync.deviceId body) then [] else
  match Sync.select_device (Sync.deviceId body) user d with
  | None => []
  | Some _ =>
      fst (Sync.usage_trace user (pg_text (Sync.deviceId body))
                            (Sync.usageData body))
  end.

Definition no_regress (rows rows' : list usage_record) : Prop :=
  forall k r,
    find_record k rows = Some r ->
    exists r', find_record k rows' = Some r' /\
               total_seconds r <= total_seconds r' /\
               visits r <= visits r'.

(** The stored row for the key of [e] already dominates [e]: merging [e]
    again changes neither counter nor the visit window. *)
Definition absorbed (e : Sync.usage_params) (rows : list usage_record)
  : Prop :=
  exists r,
    find_record (Sync.key_of_params e) rows = Some r /\
    Sync.p_total_seconds e <= total_seconds r /\
    Sync.p_visits e <= visits r /\
    Sql.least (first_visit r) (Sync.p_first_visit e) = first_visit r /\
    Sql.greatest (last_visit r) (Sync.p_last_visit e) = last_visit r.

End WithPlatform.
End SyncNotions.

(** ** [routes/screenshots.js]: POST /upload and POST /upload-base64 *)

Module Screenshots.

(** The metadata fields of the request body. *)
Record fields : Type := {
  f_deviceId : jsval;
  f_domain : jsval;
  f_title : jsval;
  f_url : jsval;
  f_category : jsval;
  f_timestamp : jsval;
  f_date : jsval
}.

Inductive response : Type :=
| NoFileUploaded                       (* 400 *)
| DataUrlRequired                      (* 400 *)
| InvalidDataUrl                       (* 400 *)
| Uploaded (id filename : string)      (* 201 *)
| InternalServerError.                 (* 500 *)

(** The per-user limit of POST /upload-base64. *)
Definition limit : Z := 200.

(** [\w] *)
Definition is_word (c : ascii) : bool :=
  let n := nat_of_ascii c in
  ((48 <=? n) && (n <=? 57) || (65 <=? n) && (n <=? 90) ||
   (97 <=? n) && (n <=? 122) || (n =? 95))%nat.

(** The longest prefix of word characters, and what follows it. *)
Fixpoint span_word (s : string) : string * string :=
  match s with
  | EmptyString => (EmptyString, EmptyString)
  | String c rest =>
      if is_word c
      then let '(w, r) := span_word rest in (String c w, r)
      else (EmptyString, s)
  end.

Fixpoint strip_prefix (p s : string) : option string :=
  match p, s with
  | EmptyString, _ => Some s
  | String a p', String b s' =>
      if Ascii.eqb a b then strip_prefix p' s' else None
  | String _ _, EmptyString => None
  end.

(** Whether [.] matches every character: it rejects the line
    terminators. *)
Fixpoint single_line (s : string) : bool :=
  match s with
  | EmptyString => true
  | String c rest =>
      negb ((nat_of_ascii c =? 10) || (nat_of_ascii c =? 13))%nat
      && single_line rest
  end.

(** [s.match(/^data:image\/(\w+);base64,(.+)$/)]: the two groups.  After
    the greedy [\w+] the next character is not a word character, so no
    shorter match of the group can succeed. *)
Definition match_data_url (s : string) : option (string * string) :=
  match strip_prefix "data:image/" s with
  | None => None
  | Some r =>
      let '(w, r') := span_word r in
      if (w =? "")%string then None else
      match strip_prefix ";base64," r' with
      | None => None
      | Some payload =>
          if (payload =? "")%string || negb (single_line payload)
          then None else Some (w, payload)
      end
  end.

(** [dataUrl.match(...)]: a [TypeError] when [dataUrl] is not a string. *)
Definition js_match (dataUrl : jsval) : option (option (string * string)) :=
  match dataUrl with
  | JStr s => Some (match_data_url s)
  | _ => None
  end.

Definition decimal (n : Z) : string := NilZero.string_of_int (Z.to_int n).

Definition has_file (user filename : string) (d : db) : bool :=
  existsb (fun f => (fst f =? user) && (snd f =? filename))%string (files d).

(** [fs.writeFileSync(path.join(userDir, filename), buffer)], and the file
    multer stores *)
Definition write_file (user filename : string) (d : db) : db :=
  if has_file user filename d then d
  else set_files d (files d ++ [(user, filename)]).

(** [if (fs.existsSync(fp)) fs.unlinkSync(fp)] *)
Definition unlink_if_exists (user filename : string) (d : db) : db :=
  set_files d
    (filter (fun f => negb ((fst f =? user) && (snd f =? filename))%string)
            (files d)).

(** [DELETE FROM screenshots WHERE id = ?] *)
Definition delete_screenshot (id : string) (d : db) : db :=
  set_screenshots d
    (filter (fun s => negb (ss_id s =? id)%string) (screenshots d)).

Definition of_user (user : string) (d : db) : list screenshot :=
  filter (fun s => (ss_user_id s =? user)%string) (screenshots d).

(** [SELECT COUNT( * ) as c FROM screenshots WHERE user_id = ?] *)
Definition count_of_user (user : string) (d : db) : Z :=
  Sql.count (of_user user d).

(** [SELECT id, filename FROM screenshots WHERE user_id = ?
     ORDER BY created_at ASC LIMIT ?] *)
Definition select_oldest (user : string) (n : Z) (d : db) : list screenshot :=
  firstn (Z.to_nat n) (Sql.order_by_asc created_at (of_user user d)).

Section WithPlatform.
Context {P : Platform}.

(** The row of the [INSERT]: the argument list of [.run(...)].  [None]
    when [new Date().toISOString()] throws. *)
Definition screenshot_row (id user filename : string) (size : Z)
  (f : fields) (now : Z) : option screenshot :=
  timestamp <-? (if truthy (f_timestamp f) then Some (pg_text (f_timestamp f))
                 else toISOString (JNum now));
  date <-? (if truthy (f_date f) then Some (pg_text (f_date f))
            else option_map (substring 0 10) (toISOString (JNum now)));
  Some {| ss_id := id;
          ss_user_id := user;
          ss_device_id := pg_text (js_or (f_deviceId f) (JStr "unknown"));
          ss_filename := filename;
          ss_domain := pg_text (js_or (f_domain f) (JStr "unknown"));
          ss_title := pg_text (js_or (f_title f) (JStr ""));
          ss_url := pg_text (js_or (f_url f) (JStr ""));
          ss_category := pg_text (js_or (f_category f) (JStr "Other"));
          ss_timestamp := timestamp;
          ss_date := date;
          file_size := size;
          created_at := now |}.

(** [INSERT INTO screenshots ...]: the database rejects a duplicate [id]
    (primary key), an unknown [user_id] and an unknown [device_id] (foreign
    keys). *)
Definition insert_screenshot (row : screenshot) : M unit :=
  fun d =>
    if negb (existsb (fun s => (ss_id s =? ss_id row)%string) (screenshots d))
       && existsb (String.eqb (ss_user_id row)) (users d)
       && existsb (fun dv => (dev_id dv =? ss_device_id row)%string)
                  (devices d)
    then (Returned tt, set_screenshots d (screenshots d ++ [row]))
    else (Thrown, d).

(** POST /upload.  [file] is [req.file], the file multer has stored in the
    user's directory before the handler runs: its generated name and its
    size; [id] is the [uuidv4()] of the handler. *)
Definition upload (user : string) (file : option (string * Z)) (f : fields)
  (id : string) (now : Z) (d : db) : response * db :=
  let d := match file with
           | Some (filename, _) => write_file user filename d
           | None => d
           end in
  try_catch
    (match file with
     | None => ret NoFileUploaded
     | Some (filename, size) =>
         row <- eval (screenshot_row id user filename size f now) ;;
         insert_screenshot row ;;;
         ret (Uploaded id filename)
     end)%handler
    InternalServerError d.

(** The body of the loop that removes one of the oldest screenshots. *)
Definition remove_oldest (user : string) (ss : screenshot) (_ : unit)
  : M unit :=
  (exec (unlink_if_exists user (ss_filename ss)) ;;;
   exec (delete_screenshot (ss_id ss)))%handler.

(** [// Enforce per-user limit (200)] *)
Definition enforce_limit (user : string) : M unit :=
  (c <- query (count_of_user user) ;;
   if c >? limit then
     oldest <- query (select_oldest user (c - limit)) ;;
     for_of oldest (remove_oldest user) tt
   else ret tt)%handler.

(** POST /upload-base64.  [uuid_name] and [id] are the two [uuidv4()] of
    the handler, [now] is [Date.now()]. *)
Definition upload_base64 (user : string) (dataUrl : jsval) (f : fields)
  (uuid_name id : string) (now : Z) (d : db) : response * db :=
  try_catch
    (if js_not dataUrl then ret DataUrlRequired else
     matches <- eval (js_match dataUrl) ;;
     match matches with
     | None => ret InvalidDataUrl
     | Some (m1, m2) =>
         let ext := if (m1 =? "jpeg")%string then "jpg" else m1 in
         let size := base64_byteLength m2 in
         let filename :=
           (decimal now ++ "-" ++ substring 0 8 uuid_name ++ "." ++ ext)%string
         in
         exec (write_file user filename) ;;;
         row <- eval (screenshot_row id user filename size f now) ;;
         insert_screenshot row ;;;
         enforce_limit user ;;;
         ret (Uploaded id filename)
     end)%handler
    InternalServerError d.

End WithPlatform.
End Screenshots.

(** ** Screenshots: notions for their properties *)

Module ScreenshotNotions.

(** Whether [s] has the id of one of [removed]. *)
Definition id_among (removed : list screenshot) (s : screenshot) : bool :=
  existsb (fun o => (ss_id s =? ss_id o)%string) removed.

(** The state after the loop over [oldest]. *)
Definition removed_all (user : string) (oldest : list screenshot) (d : db)
  : db :=
  fold_left
    (fun d o =>
       Screenshots.delete_screenshot (ss_id o)
         (Screenshots.unlink_if_exists user (ss_filename o) d))
    oldest d.

End ScreenshotNotions.

(** ** [routes/analytics.js]: GET /daily and GET /top-domains *)

Module Analytics.

(** [x || dflt] for the result [x] of [parseInt], [None] being [NaN]. *)
Definition or_default (x : option Z) (dflt : Z) : Z :=
  match x with
  | Some n => if n =? 0 then dflt else n
  | None => dflt
  end.

(** [parseInt(v) || 0] for a value [v] read from a result row: the number
    the row holds, 0 for [NULL] or a missing row. *)
Definition parseInt_or_0 (v : option Z) : Z := or_default v 0.

Definition opt_eqb (a b : option string) : bool :=
  match a, b with
  | Some x, Some y => (x =? y)%string
  | None, None => true
  | _, _ => false
  end.

(** The columns of [GROUP BY domain, title, category]. *)
Definition site_key : Type := (string * option string * option string)%type.

Definition site_of (r : usage_record) : site_key :=
  (ur_domain r, ur_title r, ur_category r).

Definition site_eqb (a b : site_key) : bool :=
  let '(d1, t1, c1) := a in
  let '(d2, t2, c2) := b in
  (d1 =? d2)%string && opt_eqb t1 t2 && opt_eqb c1 c2.

(** A row of [sites], by the values of its columns.  How the driver
    hands the two sums over, and how they leave in the response, is in
    [DailyBody]. *)
Record site_row : Type := {
  s_domain : string;
  s_title : option string;
  s_category : option string;
  s_total_seconds : Z;
  s_visits : Z
}.

(** [totals] *)
Record totals_row : Type := {
  totalSeconds : Z;
  totalVisits : Z;
  totalDomains : Z
}.

(** A row of [categories], by the values of its columns. *)
Record category_row : Type := {
  c_category : option string;
  c_total_seconds : Z;
  c_total_visits : Z;
  c_sites : Z
}.

(** A row of [deviceBreakdown], by the values of its columns. *)
Record device_row : Type := {
  b_device_name : string;
  b_device_type : string;
  b_total_seconds : Z;
  b_total_visits : Z;
  b_domains : Z
}.

(** The results of the queries of GET /daily, by their values, with
    [totals] and [screenshotCount] as the handler converts them; the body
    it sends is [DailyBody.body]. *)
Record daily_summary : Type := {
  date : jsval;
  sites : list site_row;
  totals : totals_row;
  categories : list category_row;
  deviceBreakdown : list device_row;
  screenshotCount : Z
}.

(** A row of [domains], by the values of its columns. *)
Record domain_row : Type := {
  t_domain : string;
  t_title : option string;
  t_category : option string;
  t_total_seconds : Z;
  t_total_visits : Z;
  t_active_days : Z
}.

Section WithPlatform.
Context {P : Platform}.

(** [FROM usage_records WHERE user_id = ? AND date = ?] *)
Definition records_on (user date : string) (d : db) : list usage_record :=
  filter (fun r => ((ur_user_id r =? user) && (ur_date r =? date))%string)
         (usage_records d).

(** [SELECT domain, title, category, SUM(total_seconds), SUM(visits) ...
     GROUP BY domain, title, category ORDER BY total_seconds DESC].
    A group is never empty, so its sums are not [NULL]. *)
Definition select_sites (rows : list usage_record) : list site_row :=
  Sql.order_by_desc s_total_seconds
    (map (fun g : site_key * list usage_record =>
            let '(domain, title, category) := fst g in
            {| s_domain := domain; s_title := title; s_category := category;
               s_total_seconds := Sql.sum_of (map total_seconds (snd g));
               s_visits := Sql.sum_of (map visits (snd g)) |})
         (Sql.group_by site_eqb site_of rows)).

(** [SELECT category, SUM(total_seconds), SUM(visits),
     COUNT(DISTINCT domain) ... GROUP BY category
     ORDER BY total_seconds DESC] *)
Definition select_categories (rows : list usage_record)
  : list category_row :=
  Sql.order_by_desc c_total_seconds
    (map (fun g : option string * list usage_record =>
            {| c_category := fst g;
               c_total_seconds := Sql.sum_of (map total_seconds (snd g));
               c_total_visits := Sql.sum_of (map visits (snd g));
               c_sites := Sql.count_distinct (map ur_domain (snd g)) |})
         (Sql.group_by opt_eqb ur_category rows)).

(** [FROM usage_records ur JOIN devices d ON ur.device_id = d.id] *)
Definition join_devices (rows : list usage_record) (d : db)
  : list (usage_record * device) :=
  flat_map (fun r =>
              map (fun dv => (r, dv))
                  (filter (fun dv => (dev_id dv =? ur_device_id r)%string)
                          (devices d)))
           rows.

(** [SELECT d.device_name, d.device_type, SUM(ur.total_seconds),
     SUM(ur.visits), COUNT(DISTINCT ur.domain) ...
     GROUP BY d.device_name, d.device_type] *)
Definition select_devices (rows : list usage_record) (d : db)
  : list device_row :=
  map (fun g : (string * string) * list (usage_record * device) =>
         {| b_device_name := fst (fst g);
            b_device_type := snd (fst g);
            b_total_seconds :=
              Sql.sum_of (map (fun x => total_seconds (fst x)) (snd g));
            b_total_visits :=
              Sql.sum_of (map (fun x => visits (fst x)) (snd g));
            b_domains :=
              Sql.count_distinct (map (fun x => ur_domain (fst x)) (snd g)) |})
      (Sql.group_by
         (fun a b : string * string =>
            ((fst a =? fst b) && (snd a =? snd b))%string)
         (fun x => (device_name (snd x), device_type (snd x)))
         (join_devices rows d)).

(** GET /daily for the authenticated [user]; [qdate] is [req.query.date],
    [now] is the current time.  [None] is the 500 response. *)
Definition daily (user : string) (qdate : jsval) (now : Z) (d : db)
  : option daily_summary :=
  dt <-? (if truthy qdate then Some qdate
          else option_map (fun s => JStr (substring 0 10 s))
                          (toISOString (JNum now)));
  let rows := records_on user (pg_text dt) d in
  let ss :=
    filter (fun s => ((ss_user_id s =? user) && (ss_date s =? pg_text dt))%string)
           (screenshots d) in
  Some {| date := dt;
          sites := select_sites rows;
          totals :=
            {| totalSeconds :=
                 parseInt_or_0
                   (Sql.coalesce (Sql.sum (map total_seconds rows)) (Some 0));
               totalVisits :=
                 parseInt_or_0
                   (Sql.coalesce (Sql.sum (map visits rows)) (Some 0));
               totalDomains :=
                 parseInt_or_0
                   (Some (Sql.count_distinct (map ur_domain rows))) |};
          categories := select_categories rows;
          deviceBreakdown := select_devices rows d;
          screenshotCount := parseInt_or_0 (Some (Sql.count ss)) |}.

(** [FROM usage_records WHERE user_id = ? AND date >= ?] *)
Definition records_since (user since : string) (d : db)
  : list usage_record :=
  filter (fun r => (ur_user_id r =? user)%string && text_leb since (ur_date r))
         (usage_records d).

(** [SELECT domain, title, category, SUM(total_seconds), SUM(visits),
     COUNT(DISTINCT date) ... GROUP BY domain, title, category
     ORDER BY total_seconds DESC] *)
Definition select_domains (rows : list usage_record) : list domain_row :=
  Sql.order_by_desc t_total_seconds
    (map (fun g : site_key * list usage_record =>
            let '(domain, title, category) := fst g in
            {| t_domain := domain; t_title := title; t_category := category;
               t_total_seconds := Sql.sum_of (map total_seconds (snd g));
               t_total_visits := Sql.sum_of (map visits (snd g));
               t_active_days := Sql.count_distinct (map ur_date (snd g)) |})
         (Sql.group_by site_eqb site_of rows)).

(** GET /top-domains for the authenticated [user]; [period] and [lim] are
    [parseInt(req.query.period)] and [parseInt(req.query.limit)], [None]
    being [NaN]; [now] is [Date.now()].  The result is [domains] and
    [period]; [None] is the 500 response: the date is out of range, or the
    database rejects a negative [LIMIT]. *)
Definition top_domains (user : string) (period lim : option Z) (now : Z)
  (d : db) : option (list domain_row * Z) :=
  let days := Z.min (or_default period 7) 90 in
  let limit := Z.min (or_default lim 20) 100 in
  iso <-? toISOString (JNum (now - days * 86400000));
  let since := substring 0 10 iso in
  if limit <? 0 then None
  else Some (firstn (Z.to_nat limit) (select_domains (records_since user since d)),
             days).

End WithPlatform.
End Analytics.

(** ** GET /daily: the body as it is sent *)

Module DailyBody.

(** node-pg hands a [bigint] over as its decimal text.  [SUM] over an
    [INTEGER] column and [COUNT] have that type, so a result row carries
    them as strings, and [res.json] sends a row as it is. *)
Definition bigint (n : Z) : jsval := JStr (Screenshots.decimal n).

(** A nullable [TEXT] column. *)
Definition text (o : option string) : jsval :=
  match o with
  | Some s => JStr s
  | None => JNull
  end.

(** [SELECT domain, title, category, SUM(total_seconds) as total_seconds,
     SUM(visits) as visits] *)
Definition site_json (row : Analytics.site_row) : jsval :=
  JObj [("domain", JStr (Analytics.s_domain row));
        ("title", text (Analytics.s_title row));
        ("category", text (Analytics.s_category row));
        ("total_seconds", bigint (Analytics.s_total_seconds row));
        ("visits", bigint (Analytics.s_visits row))].

(** [SELECT category, SUM(total_seconds) as total_seconds,
     SUM(visits) as total_visits, COUNT(DISTINCT domain) as sites] *)
Definition category_json (row : Analytics.category_row) : jsval :=
  JObj [("category", text (Analytics.c_category row));
        ("total_seconds", bigint (Analytics.c_total_seconds row));
        ("total_visits", bigint (Analytics.c_total_visits row));
        ("sites", bigint (Analytics.c_sites row))].

(** [SELECT d.device_name, d.device_type, SUM(ur.total_seconds) as
     total_seconds, SUM(ur.visits) as total_visits,
     COUNT(DISTINCT ur.domain) as domains] *)
Definition device_json (row : Analytics.device_row) : jsval :=
  JObj [("device_name", JStr (Analytics.b_device_name row));
        ("device_type", JStr (Analytics.b_device_type row));
        ("total_seconds", bigint (Analytics.b_total_seconds row));
        ("total_visits", bigint (Analytics.b_total_visits row));
        ("domains", bigint (Analytics.b_domains row))].

(** [res.json({ date, sites, totals: { totalSeconds: parseInt(...)||0,
     totalVisits: parseInt(...)||0, totalDomains: parseInt(...)||0 },
     categories, deviceBreakdown, screenshotCount: parseInt(...)||0 })]:
    the rows go out as the driver returned them; only [totals] and
    [screenshotCount] are numbers. *)
Definition body (s : Analytics.daily_summary) : jsval :=
  JObj [("date", Analytics.date s);
        ("sites", JArr (map site_json (Analytics.sites s)));
        ("totals",
         JObj [("totalSeconds",
                JNum (Analytics.totalSeconds (Analytics.totals s)));
               ("totalVisits",
                JNum (Analytics.totalVisits (Analytics.totals s)));
               ("totalDomains",
                JNum (Analytics.totalDomains (Analytics.totals s)))]);
        ("categories", JArr (map category_json (Analytics.categories s)));
        ("deviceBreakdown",
         JArr (map device_json (Analytics.deviceBreakdown s)));
        ("screenshotCount", JNum (Analytics.screenshotCount s))].

(** [typeof v === 'number']; the numbers of the embedding are integers. *)
Definition is_integer (v : jsval) : bool :=
  match v with JNum _ => true | _ => false end.

(** The numeric fields of a row, as they are sent. *)
Definition site_numbers (v : jsval) : list (option jsval) :=
  [get_prop v "total_seconds"; get_prop v "visits"].

Definition category_numbers (v : jsval) : list (option jsval) :=
  [get_prop v "total_seconds"; get_prop v "total_visits";
   get_prop v "sites"].

Definition device_numbers (v : jsval) : list (option jsval) :=
  [get_prop v "total_seconds"; get_prop v "total_visits";
   get_prop v "domains"].

Section WithPlatform.
Context {P : Platform}.

(** The 200 response of GET /daily; [None] is the 500 response. *)
Definition daily_body (user : string) (qdate : jsval) (now : Z) (d : db)
  : option jsval :=
  option_map body (Analytics.daily user qdate now d).

End WithPlatform.
End DailyBody.

(** ** Analytics: what the specification sums *)

Module AnalyticsSpec.

(** The sum of [f] over the records that satisfy [p]. *)
Fixpoint sum_where (p : usage_record -> bool) (f : usage_record -> Z)
  (rows : list usage_record) : Z :=
  match rows with
  | [] => 0
  | r :: rest => (if p r then f r else 0) + sum_where p f rest
  end.

(** The number of distinct dates among the records that satisfy [p]. *)
Definition days_where (p : usage_record -> bool) (rows : list usage_record)
  : Z :=
  Z.of_nat (List.length (nodup string_dec (map ur_date (filter p rows)))).

(** The record belongs to [user] and is dated [date]. *)
Definition on_day (user date : string) (r : usage_record) : bool :=
  ((ur_user_id r =? user) && (ur_date r =? date))%string.

(** The record belongs to [user] and is dated [since] or later. *)
Definition in_window {P : Platform} (user since : string) (r : usage_record)
  : bool :=
  (ur_user_id r =? user)%string && text_leb since (ur_date r).

(** The record has the domain, title and category [k]. *)
Definition of_site (k : Analytics.site_key) (r : usage_record) : bool :=
  Analytics.site_eqb (Analytics.site_of r) k.

(** The record has the domain [domain]. *)
Definition of_domain (domain : string) (r : usage_record) : bool :=
  (ur_domain r =? domain)%string.

Definition site_row_key (row : Analytics.site_row) : Analytics.site_key :=
  (Analytics.s_domain row, Analytics.s_title row, Analytics.s_category row).

Definition domain_row_key (row : Analytics.domain_row) : Analytics.site_key :=
  (Analytics.t_domain row, Analytics.t_title row, Analytics.t_category row).

(** [ranking] ranks the (domain, title, category) groups of the records
    that satisfy [window]: one row for each group that has a record, with
    the sums and the distinct dates of the group, in descending order of
    [total_seconds]. *)
Definition group_ranking (window : usage_record -> bool)
  (records : list usage_record) (ranking : list Analytics.domain_row)
  : Prop :=
  Sorted (Sql.desc Analytics.t_total_seconds) ranking /\
  NoDup (map domain_row_key ranking) /\
  (forall row,
     In row ranking ->
     let group r := window r && of_site (domain_row_key row) r in
     Analytics.t_total_seconds row = sum_where group total_seconds records /\
     Analytics.t_total_visits row = sum_where group visits records /\
     Analytics.t_active_days row = days_where group records /\
     exists r, In r records /\ group r = true) /\
  (forall r,
     In r records -> window r = true ->
     exists row, In row ranking /\ domain_row_key row = Analytics.site_of r).

(** Every domain of the window has one title and one category there. *)
Definition single_titled (window : usage_record -> bool)
  (records : list usage_record) : Prop :=
  forall r r',
    In r records -> In r' records -> window r = true -> window r' = true ->
    ur_domain r = ur_domain r' -> Analytics.site_of r = Analytics.site_of r'.

(** Each row of [ranking] holds the sums and the distinct dates of all the
    records of its domain that satisfy [window]. *)
Definition domain_ranking (window : usage_record -> bool)
  (records : list usage_record) (ranking : list Analytics.domain_row)
  : Prop :=
  forall row,
    In row ranking ->
    let whole r := window r && of_domain (Analytics.t_domain row) r in
    Analytics.t_total_seconds row = sum_where whole total_seconds records /\
    Analytics.t_total_visits row = sum_where whole visits records /\
    Analytics.t_active_days row = days_where whole records.

Definition site_row_of (g : Analytics.site_key * list usage_record)
  : Analytics.site_row :=
  let '(domain, title, category) := fst g in
  {| Analytics.s_domain := domain; Analytics.s_title := title;
     Analytics.s_category := category;
     Analytics.s_total_seconds := Sql.sum_of (map total_seconds (snd g));
     Analytics.s_visits := Sql.sum_of (map visits (snd g)) |}.

Definition domain_row_of (g : Analytics.site_key * list usage_record)
  : Analytics.domain_row :=
  let '(domain, title, category) := fst g in
  {| Analytics.t_domain := domain; Analytics.t_title := title;
     Analytics.t_category := category;
     Analytics.t_total_seconds := Sql.sum_of (map total_seconds (snd g));
     Analytics.t_total_visits := Sql.sum_of (map visits (snd g));
     Analytics.t_active_days := Sql.count_distinct (map ur_date (snd g)) |}.

End AnalyticsSpec.

(** ** A reference platform

    Concrete runtime functions for the examples: [Date] on epoch
    milliseconds and on timestamps that already are in the form
    [toISOString] prints, the driver's conversions on strings, numbers and
    booleans, and the byte order on text. *)

Module Reference.

Definition digit (n : Z) : ascii := ascii_of_nat (48 + Z.to_nat (n mod 10)).

(** The last [width] decimal digits of [n]. *)
Fixpoint pad (width : nat) (n : Z) : string :=
  match width with
  | O => EmptyString
  | S w => (pad w (n / 10) ++ String (digit n) EmptyString)%string
  end.

(** The civil date of a day number counted from 1970-01-01. *)
Definition civil_from_days (days : Z) : Z * Z * Z :=
  let z := days + 719468 in
  let era := z / 146097 in
  let doe := z - era * 146097 in
  let yoe := (doe - doe / 1460 + doe / 36524 - doe / 146096) / 365 in
  let doy := doe - (365 * yoe + yoe / 4 - yoe / 100) in
  let mp := (5 * doy + 2) / 153 in
  let d := doy - (153 * mp + 2) / 5 + 1 in
  let m := if mp <? 10 then mp + 3 else mp - 9 in
  let y := yoe + era * 400 + (if m <=? 2 then 1 else 0) in
  (y, m, d).

(** The day number of a civil date. *)
Definition days_from_civil (y m d : Z) : Z :=
  let y' := if m <=? 2 then y - 1 else y in
  let era := y' / 400 in
  let yoe := y' - era * 400 in
  let doy := (153 * (if 2 <? m then m - 3 else m + 9) + 2) / 5 + d - 1 in
  let doe := yoe * 365 + yoe / 4 - yoe / 100 + doy in
  era * 146097 + doe - 719468.

Definition max_time : Z := 8640000000000000.

(** [new Date(ms).toISOString()] *)
Definition iso_of_ms (ms : Z) : option string :=
  if (ms <? - max_time) || (max_time <? ms) then None else
  let days := ms / 86400000 in
  let t := ms mod 86400000 in
  let '(y, m, d) := civil_from_days days in
  let year :=
    if (0 <=? y) && (y <=? 9999) then pad 4 y
    else ((if (y <? 0)%Z then "-" else "+") ++ pad 6 (Z.abs y))%string in
  Some (year ++ "-" ++ pad 2 m ++ "-" ++ pad 2 d ++ "T" ++
        pad 2 (t / 3600000)%Z ++ ":" ++ pad 2 (t / 60000 mod 60)%Z ++ ":" ++
        pad 2 (t / 1000 mod 60)%Z ++ "." ++ pad 3 (t mod 1000)%Z ++ "Z")%string.

Definition number_at (start len : nat) (s : string) : option Z :=
  option_map Z.of_uint (NilEmpty.uint_of_string (substring start len s)).

(** A timestamp of the form [YYYY-MM-DDTHH:mm:ss.sssZ] that names an
    existing instant is printed back unchanged; any other string is taken
    for an invalid date. *)
Definition iso_of_string (s : string) : option string :=
  y <-? number_at 0 4 s;
  m <-? number_at 5 2 s;
  d <-? number_at 8 2 s;
  h <-? number_at 11 2 s;
  mi <-? number_at 14 2 s;
  sec <-? number_at 17 2 s;
  ms <-? number_at 20 3 s;
  if (h <? 24) && (mi <? 60) && (sec <? 60) then
    match iso_of_ms (days_from_civil y m d * 86400000 + h * 3600000 +
                     mi * 60000 + sec * 1000 + ms) with
    | Some s' => if (s' =? s)%string then Some s else None
    | None => None
    end
  else None.

(** [new Date(v).toISOString()]: [null] and the booleans convert to the
    numbers 0 and 1; [undefined], arrays and objects are taken for invalid
    dates. *)
Definition toISOString (v : jsval) : option string :=
  match v with
  | JNum ms => iso_of_ms ms
  | JStr s => iso_of_string s
  | JNull | JBool false => iso_of_ms 0
  | JBool true => iso_of_ms 1
  | _ => None
  end.

(** The text of a parameter; the serialisation of an array or an object is
    left out and stands as the empty text. *)
Definition pg_text (v : jsval) : string :=
  match v with
  | JStr s => s
  | JNum n => NilZero.string_of_int (Z.to_int n)
  | JBool true => "true"
  | JBool false => "false"
  | _ => ""
  end.

Definition in_int4 (n : Z) : bool := (int4_min <=? n) && (n <=? int4_max).

(** An [INTEGER] read from a parameter: a number, or a string that is a
    decimal numeral, within the 32-bit range. *)
Definition pg_int4 (v : jsval) : option Z :=
  match v with
  | JNum n => if in_int4 n then Some n else None
  | JStr s =>
      if (s =? "")%string then None else
      match NilZero.int_of_string s with
      | Some i => if in_int4 (Z.of_int i) then Some (Z.of_int i) else None
      | None => None
      end
  | _ => None
  end.

(** The characters of the base64 alphabet carry six bits each. *)
Definition is_base64 (c : ascii) : bool :=
  let n := nat_of_ascii c in
  ((48 <=? n) && (n <=? 57) || (65 <=? n) && (n <=? 90) ||
   (97 <=? n) && (n <=? 122) || (n =? 43) || (n =? 47))%nat.

Definition base64_byteLength (s : string) : Z :=
  Z.of_nat (List.length (filter is_base64 (list_ascii_of_string s))) * 6 / 8.

End Reference.

(** ** Example data *)

Module Examples.

Definition laptop : device :=
  {| dev_id := "dev1"; dev_user_id := "u1"; device_name := "Laptop";
     device_type := "chrome"; last_sync_at := None |}.

(** One user with one device and nothing recorded yet. *)
Definition fresh : db :=
  {| users := ["u1"]; devices := [laptop]; usage_records := [];
     activity_events := []; sync_log := []; screenshots := [];
     files := [] |}.

(** The report [{"2024-01-01": {"example.com": stats}}]. *)
Definition report (stats : list (string * jsval)) : jsval :=
  JObj [("2024-01-01", JObj [("example.com", JObj stats)])].

Definition body_of (usage : jsval) : Sync.push_body :=
  {| Sync.deviceId := JStr "dev1"; Sync.usageData := usage;
     Sync.activityEvents := JUndefined |}.

(** [{totalSeconds: 100, visits: 2}], with a title, a category and a visit
    window. *)
Definition first_push : Sync.push_body :=
  body_of (report [("title", JStr "Example"); ("category", JStr "Work");
                   ("totalSeconds", JNum 100); ("visits", JNum 2);
                   ("firstVisit", JStr "2024-01-01T09:00:00.000Z");
                   ("lastVisit", JStr "2024-01-01T10:00:00.000Z")]).

(** [{totalSeconds: 80, visits: 5}], without title or category. *)
Definition second_push : Sync.push_body :=
  body_of (report [("totalSeconds", JNum 80); ("visits", JNum 5);
                   ("firstVisit", JStr "2024-01-01T08:00:00.000Z")]).

Definition example_key : merge_key :=
  ("u1", "dev1", "example.com", "2024-01-01").

(** The record the first push stores. *)
Definition first_record : usage_record :=
  {| ur_user_id := "u1"; ur_device_id := "dev1"; ur_domain := "example.com";
     ur_title := Some "Example"; ur_category := Some "Work";
     ur_date := "2024-01-01"; total_seconds := 100; visits := 2;
     first_visit := Some "2024-01-01T09:00:00.000Z";
     last_visit := Some "2024-01-01T10:00:00.000Z"; synced_at := 1000 |}.

(** A report whose second date maps to [null] instead of a mapping. *)
Definition malformed_push : Sync.push_body :=
  body_of (JObj [("2024-01-01",
                  JObj [("example.com", JObj [("totalSeconds", JNum 100)])]);
                 ("2024-01-02", JNull)]).

(** Whether a value is an object all of whose values satisfy [inner]. *)
Definition mapping_of (inner : jsval -> bool) (v : jsval) : bool :=
  match v with
  | JObj props => forallb (fun kv => inner (snd kv)) props
  | _ => false
  end.

Definition is_object (v : jsval) : bool :=
  match v with JObj _ => true | _ => false end.

(** A report of the expected shape: a mapping from dates to mappings from
    domains to objects. *)
Definition two_level_mapping (v : jsval) : bool :=
  mapping_of (mapping_of is_object) v.

(** The [i]-th screenshot of user [u1], taken at time [i]. *)
Definition shot (i : nat) : screenshot :=
  {| ss_id := ("shot-" ++ index_key i)%string;
     ss_user_id := "u1";
     ss_device_id := "dev1";
     ss_filename := (index_key i ++ ".jpg")%string;
     ss_domain := "example.com";
     ss_title := "";
     ss_url := "";
     ss_category := "Other";
     ss_timestamp := "2024-01-01T09:00:00.000Z";
     ss_date := "2024-01-01";
     file_size := 1024;
     created_at := Z.of_nat i |}.

(** User [u1] holds exactly 200 screenshots, files included. *)
Definition at_limit : db :=
  {| users := ["u1"]; devices := [laptop]; usage_records := [];
     activity_events := []; sync_log := [];
     screenshots := map shot (seq 0 200);
     files := map (fun i => ("u1", ss_filename (shot i))) (seq 0 200) |}.

Definition metadata : Screenshots.fields :=
  {| Screenshots.f_deviceId := JStr "dev1";
     Screenshots.f_domain := JStr "example.com";
     Screenshots.f_title := JUndefined;
     Screenshots.f_url := JUndefined;
     Screenshots.f_category := JUndefined;
     Screenshots.f_timestamp := JUndefined;
     Screenshots.f_date := JUndefined |}.

Definition upload_time : Z := 1704099600000.

Definition stats (title : string) (seconds : Z) : jsval :=
  JObj [("title", JStr title); ("category", JStr "Work");
        ("totalSeconds", JNum seconds); ("visits", JNum 1)].

(** Two days on which [a.com] is reported under two page titles, 300 s
    each, and one day of [b.com], 500 s. *)
Definition two_titles_push : Sync.push_body :=
  body_of
    (JObj [("2024-01-02", JObj [("a.com", stats "A - home" 300);
                                ("b.com", stats "B" 500)]);
           ("2024-01-03", JObj [("a.com", stats "A - docs" 300)])]).

(** The usage records that push leaves in the fresh database. *)
Definition two_titles : db :=
  {| users := ["u1"];
     devices :=
       [{| dev_id := "dev1"; dev_user_id := "u1"; device_name := "Laptop";
           device_type := "chrome"; last_sync_at := Some 1000 |}];
     usage_records :=
       [{| ur_user_id := "u1"; ur_device_id := "dev1"; ur_domain := "a.com";
           ur_title := Some "A - home"; ur_category := Some "Work";
           ur_date := "2024-01-02"; total_seconds := 300; visits := 1;
           first_visit := None; last_visit := None; synced_at := 1000 |};
        {| ur_user_id := "u1"; ur_device_id := "dev1"; ur_domain := "b.com";
           ur_title := Some "B"; ur_category := Some "Work";
           ur_date := "2024-01-02"; total_seconds := 500; visits := 1;
           first_visit := None; last_visit := None; synced_at := 1000 |};
        {| ur_user_id := "u1"; ur_device_id := "dev1"; ur_domain := "a.com";
           ur_title := Some "A - docs"; ur_category := Some "Work";
           ur_date := "2024-01-03"; total_seconds := 300; visits := 1;
           first_visit := None; last_visit := None; synced_at := 1000 |}];
     activity_events := [];
     sync_log :=
       [{| sl_user_id := "u1"; sl_device_id := "dev1"; sync_type := "push";
           records_synced := 3; sl_synced_at := 1000 |}];
     screenshots := []; files := [] |}.

(** 2024-01-05T00:00:00Z *)
Definition query_time : Z := 1704412800000.

(** A usage record of user [u1] on device [dev1]. *)
Definition visit_record (domain title date : string) (seconds : Z)
  : usage_record :=
  {| ur_user_id := "u1"; ur_device_id := "dev1"; ur_domain := domain;
     ur_title := Some title; ur_category := Some "Work"; ur_date := date;
     total_seconds := seconds; visits := 1; first_visit := None;
     last_visit := None; synced_at := 1000 |}.

Definition with_records (rows : list usage_record) : db :=
  {| users := ["u1"]; devices := [laptop]; usage_records := rows;
     activity_events := []; sync_log := []; screenshots := [];
     files := [] |}.

(** Two domains in the window: [a.com] with 250 s on each of two days
    under one title, 500 s in all, and [b.com] with 300 s. *)
Definition one_title : db :=
  with_records [visit_record "a.com" "A" "2024-01-02" 250;
                visit_record "b.com" "B" "2024-01-02" 300;
                visit_record "a.com" "A" "2024-01-03" 250].

(** The same seconds, with [a.com] reported under two page titles. *)
Definition split_titles : db :=
  with_records [visit_record "a.com" "A - home" "2024-01-02" 250;
                visit_record "b.com" "B" "2024-01-02" 300;
                visit_record "a.com" "A - docs" "2024-01-03" 250].

Definition summary (row : Analytics.domain_row) : string * Z * Z :=
  (Analytics.t_domain row, Analytics.t_total_seconds row,
   Analytics.t_active_days row).

End Examples.

(** ** Further handlers *)

(** ** [models/database.js]: the placeholders of a statement *)

Module Database.

(** The body of [sql.replace(/\?/g, () => `$${++i}`)], with [i] placeholders
    already numbered. *)
Fixpoint convert_from (i : nat) (sql : string) : string :=
  match sql with
  | EmptyString => EmptyString
  | String c rest =>
      if Ascii.eqb c "?"
      then ("$" ++ index_key (S i) ++ convert_from (S i) rest)%string
      else String c (convert_from i rest)
  end.

(** [convertPlaceholders(sql)] *)
Definition convertPlaceholders (sql : string) : string := convert_from 0 sql.

(** The number of occurrences of a character. *)
Fixpoint count_char (c : ascii) (s : string) : nat :=
  match s with
  | EmptyString => O
  | String c' rest =>
      ((if Ascii.eqb c' c then 1 else 0) + count_char c rest)%nat
  end.

End Database.

(** ** SQL: ordering by a comparison, and aggregates on text *)

Module SqlOrder.

(** [ORDER BY], as a stable insertion sort: [before x y] tells that [x] may
    precede [y]. *)
Fixpoint insert_by {A : Type} (before : A -> A -> bool) (x : A) (l : list A)
  : list A :=
  match l with
  | [] => [x]
  | y :: rest => if before x y then x :: l else y :: insert_by before x rest
  end.

Fixpoint order_by {A : Type} (before : A -> A -> bool) (l : list A) : list A :=
  match l with
  | [] => []
  | x :: rest => insert_by before x (order_by before rest)
  end.

Section WithPlatform.
Context {P : Platform}.

(** [a < b] on [TEXT] *)
Definition text_ltb (a b : string) : bool := negb (text_leb b a).

(** [ORDER BY date DESC, total_seconds DESC] *)
Definition date_desc_total_desc {A : Type} (date : A -> string)
  (total : A -> Z) (x y : A) : bool :=
  if text_ltb (date y) (date x) then true
  else if text_ltb (date x) (date y) then false
  else total y <=? total x.

(** [MIN(...)] on [TEXT]: [NULL] values are skipped, and the result is
    [NULL] when there is no other. *)
Definition min_text (l : list (option string)) : option string :=
  fold_right Sql.least None l.

(** [MAX(...)] on [TEXT] *)
Definition max_text (l : list (option string)) : option string :=
  fold_right Sql.greatest None l.

End WithPlatform.
End SqlOrder.

(** ** [routes/sync.js]: GET /pull and GET /full *)

Module SyncRead.

(** The columns of [GROUP BY domain, title, category, date]. *)
Definition pull_key : Type :=
  (string * option string * option string * string)%type.

Definition pull_key_of (r : usage_record) : pull_key :=
  (ur_domain r, ur_title r, ur_category r, ur_date r).

Definition pull_key_eqb (a b : pull_key) : bool :=
  let '(d1, t1, c1, x1) := a in
  let '(d2, t2, c2, x2) := b in
  (d1 =? d2)%string && Analytics.opt_eqb t1 t2 && Analytics.opt_eqb c1 c2
  && (x1 =? x2)%string.

(** A row of [records] of GET /pull. *)
Record pull_row : Type := {
  r_domain : string;
  r_title : option string;
  r_category : option string;
  r_date : string;
  r_total_seconds : Z;
  r_visits : Z;
  r_first_visit : option string;
  r_last_visit : option string
}.

(** A row of [records] of GET /full. *)
Record full_row : Type := {
  f_domain : string;
  f_title : option string;
  f_category : option string;
  f_date : string;
  f_device_id : string;
  f_total_seconds : Z;
  f_visits : Z;
  f_first_visit : option string;
  f_last_visit : option string
}.

(** [SELECT domain, title, category, date, device_id, total_seconds, visits,
     first_visit, last_visit] *)
Definition full_row_of (r : usage_record) : full_row :=
  {| f_domain := ur_domain r; f_title := ur_title r;
     f_category := ur_category r; f_date := ur_date r;
     f_device_id := ur_device_id r; f_total_seconds := total_seconds r;
     f_visits := visits r; f_first_visit := first_visit r;
     f_last_visit := last_visit r |}.

Section WithPlatform.
Context {P : Platform}.

(** [SELECT domain, title, category, date, SUM(total_seconds),
     SUM(visits), MIN(first_visit), MAX(last_visit) ...
     GROUP BY domain, title, category, date] *)
Definition pull_groups (rows : list usage_record) : list pull_row :=
  map (fun g : pull_key * list usage_record =>
         let '(domain, title, category, date) := fst g in
         {| r_domain := domain; r_title := title; r_category := category;
            r_date := date;
            r_total_seconds := Sql.sum_of (map total_seconds (snd g));
            r_visits := Sql.sum_of (map visits (snd g));
            r_first_visit := SqlOrder.min_text (map first_visit (snd g));
            r_last_visit := SqlOrder.max_text (map last_visit (snd g)) |})
      (Sql.group_by pull_key_eqb pull_key_of rows).

(** GET /pull for the authenticated [user]; [qdate] and [qsince] are
    [req.query.date] and [req.query.since], [now] is [Date.now()].  [None]
    is the 500 response. *)
Definition pull (user : string) (qdate qsince : jsval) (now : Z) (d : db)
  : option (list pull_row) :=
  if truthy qdate then
    Some (Sql.order_by_desc r_total_seconds
            (pull_groups (Analytics.records_on user (pg_text qdate) d)))
  else
    since <-? (if truthy qsince then Some qsince
               else option_map (fun s => JStr (substring 0 10 s))
                               (toISOString (JNum (now - 7 * 86400000))));
    Some (SqlOrder.order_by
            (SqlOrder.date_desc_total_desc r_date r_total_seconds)
            (pull_groups (Analytics.records_since user (pg_text since) d))).

(** GET /full; [qdays] is [parseInt(req.query.days)], [None] being [NaN].
    The result is [records] and [days]. *)
Definition full (user : string) (qdays : option Z) (now : Z) (d : db)
  : option (list full_row * Z) :=
  let days := Z.min (Analytics.or_default qdays 7) 90 in
  iso <-? toISOString (JNum (now - days * 86400000));
  Some (map full_row_of
          (SqlOrder.order_by
             (SqlOrder.date_desc_total_desc ur_date total_seconds)
             (Analytics.records_since user (substring 0 10 iso) d)),
        days).

End WithPlatform.
End SyncRead.

(** ** [routes/screenshots.js]: GET /, GET /image/:id and DELETE /:id *)

Module ScreenshotRoutes.

(** A row of GET /: [SELECT id, device_id, domain, title, url, category,
    timestamp, date, file_size, created_at]. *)
Record listed : Type := {
  l_id : string;
  l_device_id : string;
  l_domain : string;
  l_title : string;
  l_url : string;
  l_category : string;
  l_timestamp : string;
  l_date : string;
  l_file_size : Z;
  l_created_at : Z
}.

Definition listed_of (s : screenshot) : listed :=
  {| l_id := ss_id s; l_device_id := ss_device_id s;
     l_domain := ss_domain s; l_title := ss_title s; l_url := ss_url s;
     l_category := ss_category s; l_timestamp := ss_timestamp s;
     l_date := ss_date s; l_file_size := file_size s;
     l_created_at := created_at s |}.

Inductive image_response : Type :=
| ScreenshotNotFound                   (* 404 'Screenshot not found' *)
| FileNotFound                         (* 404 'File not found' *)
| SendFile (user filename : string).   (* the file of the user's directory *)

Inductive delete_response : Type :=
| DeleteNotFound                       (* 404 'Screenshot not found' *)
| ScreenshotDeleted.                   (* 200 *)

(** [SELECT * FROM screenshots WHERE id = ? AND user_id = ?] *)
Definition select_screenshot (id user : string) (d : db)
  : option screenshot :=
  find (fun s => ((ss_id s =? id) && (ss_user_id s =? user))%string)
       (screenshots d).

(** GET /image/:id *)
Definition image (user id : string) (d : db) : image_response :=
  match select_screenshot id user d with
  | None => ScreenshotNotFound
  | Some ss =>
      if Screenshots.has_file user (ss_filename ss) d
      then SendFile user (ss_filename ss)
      else FileNotFound
  end.

(** DELETE /:id *)
Definition delete (user id : string) (d : db) : delete_response * db :=
  match select_screenshot id user d with
  | None => (DeleteNotFound, d)
  | Some ss =>
      (ScreenshotDeleted,
       Screenshots.delete_screenshot id
         (Screenshots.unlink_if_exists user (ss_filename ss) d))
  end.

Section WithPlatform.
Context {P : Platform}.

(** The [WHERE] clause GET / builds: [user_id = ?], then [AND date = ?] and
    [AND device_id = ?] for the query parameters that are given. *)
Definition list_where (user : string) (qdate qdevice : jsval)
  (s : screenshot) : bool :=
  (ss_user_id s =? user)%string
  && (if truthy qdate then (ss_date s =? pg_text qdate)%string else true)
  && (if truthy qdevice then (ss_device_id s =? pg_text qdevice)%string
      else true).

(** [ORDER BY timestamp DESC] *)
Definition timestamp_desc (x y : screenshot) : bool :=
  text_leb (ss_timestamp y) (ss_timestamp x).

(** GET /; [qlimit] is [parseInt(req.query.limit)].  The handler has no
    [try]: [None] is the rejection of the query, a negative [LIMIT]. *)
Definition list_screenshots (user : string) (qdate qdevice : jsval)
  (qlimit : option Z) (d : db) : option (list listed) :=
  let lim := Z.min (Analytics.or_default qlimit 50) 200 in
  if lim <? 0 then None
  else Some (map listed_of
               (firstn (Z.to_nat lim)
                  (SqlOrder.order_by timestamp_desc
                     (filter (list_where user qdate qdevice)
                             (screenshots d))))).

End WithPlatform.
End ScreenshotRoutes.

(** ** [routes/analytics.js]: GET /weekly and GET /trends *)

Module Trends.

(** A row of [daily] of GET /weekly. *)
Record day_row : Type := {
  w_date : string;
  w_total_seconds : Z;
  w_total_visits : Z;
  w_total_domains : Z
}.

(** A row of [topSites]. *)
Record top_site_row : Type := {
  ts_domain : string;
  ts_title : option string;
  ts_category : option string;
  ts_total_seconds : Z;
  ts_total_visits : Z
}.

(** A row of [categories]. *)
Record week_category_row : Type := {
  wc_category : option string;
  wc_total_seconds : Z;
  wc_total_visits : Z
}.

(** The body of the response of GET /weekly. *)
Record weekly_summary : Type := {
  daily : list day_row;
  topSites : list top_site_row;
  categories : list week_category_row;
  weeks : Z;
  since : string
}.

(** [thisWeek] and [lastWeek] of GET /trends. *)
Record week_totals : Type := {
  total_seconds_ : Z;
  total_visits_ : Z;
  total_domains_ : Z;
  active_days_ : Z
}.

(** A row of [thisWeekCategories] and [lastWeekCategories]. *)
Record trend_category : Type := {
  tc_category : option string;
  tc_total_seconds : Z
}.

(** The body of the response of GET /trends. *)
Record trends_summary : Type := {
  thisWeek : week_totals;
  lastWeek : week_totals;
  thisWeekCategories : list trend_category;
  lastWeekCategories : list trend_category
}.

(** [SELECT COALESCE(SUM(total_seconds),0), COALESCE(SUM(visits),0),
     COUNT(DISTINCT domain), COUNT(DISTINCT date)] *)
Definition totals_of (rows : list usage_record) : week_totals :=
  {| total_seconds_ :=
       match Sql.coalesce (Sql.sum (map total_seconds rows)) (Some 0) with
       | Some n => n
       | None => 0
       end;
     total_visits_ :=
       match Sql.coalesce (Sql.sum (map visits rows)) (Some 0) with
       | Some n => n
       | None => 0
       end;
     total_domains_ := Sql.count_distinct (map ur_domain rows);
     active_days_ := Sql.count_distinct (map ur_date rows) |}.

(** [SELECT category, SUM(total_seconds) ... GROUP BY category
     ORDER BY total_seconds DESC] *)
Definition categories_of (rows : list usage_record) : list trend_category :=
  Sql.order_by_desc tc_total_seconds
    (map (fun g : option string * list usage_record =>
            {| tc_category := fst g;
               tc_total_seconds := Sql.sum_of (map total_seconds (snd g)) |})
         (Sql.group_by Analytics.opt_eqb ur_category rows)).

(** [SELECT date, SUM(total_seconds), SUM(visits), COUNT(DISTINCT domain)
     ... GROUP BY date] *)
Definition days_of (rows : list usage_record) : list day_row :=
  map (fun g : string * list usage_record =>
         {| w_date := fst g;
            w_total_seconds := Sql.sum_of (map total_seconds (snd g));
            w_total_visits := Sql.sum_of (map visits (snd g));
            w_total_domains := Sql.count_distinct (map ur_domain (snd g)) |})
      (Sql.group_by String.eqb ur_date rows).

(** [SELECT domain, title, category, SUM(total_seconds), SUM(visits) ...
     GROUP BY domain, title, category ORDER BY total_seconds DESC
     LIMIT 20] *)
Definition top_sites_of (rows : list usage_record) : list top_site_row :=
  firstn 20
    (Sql.order_by_desc ts_total_seconds
       (map (fun g : Analytics.site_key * list usage_record =>
               let '(domain, title, category) := fst g in
               {| ts_domain := domain; ts_title := title;
                  ts_category := category;
                  ts_total_seconds := Sql.sum_of (map total_seconds (snd g));
                  ts_total_visits := Sql.sum_of (map visits (snd g)) |})
            (Sql.group_by Analytics.site_eqb Analytics.site_of rows))).

(** [SELECT category, SUM(total_seconds), SUM(visits) ... GROUP BY category
     ORDER BY total_seconds DESC] *)
Definition week_categories_of (rows : list usage_record)
  : list week_category_row :=
  Sql.order_by_desc wc_total_seconds
    (map (fun g : option string * list usage_record =>
            {| wc_category := fst g;
               wc_total_seconds := Sql.sum_of (map total_seconds (snd g));
               wc_total_visits := Sql.sum_of (map visits (snd g)) |})
         (Sql.group_by Analytics.opt_eqb ur_category rows)).

Section WithPlatform.
Context {P : Platform}.

(** [FROM usage_records WHERE user_id = ? AND date >= ? AND date < ?] *)
Definition records_between (user from to : string) (d : db)
  : list usage_record :=
  filter (fun r => (ur_user_id r =? user)%string
                   && text_leb from (ur_date r)
                   && SqlOrder.text_ltb (ur_date r) to)
         (usage_records d).

(** GET /weekly; [qweeks] is [parseInt(req.query.weeks)].  [None] is the
    500 response. *)
Definition weekly (user : string) (qweeks : option Z) (now : Z) (d : db)
  : option weekly_summary :=
  let weeks := Z.min (Analytics.or_default qweeks 4) 12 in
  let days := weeks * 7 in
  iso <-? toISOString (JNum (now - days * 86400000));
  let since := substring 0 10 iso in
  let rows := Analytics.records_since user since d in
  Some {| daily :=
            SqlOrder.order_by (fun x y => text_leb (w_date x) (w_date y))
                              (days_of rows);
          topSites := top_sites_of rows;
          categories := week_categories_of rows;
          weeks := weeks;
          since := since |}.

(** GET /trends.  [None] is the 500 response. *)
Definition trends (user : string) (now : Z) (d : db)
  : option trends_summary :=
  this <-? toISOString (JNum (now - 7 * 86400000));
  last <-? toISOString (JNum (now - 14 * 86400000));
  today <-? toISOString (JNum now);
  let thisWeekStart := substring 0 10 this in
  let lastWeekStart := substring 0 10 last in
  let this_rows := Analytics.records_since user thisWeekStart d in
  let last_rows := records_between user lastWeekStart thisWeekStart d in
  Some {| thisWeek := totals_of this_rows;
          lastWeek := totals_of last_rows;
          thisWeekCategories := categories_of this_rows;
          lastWeekCategories := categories_of last_rows |}.

End WithPlatform.
End Trends.

(** ** [routes/devices.js]: POST /, PUT /:id and DELETE /:id *)

Module Devices.

Inductive response : Type :=
| DeviceNameRequired                                  (* 400 *)
| DeviceRegistered (id : string) (deviceName deviceType : jsval)  (* 201 *)
| DeviceNotFound                                      (* 404 *)
| DeviceUpdated                                       (* 200 *)
| DeviceRemoved                                       (* 200 *)
| InternalServerError.                                (* 500 *)

(** [SELECT * FROM devices WHERE id = ? AND user_id = ?], for the [id] of
    the path. *)
Definition select_own (id user : string) (d : db) : option device :=
  find (fun dv => ((dev_id dv =? id) && (dev_user_id dv =? user))%string)
       (devices d).

(** [INSERT INTO devices (id, user_id, device_name, device_type)]: the
    database rejects a duplicate [id] (primary key) and an unknown
    [user_id] (foreign key). *)
Definition insert_device (row : device) : M unit :=
  fun d =>
    if negb (existsb (fun dv => (dev_id dv =? dev_id row)%string) (devices d))
       && existsb (String.eqb (dev_user_id row)) (users d)
    then (Returned tt, set_devices d (devices d ++ [row]))
    else (Thrown, d).

(** [DELETE FROM devices WHERE id = ?], with the [ON DELETE CASCADE] of
    [usage_records], [screenshots] and [activity_events]; [sync_log] has no
    foreign key to [devices], and the files are not touched. *)
Definition delete_device (id : string) (d : db) : db :=
  {| users := users d;
     devices := filter (fun dv => negb (dev_id dv =? id)%string) (devices d);
     usage_records :=
       filter (fun r => negb (ur_device_id r =? id)%string) (usage_records d);
     activity_events :=
       filter (fun e => negb (ae_device_id e =? id)%string)
              (activity_events d);
     sync_log := sync_log d;
     screenshots :=
       filter (fun s => negb (ss_device_id s =? id)%string) (screenshots d);
     files := files d |}.

(** [UPDATE devices SET device_name = ? WHERE id = ?] *)
Definition rename_device (id name : string) (d : db) : db :=
  set_devices d
    (map (fun dv =>
            if (dev_id dv =? id)%string
            then {| dev_id := dev_id dv; dev_user_id := dev_user_id dv;
                    device_name := name; device_type := device_type dv;
                    last_sync_at := last_sync_at dv |}
            else dv)
         (devices d)).

(** DELETE /:id.  The handler has no [try]; its statements cannot fail. *)
Definition remove (user id : string) (d : db) : response * db :=
  match select_own id user d with
  | None => (DeviceNotFound, d)
  | Some _ => (DeviceRemoved, delete_device id d)
  end.

Section WithPlatform.
Context {P : Platform}.

(** POST /: [id] is the [uuidv4()] of the handler. *)
Definition register (user : string) (deviceName deviceType : jsval)
  (id : string) (d : db) : response * db :=
  try_catch
    (if js_not deviceName then ret DeviceNameRequired else
     let type := js_or deviceType (JStr "other") in
     insert_device {| dev_id := id; dev_user_id := user;
                      device_name := pg_text deviceName;
                      device_type := pg_text type;
                      last_sync_at := None |} ;;;
     ret (DeviceRegistered id deviceName type))%handler
    InternalServerError d.

(** PUT /:id; [deviceName] is [req.body.deviceName].  The handler has no
    [try]: [Thrown] is the rejection of the [UPDATE] when the name is
    [NULL], which [device_name TEXT NOT NULL] refuses. *)
Definition update (user id : string) (deviceName : jsval) : M response :=
  (device <- query (select_own id user) ;;
   match device with
   | None => ret DeviceNotFound
   | Some _ =>
       name <- eval (Sql.bind_text deviceName) ;;
       exec (rename_device id name) ;;;
       ret DeviceUpdated
   end)%handler.

End WithPlatform.
End Devices.

(** ** Further handlers: notions for their properties *)

Module ReadNotions.

(** The columns a row of GET /pull is grouped by. *)
Definition pull_row_key (row : SyncRead.pull_row) : SyncRead.pull_key :=
  (SyncRead.r_domain row, SyncRead.r_title row, SyncRead.r_category row,
   SyncRead.r_date row).

(** Every character is a word character. *)
Fixpoint all_word (s : string) : bool :=
  match s with
  | EmptyString => true
  | String c rest => Screenshots.is_word c && all_word rest
  end.

(** The files a loop over [oldest] leaves. *)
Definition file_among (user : string) (removed : list screenshot)
  (f : string * string) : bool :=
  existsb (fun o => ((fst f =? user) && (snd f =? ss_filename o))%string)
          removed.

End ReadNotions.

(** ** Example data for the further handlers *)

Module Scenarios.
Import Examples.

(** Two proposed rows for the key of [first_record]. *)
Definition morning : Sync.usage_params :=
  {| Sync.p_user_id := "u1"; Sync.p_device_id := "dev1";
     Sync.p_domain := "example.com"; Sync.p_title := Some "Example";
     Sync.p_category := Some "Work"; Sync.p_date := "2024-01-01";
     Sync.p_total_seconds := 120; Sync.p_visits := 1;
     Sync.p_first_visit := Some "2024-01-01T07:00:00.000Z";
     Sync.p_last_visit := Some "2024-01-01T07:30:00.000Z" |}.

Definition evening : Sync.usage_params :=
  {| Sync.p_user_id := "u1"; Sync.p_device_id := "dev1";
     Sync.p_domain := "example.com"; Sync.p_title := None;
     Sync.p_category := None; Sync.p_date := "2024-01-01";
     Sync.p_total_seconds := 90; Sync.p_visits := 7;
     Sync.p_first_visit := None;
     Sync.p_last_visit := Some "2024-01-01T21:00:00.000Z" |}.

Definition event (state timestamp : string) : jsval :=
  JObj [("state", JStr state); ("timestamp", JStr timestamp);
        ("date", JStr "2024-01-01")].

(** A push that carries two activity events and no usage report. *)
Definition events_push : Sync.push_body :=
  {| Sync.deviceId := JStr "dev1"; Sync.usageData := JUndefined;
     Sync.activityEvents :=
       JArr [event "active" "2024-01-01T09:00:00.000Z";
             event "idle" "2024-01-01T09:05:00.000Z"] |}.

(** User [u1] holds two screenshots, files included. *)
Definition two_shots : db :=
  {| users := ["u1"; "u2"]; devices := [laptop]; usage_records := [];
     activity_events := []; sync_log := [];
     screenshots := [shot 0; shot 1];
     files := [("u1", ss_filename (shot 0)); ("u1", ss_filename (shot 1))] |}.

End Scenarios.

(** * Properties *)

(** ** The reference platform is a platform *)

Module ReferenceFacts.

Lemma ascii_compare_trans_le (a b c : ascii) :
  Ascii.compare a b <> Gt -> Ascii.compare b c <> Gt ->
  Ascii.compare a c <> Gt.
Proof.
  unfold Ascii.compare. rewrite !N.compare_le_iff. apply N.le_trans.
Qed.

Lemma ascii_compare_refl (a : ascii) : Ascii.compare a a = Eq.
Proof. unfold Ascii.compare. apply N.compare_refl. Qed.

Lemma string_compare_trans_le (a : string) :
  forall b c, String.compare a b <> Gt -> String.compare b c <> Gt ->
              String.compare a c <> Gt.
Proof.
  induction a as [|x a IH]; intros [|y b] [|z c]; simpl;
    try congruence.
  intros Hab Hbc.
  destruct (Ascii.compare x y) eqn:Exy; try congruence.
  - apply Ascii.compare_eq_iff in Exy. subst y.
    destruct (Ascii.compare x z) eqn:Exz; try congruence.
    now apply IH with b.
  - destruct (Ascii.compare y z) eqn:Eyz; try congruence.
    + apply Ascii.compare_eq_iff in Eyz. subst z.
      rewrite Exy. congruence.
    + assert (Hxz : Ascii.compare x z <> Gt).
      { apply ascii_compare_trans_le with y; congruence. }
      destruct (Ascii.compare x z) eqn:Exz; try congruence.
      apply Ascii.compare_eq_iff in Exz. subst z.
      rewrite Ascii.compare_antisym, Exy in Eyz. discriminate.
Qed.

Lemma leb_compare (a b : string) :
  String.leb a b = true <-> String.compare a b <> Gt.
Proof.
  unfold String.leb. destruct (String.compare a b); split; congruence.
Qed.

Lemma string_leb_trans (a b c : string) :
  String.leb a b = true -> String.leb b c = true -> String.leb a c = true.
Proof.
  rewrite !leb_compare. apply string_compare_trans_le.
Qed.

Lemma in_int4_range (n : Z) :
  int4_min <= n <= int4_max -> Reference.in_int4 n = true.
Proof.
  unfold Reference.in_int4. intros [Hlo Hhi].
  apply andb_true_intro. split; now apply Z.leb_le.
Qed.

Lemma reference_int4_of_number (n : Z) :
  int4_min <= n <= int4_max -> Reference.pg_int4 (JNum n) = Some n.
Proof.
  intros H. simpl. now rewrite in_int4_range.
Qed.

End ReferenceFacts.

Definition reference_platform : Platform := {|
  toISOString := Reference.toISOString;
  pg_text := Reference.pg_text;
  pg_int4 := Reference.pg_int4;
  text_leb := String.leb;
  base64_byteLength := Reference.base64_byteLength;
  pg_text_JStr := fun s => eq_refl;
  pg_int4_JNum := ReferenceFacts.reference_int4_of_number;
  text_leb_total := String.leb_total;
  text_leb_antisym := String.leb_antisym;
  text_leb_trans := ReferenceFacts.string_leb_trans
|}.

(** ** Tables and keys *)

Module DbFacts.

Lemma key_eqb_eq (a b : merge_key) : key_eqb a b = true <-> a = b.
Proof.
  destruct a as [[[u1 d1] m1] t1], b as [[[u2 d2] m2] t2]. simpl.
  rewrite !andb_true_iff, !String.eqb_eq. split.
  - intros [[[-> ->] ->] ->]. reflexivity.
  - intros [= -> -> -> ->]. auto.
Qed.

Lemma key_eqb_refl (a : merge_key) : key_eqb a a = true.
Proof. now apply key_eqb_eq. Qed.

Lemma key_eqb_neq (a b : merge_key) : key_eqb a b = false <-> a <> b.
Proof.
  rewrite <- key_eqb_eq. destruct (key_eqb a b); split; congruence.
Qed.

Lemma set_usage_records_same (d : db) :
  set_usage_records d (usage_records d) = d.
Proof. now destruct d. Qed.

Lemma set_usage_records_twice (d : db) (x y : list usage_record) :
  set_usage_records (set_usage_records d x) y = set_usage_records d y.
Proof. reflexivity. Qed.

Lemma set_activity_events_same (d : db) :
  set_activity_events d (activity_events d) = d.
Proof. now destruct d. Qed.

Lemma find_record_some (k : merge_key) (rows : list usage_record)
  (r : usage_record) :
  find_record k rows = Some r -> In r rows /\ key_of r = k.
Proof.
  induction rows as [|x rows IH]; cbn [find_record In]; [discriminate|].
  destruct (key_eqb (key_of x) k) eqn:E.
  - intros [= ->]. apply key_eqb_eq in E. auto.
  - intros H. destruct (IH H). auto.
Qed.

End DbFacts.

(** ** POST /push: what a push writes *)

Module SyncFacts.
Import DbFacts SyncNotions.
Section WithPlatform.
Context {P : Platform}.

Lemma run_entries (user device date : string) (now : Z)
  (entries : list (string * jsval)) :
  forall (n : Z) (d : db),
    for_of entries (Sync.upsert_entry user device date now) n d =
    let t := Sync.entries_trace user device date entries in
    ((if snd t then Returned (n + Z.of_nat (List.length (fst t))) else Thrown),
     set_usage_records d (Sync.upsert_all now (fst t) (usage_records d))).
Proof.
  induction entries as [|[domain data] rest IH]; intros n d; simpl.
  - unfold ret. now rewrite Z.add_0_r, set_usage_records_same.
  - unfold bind at 1. unfold Sync.upsert_entry at 1.
    unfold bind, eval, exec, ret, throw.
    destruct (Sync.upsert_params user device domain date data) as [e|].
    + rewrite IH.
      destruct (Sync.entries_trace user device date rest) as [es ok].
      cbn [fst snd List.length Sync.upsert_all fold_left].
      rewrite set_usage_records_twice. cbn [usage_records set_usage_records].
      destruct ok; [|reflexivity].
      do 2 f_equal. lia.
    + cbn. now rewrite set_usage_records_same.
Qed.

Lemma upsert_all_app (now : Z) (es es' : list Sync.usage_params)
  (rows : list usage_record) :
  Sync.upsert_all now (es ++ es') rows =
  Sync.upsert_all now es' (Sync.upsert_all now es rows).
Proof. apply fold_left_app. Qed.

Lemma run_dates (user device : string) (now : Z)
  (dates : list (string * jsval)) :
  forall (n : Z) (d : db),
    for_of dates (Sync.upsert_date user device now) n d =
    let t := Sync.dates_trace user device dates in
    ((if snd t then Returned (n + Z.of_nat (List.length (fst t))) else Thrown),
     set_usage_records d (Sync.upsert_all now (fst t) (usage_records d))).
Proof.
  induction dates as [|[date domains] rest IH]; intros n d; simpl.
  - unfold ret. now rewrite Z.add_0_r, set_usage_records_same.
  - unfold bind at 1. unfold Sync.upsert_date at 1.
    unfold bind, eval, ret, throw.
    destruct (object_entries domains) as [entries|].
    + rewrite run_entries.
      destruct (Sync.entries_trace user device date entries) as [es ok].
      cbn [fst snd]. destruct ok.
      * rewrite IH.
        destruct (Sync.dates_trace user device rest) as [es' ok'].
        cbn [fst snd]. rewrite set_usage_records_twice.
        cbn [usage_records set_usage_records].
        rewrite upsert_all_app, length_app, Nat2Z.inj_add.
        destruct ok'; [|reflexivity].
        do 2 f_equal. lia.
      * reflexivity.
    + cbn. now rewrite set_usage_records_same.
Qed.

Lemma run_events (user device : string) (events : list jsval) :
  forall (n : Z) (d : db),
    for_of events (Sync.insert_event user device) n d =
    let t := Sync.events_trace user device events in
    ((if snd t then Returned (n + Z.of_nat (List.length (fst t))) else Thrown),
     set_activity_events d (activity_events d ++ fst t)).
Proof.
  induction events as [|ev rest IH]; intros n d; simpl.
  - unfold ret. now rewrite Z.add_0_r, app_nil_r, set_activity_events_same.
  - unfold bind at 1. unfold Sync.insert_event at 1.
    unfold bind, eval, exec, ret, throw.
    destruct (Sync.event_row user device ev) as [row|].
    + rewrite IH.
      destruct (Sync.events_trace user device rest) as [rows ok].
      cbn [fst snd List.length activity_events set_activity_events].
      rewrite <- app_assoc. cbn [app].
      assert (E : forall x,
                 set_activity_events
                   (set_activity_events d (activity_events d ++ [row])) x =
                 set_activity_events d x) by reflexivity.
      rewrite E. destruct ok; [|reflexivity].
      do 2 f_equal. lia.
    + cbn. now rewrite app_nil_r, set_activity_events_same.
Qed.

Lemma push_unfold (user : string) (body : Sync.push_body) (now : Z) (d : db) :
  Sync.push user body now d = push_outcome user body now d.
Proof.
  unfold Sync.push, push_outcome, try_catch, Sync.push_body_run.
  destruct (js_not (Sync.deviceId body)); [reflexivity|].
  unfold bind at 1. unfold query at 1.
  destruct (Sync.select_device (Sync.deviceId body) user d) as [dv|];
    [|reflexivity].
  unfold bind at 1.
  set (dev := pg_text (Sync.deviceId body)).
  assert (Hu :
    (if truthy (Sync.usageData body) && typeof_object (Sync.usageData body)
     then bind (eval (object_entries (Sync.usageData body)))
               (fun dates => for_of dates (Sync.upsert_date user dev now) 0)
     else ret 0) d =
    let ut := Sync.usage_trace user dev (Sync.usageData body) in
    ((if snd ut then Returned (Z.of_nat (List.length (fst ut))) else Thrown),
     set_usage_records d (Sync.upsert_all now (fst ut) (usage_records d)))).
  { unfold Sync.usage_trace.
    destruct (truthy (Sync.usageData body) &&
              typeof_object (Sync.usageData body)).
    - unfold bind, eval, ret, throw.
      destruct (object_entries (Sync.usageData body)) as [dates|].
      + now rewrite run_dates.
      + cbn. now rewrite set_usage_records_same.
    - cbn. now rewrite set_usage_records_same. }
  rewrite Hu. clear Hu. cbv zeta.
  destruct (Sync.usage_trace user dev (Sync.usageData body)) as [es ok].
  cbn [fst snd]. destruct ok; [|reflexivity].
  unfold bind at 1.
  set (d1 := set_usage_records d (Sync.upsert_all now es (usage_records d))).
  assert (He :
    (if truthy (Sync.activityEvents body) && isArray (Sync.activityEvents body)
     then for_of (slice_last 200 (array_items (Sync.activityEvents body)))
                 (Sync.insert_event user dev) 0
     else ret 0) d1 =
    let et := Sync.events_trace user dev
                (accepted_events (Sync.activityEvents body)) in
    ((if snd et then Returned (Z.of_nat (List.length (fst et))) else Thrown),
     set_activity_events d1 (activity_events d1 ++ fst et))).
  { unfold accepted_events.
    destruct (truthy (Sync.activityEvents body) &&
              isArray (Sync.activityEvents body)).
    - now rewrite run_events.
    - unfold ret. cbn [Sync.events_trace fst snd List.length].
      now rewrite app_nil_r, set_activity_events_same. }
  rewrite He. clear He. cbv zeta.
  destruct (Sync.events_trace user dev
              (accepted_events (Sync.activityEvents body))) as [rows ok].
  cbn [fst snd]. destruct ok; reflexivity.
Qed.

End WithPlatform.
End SyncFacts.

(** ** The upsert *)

Module UpsertFacts.
Import DbFacts SyncNotions.
Section WithPlatform.
Context {P : Platform}.

Lemma text_leb_refl (a : string) : text_leb a a = true.
Proof. now destruct (text_leb_total a a). Qed.

Lemma least_is_earliest (a b : option string) :
  Sync.earliest_of (Sql.least a b) a b.
Proof.
  destruct a as [x|], b as [y|]; simpl; auto.
  - destruct (text_leb x y) eqn:E.
    + repeat split; auto.
      * intros ? [= <-]. apply text_leb_refl.
      * now intros ? [= <-].
    + repeat split; auto.
      * intros ? [= <-].
        destruct (text_leb_total x y); [congruence|assumption].
      * intros ? [= <-]. apply text_leb_refl.
  - repeat split; auto; try discriminate.
    intros ? [= <-]. apply text_leb_refl.
  - repeat split; auto; try discriminate.
    intros ? [= <-]. apply text_leb_refl.
Qed.

Lemma greatest_is_latest (a b : option string) :
  Sync.latest_of (Sql.greatest a b) a b.
Proof.
  destruct a as [x|], b as [y|]; simpl; auto.
  - destruct (text_leb x y) eqn:E.
    + repeat split; auto.
      * now intros ? [= <-].
      * intros ? [= <-]. apply text_leb_refl.
    + repeat split; auto.
      * intros ? [= <-]. apply text_leb_refl.
      * intros ? [= <-].
        destruct (text_leb_total x y); [congruence|assumption].
  - repeat split; auto; try discriminate.
    intros ? [= <-]. apply text_leb_refl.
  - repeat split; auto; try discriminate.
    intros ? [= <-]. apply text_leb_refl.
Qed.

Lemma least_absorbs (a b : option string) :
  Sql.least (Sql.least a b) b = Sql.least a b.
Proof.
  destruct a as [x|], b as [y|]; cbn; try reflexivity.
  - destruct (text_leb x y) eqn:E; cbn; rewrite ?E, ?text_leb_refl;
      reflexivity.
  - now destruct (text_leb y y).
Qed.

Lemma greatest_absorbs (a b : option string) :
  Sql.greatest (Sql.greatest a b) b = Sql.greatest a b.
Proof.
  destruct a as [x|], b as [y|]; cbn; try reflexivity.
  - destruct (text_leb x y) eqn:E; cbn; rewrite ?E, ?text_leb_refl;
      reflexivity.
  - now destruct (text_leb y y).
Qed.

Lemma least_absorbs_mono (a b c : option string) :
  Sql.least a b = a -> Sql.least (Sql.least a c) b = Sql.least a c.
Proof.
  destruct a as [x|], b as [y|], c as [z|]; simpl; auto; try discriminate.
  - intros [= H]. destruct (text_leb x z) eqn:Exz; [now rewrite H|].
    assert (Hzx : text_leb z x = true).
    { destruct (text_leb_total x z); [congruence|assumption]. }
    destruct (text_leb x y) eqn:Exy.
    + now rewrite (text_leb_trans z x y).
    + subst y. now rewrite Hzx.
Qed.

Lemma greatest_absorbs_mono (a b c : option string) :
  Sql.greatest a b = a -> Sql.greatest (Sql.greatest a c) b = Sql.greatest a c.
Proof.
  destruct a as [x|], b as [y|], c as [z|]; simpl; auto; try discriminate.
  intros [= H]. destruct (text_leb x z) eqn:Exz; [|now rewrite H].
  destruct (text_leb z y) eqn:Ezy; [|reflexivity].
  f_equal. destruct (text_leb x y) eqn:Exy.
  - subst y. now apply text_leb_antisym.
  - rewrite (text_leb_trans x z y) in Exy by assumption. discriminate.
Qed.

Lemma find_upsert_same (now : Z) (e : Sync.usage_params)
  (rows : list usage_record) :
  find_record (Sync.key_of_params e) (Sync.upsert now e rows) =
  Some match find_record (Sync.key_of_params e) rows with
       | Some r => Sync.on_conflict now r e
       | None => Sync.inserted now e
       end.
Proof.
  induction rows as [|r rows IH]; cbn [Sync.upsert find_record].
  - change (key_of (Sync.inserted now e)) with (Sync.key_of_params e).
    now rewrite key_eqb_refl.
  - destruct (key_eqb (key_of r) (Sync.key_of_params e)) eqn:E;
      cbn [find_record].
    + change (key_of (Sync.on_conflict now r e)) with (key_of r).
      now rewrite E.
    + now rewrite E.
Qed.

Lemma find_upsert_other (now : Z) (e : Sync.usage_params)
  (rows : list usage_record) (k : merge_key) :
  k <> Sync.key_of_params e ->
  find_record k (Sync.upsert now e rows) = find_record k rows.
Proof.
  intros Hk. induction rows as [|r rows IH]; cbn [Sync.upsert find_record].
  - change (key_of (Sync.inserted now e)) with (Sync.key_of_params e).
    destruct (key_eqb (Sync.key_of_params e) k) eqn:E; [|reflexivity].
    apply key_eqb_eq in E. congruence.
  - destruct (key_eqb (key_of r) (Sync.key_of_params e)) eqn:E;
      cbn [find_record].
    + change (key_of (Sync.on_conflict now r e)) with (key_of r).
      destruct (key_eqb (key_of r) k) eqn:E'; [|reflexivity].
      apply key_eqb_eq in E, E'. congruence.
    + now rewrite IH.
Qed.

Lemma upsert_all_cons (now : Z) (e : Sync.usage_params)
  (es : list Sync.usage_params) (rows : list usage_record) :
  Sync.upsert_all now (e :: es) rows =
  Sync.upsert_all now es (Sync.upsert now e rows).
Proof. reflexivity. Qed.

Lemma find_upsert_all_other (now : Z) (es : list Sync.usage_params)
  (k : merge_key) :
  ~ In k (map Sync.key_of_params es) ->
  forall rows, find_record k (Sync.upsert_all now es rows) = find_record k rows.
Proof.
  induction es as [|e es IH]; intros Hk rows; [reflexivity|].
  rewrite upsert_all_cons.
  rewrite IH by (intros H; apply Hk; now right).
  apply find_upsert_other. intros ->. apply Hk. now left.
Qed.

(** With one proposed row per key, each key ends with the merge of the
    row it had and the row proposed for it. *)
Lemma find_upsert_all (now : Z) (es : list Sync.usage_params)
  (e : Sync.usage_params) :
  NoDup (map Sync.key_of_params es) -> In e es ->
  forall rows,
    find_record (Sync.key_of_params e) (Sync.upsert_all now es rows) =
    Some match find_record (Sync.key_of_params e) rows with
         | Some r => Sync.on_conflict now r e
         | None => Sync.inserted now e
         end.
Proof.
  induction es as [|e0 es IH]; intros Hnd Hin rows; [destruct Hin|].
  cbn [map] in Hnd. apply NoDup_cons_iff in Hnd. destruct Hnd as [Hnot Hnd].
  rewrite upsert_all_cons.
  destruct Hin as [->|Hin].
  - rewrite find_upsert_all_other by assumption. apply find_upsert_same.
  - rewrite IH by assumption.
    rewrite find_upsert_other; [reflexivity|].
    intros Heq. apply Hnot. rewrite <- Heq. now apply in_map.
Qed.

(** *** No counter regresses *)

Lemma no_regress_refl (rows : list usage_record) : no_regress rows rows.
Proof. intros k r H. exists r. repeat split; [assumption|lia|lia]. Qed.

Lemma no_regress_trans (a b c : list usage_record) :
  no_regress a b -> no_regress b c -> no_regress a c.
Proof.
  intros Hab Hbc k r H.
  destruct (Hab k r H) as (r1 & H1 & Ht1 & Hv1).
  destruct (Hbc k r1 H1) as (r2 & H2 & Ht2 & Hv2).
  exists r2. repeat split; [assumption|lia|lia].
Qed.

Lemma upsert_no_regress (now : Z) (e : Sync.usage_params)
  (rows : list usage_record) :
  no_regress rows (Sync.upsert now e rows).
Proof.
  intros k r H.
  destruct (key_eqb k (Sync.key_of_params e)) eqn:E.
  - apply key_eqb_eq in E. subst k.
    rewrite find_upsert_same, H. eexists. split; [reflexivity|].
    cbn [Sync.on_conflict total_seconds visits]. lia.
  - apply key_eqb_neq in E. rewrite find_upsert_other by assumption.
    exists r. repeat split; [assumption|lia|lia].
Qed.

Lemma upsert_all_no_regress (now : Z) (es : list Sync.usage_params) :
  forall rows, no_regress rows (Sync.upsert_all now es rows).
Proof.
  induction es as [|e es IH]; intros rows; [apply no_regress_refl|].
  rewrite upsert_all_cons.
  eapply no_regress_trans; [apply upsert_no_regress|apply IH].
Qed.

End WithPlatform.
End UpsertFacts.

(** ** Replayed rows are absorbed *)

Module AbsorbFacts.
Import DbFacts SyncNotions UpsertFacts.
Section WithPlatform.
Context {P : Platform}.

Lemma least_same (a : option string) : Sql.least a a = a.
Proof. destruct a as [x|]; cbn; [now destruct (text_leb x x)|reflexivity]. Qed.

Lemma greatest_same (a : option string) : Sql.greatest a a = a.
Proof. destruct a as [x|]; cbn; [now destruct (text_leb x x)|reflexivity]. Qed.

Lemma upsert_absorbs (now : Z) (e : Sync.usage_params)
  (rows : list usage_record) :
  absorbed e (Sync.upsert now e rows).
Proof.
  unfold absorbed. rewrite find_upsert_same.
  eexists. split; [reflexivity|].
  destruct (find_record (Sync.key_of_params e) rows) as [r|];
    cbn [Sync.on_conflict Sync.inserted total_seconds visits
         first_visit last_visit].
  - repeat split; try lia.
    + apply least_absorbs.
    + apply greatest_absorbs.
  - repeat split; try lia.
    + apply least_same.
    + apply greatest_same.
Qed.

Lemma absorbed_upsert (now : Z) (e e' : Sync.usage_params)
  (rows : list usage_record) :
  absorbed e rows -> absorbed e (Sync.upsert now e' rows).
Proof.
  intros (r & Hf & Ht & Hv & Hl & Hg). unfold absorbed.
  destruct (key_eqb (Sync.key_of_params e) (Sync.key_of_params e')) eqn:E.
  - apply key_eqb_eq in E. rewrite E in *.
    rewrite find_upsert_same, Hf. eexists. split; [reflexivity|].
    cbn [Sync.on_conflict total_seconds visits first_visit last_visit].
    repeat split; try lia.
    + now apply least_absorbs_mono.
    + now apply greatest_absorbs_mono.
  - apply key_eqb_neq in E. rewrite find_upsert_other by assumption.
    exists r. auto.
Qed.

Lemma absorbed_upsert_all (now : Z) (e : Sync.usage_params)
  (es : list Sync.usage_params) :
  forall rows, absorbed e rows -> absorbed e (Sync.upsert_all now es rows).
Proof.
  induction es as [|e' es IH]; intros rows H; [assumption|].
  rewrite upsert_all_cons. apply IH. now apply absorbed_upsert.
Qed.

Lemma upsert_all_absorbs (now : Z) (es : list Sync.usage_params) :
  forall rows e, In e es -> absorbed e (Sync.upsert_all now es rows).
Proof.
  induction es as [|e' es IH]; intros rows e Hin; [destruct Hin|].
  rewrite upsert_all_cons. destruct Hin as [->|Hin].
  - apply absorbed_upsert_all, upsert_absorbs.
  - now apply IH.
Qed.

Lemma upsert_absorbed (now : Z) (e : Sync.usage_params)
  (rows : list usage_record) :
  absorbed e rows ->
  map Sync.merged_fields (Sync.upsert now e rows) =
  map Sync.merged_fields rows.
Proof.
  induction rows as [|r rows IH]; intros (r0 & Hf & Ht & Hv & Hl & Hg).
  - discriminate.
  - cbn [find_record] in Hf. cbn [Sync.upsert].
    destruct (key_eqb (key_of r) (Sync.key_of_params e)) eqn:E.
    + injection Hf as <-. cbn [map]. f_equal.
      unfold Sync.merged_fields.
      cbn [Sync.on_conflict total_seconds visits first_visit last_visit].
      change (key_of (Sync.on_conflict now r e)) with (key_of r).
      rewrite Hl, Hg, !Z.max_l by lia. reflexivity.
    + cbn [map]. f_equal. apply IH. exists r0. auto.
Qed.

(** Replaying rows that are all absorbed changes no merged field. *)
Lemma upsert_all_absorbed (now : Z) (es : list Sync.usage_params) :
  forall rows,
    (forall e, In e es -> absorbed e rows) ->
    map Sync.merged_fields (Sync.upsert_all now es rows) =
    map Sync.merged_fields rows.
Proof.
  induction es as [|e es IH]; intros rows H; [reflexivity|].
  rewrite upsert_all_cons, IH.
  - apply upsert_absorbed, H. now left.
  - intros e' Hin. apply absorbed_upsert, H. now right.
Qed.

End WithPlatform.
End AbsorbFacts.

(** ** The rows a report proposes *)

Module TraceFacts.
Section WithPlatform.
Context {P : Platform}.

Lemma upsert_params_key (user device domain date : string) (data : jsval)
  (e : Sync.usage_params) :
  Sync.upsert_params user device domain date data = Some e ->
  Sync.key_of_params e = (user, device, domain, date).
Proof.
  unfold Sync.upsert_params. intros H.
  repeat match type of H with
         | context [match ?x with Some _ => _ | None => _ end] =>
             destruct x; try discriminate
         end.
  now injection H as <-.
Qed.

Lemma entries_trace_in (user device date : string)
  (entries : list (string * jsval)) :
  snd (Sync.entries_trace user device date entries) = true ->
  forall domain data,
    In (domain, data) entries ->
    exists e,
      Sync.upsert_params user device domain date data = Some e /\
      In e (fst (Sync.entries_trace user device date entries)).
Proof.
  induction entries as [|[dom0 data0] rest IH]; intros Hok domain data Hin;
    [destruct Hin|].
  cbn [Sync.entries_trace] in *.
  destruct (Sync.upsert_params user device dom0 date data0) as [e0|] eqn:E0;
    [|discriminate].
  destruct (Sync.entries_trace user device date rest) as [es ok].
  cbn [fst snd] in *. destruct Hin as [[= <- <-]|Hin].
  - exists e0. split; [assumption|now left].
  - destruct (IH Hok domain data Hin) as (e & He & Hin').
    exists e. split; [assumption|now right].
Qed.

Lemma entries_trace_keys (user device date : string)
  (entries : list (string * jsval)) :
  snd (Sync.entries_trace user device date entries) = true ->
  map Sync.key_of_params (fst (Sync.entries_trace user device date entries)) =
  map (fun en => (user, device, fst en, date)) entries.
Proof.
  induction entries as [|[dom0 data0] rest IH]; intros Hok; [reflexivity|].
  cbn [Sync.entries_trace] in *.
  destruct (Sync.upsert_params user device dom0 date data0) as [e0|] eqn:E0;
    [|discriminate].
  destruct (Sync.entries_trace user device date rest) as [es ok].
  cbn [fst snd map] in *. rewrite (IH Hok).
  now rewrite (upsert_params_key _ _ _ _ _ _ E0).
Qed.

Lemma entries_trace_date (user device date : string)
  (entries : list (string * jsval)) (e : Sync.usage_params) :
  In e (fst (Sync.entries_trace user device date entries)) ->
  Sync.p_date e = date.
Proof.
  induction entries as [|[dom0 data0] rest IH]; cbn [Sync.entries_trace];
    [intros []|].
  destruct (Sync.upsert_params user device dom0 date data0) as [e0|] eqn:E0;
    [|intros []].
  destruct (Sync.entries_trace user device date rest) as [es ok].
  cbn [fst] in *. intros [<-|Hin]; [|now apply IH].
  apply upsert_params_key in E0. unfold Sync.key_of_params in E0.
  congruence.
Qed.

Lemma dates_trace_date (user device : string)
  (dates : list (string * jsval)) (e : Sync.usage_params) :
  In e (fst (Sync.dates_trace user device dates)) ->
  In (Sync.p_date e) (map fst dates).
Proof.
  induction dates as [|[date0 domains0] rest IH]; cbn [Sync.dates_trace];
    [intros []|].
  destruct (object_entries domains0) as [entries|]; [|intros []].
  destruct (Sync.entries_trace user device date0 entries) as [es ok] eqn:Et.
  assert (Hes : forall e, In e es -> Sync.p_date e = date0).
  { intros e' H'. apply entries_trace_date with user device entries.
    now rewrite Et. }
  destruct ok.
  - destruct (Sync.dates_trace user device rest) as [es' ok'].
    cbn [fst map] in *. intros Hin. apply in_app_or in Hin.
    destruct Hin as [Hin|Hin]; [left; symmetry; now apply Hes|right; now apply IH].
  - cbn [fst map]. intros Hin. left. symmetry. now apply Hes.
Qed.

Lemma dates_trace_in (user device : string) (dates : list (string * jsval)) :
  snd (Sync.dates_trace user device dates) = true ->
  forall date domains entries domain data,
    In (date, domains) dates ->
    object_entries domains = Some entries ->
    In (domain, data) entries ->
    exists e,
      Sync.upsert_params user device domain date data = Some e /\
      In e (fst (Sync.dates_trace user device dates)).
Proof.
  induction dates as [|[date0 domains0] rest IH];
    intros Hok date domains entries domain data Hin Hent Hin'; [destruct Hin|].
  cbn [Sync.dates_trace] in *.
  destruct (object_entries domains0) as [entries0|] eqn:E0; [|discriminate].
  destruct (Sync.entries_trace user device date0 entries0) as [es ok] eqn:Et.
  destruct ok; [|discriminate].
  destruct (Sync.dates_trace user device rest) as [es' ok'].
  cbn [fst snd] in *. destruct Hin as [[= <- <-]|Hin].
  - rewrite E0 in Hent. injection Hent as <-.
    destruct (entries_trace_in user device date0 entries0) with domain data
      as (e & He & Hine); [now rewrite Et|assumption|].
    rewrite Et in Hine. exists e. split; [assumption|].
    apply in_or_app. now left.
  - destruct (IH Hok date domains entries domain data Hin Hent Hin')
      as (e & He & Hine).
    exists e. split; [assumption|]. apply in_or_app. now right.
Qed.

Lemma dates_trace_nodup (user device : string)
  (dates : list (string * jsval)) :
  snd (Sync.dates_trace user device dates) = true ->
  NoDup (map fst dates) ->
  (forall date domains entries,
     In (date, domains) dates -> object_entries domains = Some entries ->
     NoDup (map fst entries)) ->
  NoDup (map Sync.key_of_params (fst (Sync.dates_trace user device dates))).
Proof.
  induction dates as [|[date0 domains0] rest IH]; intros Hok Hnd Hinner;
    [constructor|].
  cbn [Sync.dates_trace] in *.
  destruct (object_entries domains0) as [entries0|] eqn:E0; [|discriminate].
  destruct (Sync.entries_trace user device date0 entries0) as [es ok] eqn:Et.
  destruct ok; [|discriminate].
  pose proof (dates_trace_date user device rest) as Hdate.
  destruct (Sync.dates_trace user device rest) as [es' ok'].
  cbn [fst snd map] in *. apply NoDup_cons_iff in Hnd.
  destruct Hnd as [Hnot Hnd]. rewrite map_app. apply NoDup_app.
  - pose proof (entries_trace_keys user device date0 entries0) as Hk.
    rewrite Et in Hk. cbn [fst snd] in Hk. rewrite Hk by reflexivity.
    assert (Hn : NoDup (map fst entries0)).
    { apply Hinner with date0 domains0; [now left|assumption]. }
    clear - Hn. induction entries0 as [|en rest' IH']; [constructor|].
    cbn [map] in *. apply NoDup_cons_iff in Hn. destruct Hn as [Hn1 Hn2].
    constructor; [|now apply IH'].
    intros Hin. apply in_map_iff in Hin. destruct Hin as (en' & [= Heq] & Hin).
    apply Hn1. rewrite <- Heq. now apply in_map.
  - apply IH; [assumption|assumption|].
    intros date domains entries Hin Hent.
    apply Hinner with date domains; [now right|assumption].
  - intros k Hin1 Hin2.
    apply in_map_iff in Hin1. destruct Hin1 as (e1 & <- & Hin1).
    apply in_map_iff in Hin2. destruct Hin2 as (e2 & Heq & Hin2).
    apply Hnot.
    assert (H1 : Sync.p_date e1 = date0).
    { apply entries_trace_date with user device entries0. now rewrite Et. }
    assert (H2 : Sync.p_date e2 = Sync.p_date e1).
    { unfold Sync.key_of_params in Heq. congruence. }
    rewrite <- H1, <- H2. now apply Hdate.
Qed.

End WithPlatform.
End TraceFacts.

(** ** POST /push: the device check and the rows written *)

Module PushFacts.
Import DbFacts SyncNotions UpsertFacts SyncFacts.
Section WithPlatform.
Context {P : Platform}.

Lemma select_device_update (id : jsval) (user dev : string) (now : Z)
  (d : db) :
  Sync.select_device id user (Sync.update_last_sync dev now d) =
  option_map (fun dv => if (dev_id dv =? dev)%string then synced now dv else dv)
             (Sync.select_device id user d).
Proof.
  unfold Sync.select_device, Sync.update_last_sync.
  cbn [devices set_devices].
  induction (devices d) as [|dv l IH]; [reflexivity|].
  cbn [map find].
  destruct (dev_id dv =? dev)%string eqn:E; cbn [dev_id dev_user_id];
    destruct ((dev_id dv =? pg_text id)%string && (dev_user_id dv =? user)%string);
    cbn [option_map]; rewrite ?E; auto.
Qed.

Lemma select_device_sync_log (id : jsval) (user a b : string) (n now : Z)
  (d : db) :
  Sync.select_device id user (Sync.insert_sync_log a b n now d) =
  Sync.select_device id user d.
Proof. reflexivity. Qed.

Lemma select_device_events (id : jsval) (user : string) (d : db)
  (x : list activity_event) :
  Sync.select_device id user (set_activity_events d x) =
  Sync.select_device id user d.
Proof. reflexivity. Qed.

Lemma select_device_usage (id : jsval) (user : string) (d : db)
  (x : list usage_record) :
  Sync.select_device id user (set_usage_records d x) =
  Sync.select_device id user d.
Proof. reflexivity. Qed.

Lemma select_device_none (id : jsval) (user : string) (d : db) :
  (forall dv, In dv (devices d) ->
              ~ (dev_id dv = pg_text id /\ dev_user_id dv = user)) ->
  Sync.select_device id user d = None.
Proof.
  unfold Sync.select_device. intros H.
  destruct (find _ (devices d)) as [dv|] eqn:E; [|reflexivity].
  apply find_some in E. destruct E as [Hin Hb].
  apply andb_true_iff in Hb. rewrite !String.eqb_eq in Hb.
  now destruct (H dv Hin).
Qed.

Lemma select_device_some (id : jsval) (user : string) (d : db) (dv : device) :
  Sync.select_device id user d = Some dv ->
  In dv (devices d) /\ dev_id dv = pg_text id /\ dev_user_id dv = user.
Proof.
  unfold Sync.select_device. intros E. apply find_some in E.
  destruct E as [Hin Hb]. apply andb_true_iff in Hb.
  rewrite !String.eqb_eq in Hb. tauto.
Qed.

Lemma push_usage_records (user : string) (body : Sync.push_body) (now : Z)
  (d : db) :
  usage_records (snd (Sync.push user body now d)) =
  Sync.upsert_all now (usage_written user body d) (usage_records d).
Proof.
  rewrite push_unfold. unfold push_outcome, usage_written.
  destruct (js_not (Sync.deviceId body)); [reflexivity|].
  destruct (Sync.select_device (Sync.deviceId body) user d); [|reflexivity].
  destruct (Sync.usage_trace user (pg_text (Sync.deviceId body))
                             (Sync.usageData body)) as [es ok].
  cbn [fst snd]. destruct ok; [|reflexivity].
  destruct (Sync.events_trace user (pg_text (Sync.deviceId body))
              (accepted_events (Sync.activityEvents body))) as [rows ok].
  cbn [fst snd]. destruct ok; reflexivity.
Qed.

Lemma push_select_device (user : string) (body : Sync.push_body) (now : Z)
  (d : db) (id : jsval) (u : string) :
  is_some (Sync.select_device id u (snd (Sync.push user body now d))) =
  is_some (Sync.select_device id u d).
Proof.
  rewrite push_unfold. unfold push_outcome.
  destruct (js_not (Sync.deviceId body)); [reflexivity|].
  destruct (Sync.select_device (Sync.deviceId body) user d); [|reflexivity].
  destruct (Sync.usage_trace user (pg_text (Sync.deviceId body))
                             (Sync.usageData body)) as [es ok].
  cbn [fst snd]. destruct ok; [|reflexivity].
  destruct (Sync.events_trace user (pg_text (Sync.deviceId body))
              (accepted_events (Sync.activityEvents body))) as [rows ok].
  cbn [fst snd]. destruct ok; [|reflexivity].
  cbn [snd].
  rewrite select_device_sync_log, select_device_update,
    select_device_events, select_device_usage.
  now destruct (Sync.select_device id u d).
Qed.

Lemma usage_written_after_push (user : string) (body : Sync.push_body)
  (now : Z) (d : db) :
  usage_written user body (snd (Sync.push user body now d)) =
  usage_written user body d.
Proof.
  unfold usage_written.
  destruct (js_not (Sync.deviceId body)); [reflexivity|].
  pose proof (push_select_device user body now d (Sync.deviceId body) user)
    as H.
  destruct (Sync.select_device (Sync.deviceId body) user
              (snd (Sync.push user body now d)));
    destruct (Sync.select_device (Sync.deviceId body) user d);
    try reflexivity; discriminate.
Qed.

Lemma push_no_regress (user : string) (body : Sync.push_body) (now : Z)
  (d : db) :
  no_regress (usage_records d) (usage_records (snd (Sync.push user body now d))).
Proof. rewrite push_usage_records. apply upsert_all_no_regress. Qed.

Lemma pushes_app (l1 l2 : list (string * Sync.push_body * Z)) (d : db) :
  Sync.pushes (l1 ++ l2) d = Sync.pushes l2 (Sync.pushes l1 d).
Proof.
  revert d. induction l1 as [|[[user body] now] l1 IH]; intros d;
    [reflexivity|].
  cbn [app Sync.pushes]. apply IH.
Qed.

Lemma pushes_no_regress (l : list (string * Sync.push_body * Z)) :
  forall d, no_regress (usage_records d) (usage_records (Sync.pushes l d)).
Proof.
  induction l as [|[[user body] now] l IH]; intros d;
    [apply no_regress_refl|].
  cbn [Sync.pushes].
  eapply no_regress_trans; [apply push_no_regress|apply IH].
Qed.

End WithPlatform.
End PushFacts.


(** ** POST /push: the properties of the reconciler *)

Module SyncSpec.
Import DbFacts SyncNotions UpsertFacts AbsorbFacts TraceFacts SyncFacts PushFacts.
Section WithPlatform.
Context {P : Platform}.

(** C3.  Monotonicity: along any sequence of pushes, by any users and
    devices and whether they succeed or fail, a record that is stored at
    some point of the sequence is still stored at every later point, and
    its [total_seconds] and [visits] have not decreased. *)
Theorem push_counters_never_regress
  (l1 l2 : list (string * Sync.push_body * Z)) (d : db) (k : merge_key)
  (r : usage_record) :
  find_record k (usage_records (Sync.pushes l1 d)) = Some r ->
  exists r',
    find_record k (usage_records (Sync.pushes (l1 ++ l2) d)) = Some r' /\
    total_seconds r <= total_seconds r' /\
    visits r <= visits r'.
Proof.
  intros H. rewrite pushes_app.
  exact (pushes_no_regress l2 (Sync.pushes l1 d) k r H).
Qed.

(** C2.  Idempotence: pushing the same body a second time, from the same
    user and device and at any later time, leaves the key, the counters and
    the visit window of every usage record as the first push left them. *)
Theorem push_idempotent (user : string) (body : Sync.push_body)
  (now1 now2 : Z) (d : db) :
  let d1 := snd (Sync.push user body now1 d) in
  let d2 := snd (Sync.push user body now2 d1) in
  map Sync.merged_fields (usage_records d2) =
  map Sync.merged_fields (usage_records d1).
Proof.
  cbv zeta. rewrite (push_usage_records user body now2).
  rewrite usage_written_after_push.
  apply upsert_all_absorbed. intros e Hin.
  rewrite push_usage_records. now apply upsert_all_absorbs.
Qed.

(** C9.  A push whose [deviceId] is given and names no device of the
    authenticated user is answered 404 "Device not found", and the database
    is left exactly as it was: no usage record, activity event, sync-log
    entry or device is written. *)
Theorem push_device_not_found (user : string) (body : Sync.push_body)
  (now : Z) (d : db) :
  truthy (Sync.deviceId body) = true ->
  (forall dv, In dv (devices d) ->
              ~ (dev_id dv = pg_text (Sync.deviceId body) /\
                 dev_user_id dv = user)) ->
  Sync.push user body now d = (Sync.DeviceNotFound, d).
Proof.
  intros Ht Hnone. rewrite push_unfold. unfold push_outcome, js_not.
  rewrite Ht. cbn [negb].
  now rewrite select_device_none.
Qed.

(** A push without a [deviceId] is answered 400 before the device is
    looked up; it writes nothing either. *)
Lemma push_device_id_required (user : string) (body : Sync.push_body)
  (now : Z) (d : db) :
  truthy (Sync.deviceId body) = false ->
  Sync.push user body now d = (Sync.DeviceIdRequired, d).
Proof.
  intros Ht. rewrite push_unfold. unfold push_outcome, js_not.
  now rewrite Ht.
Qed.

(** C10.  A push from a device of the user that carries neither
    [usageData] nor [activityEvents] succeeds with both counts 0, leaves the
    usage records and the activity events as they were, sets the
    [last_sync_at] of the device to the time of the push, and appends one
    sync-log entry of type "push" with 0 records. *)
Theorem push_empty_payload (user : string) (body : Sync.push_body)
  (now : Z) (d : db) (dv : device) :
  truthy (Sync.deviceId body) = true ->
  Sync.select_device (Sync.deviceId body) user d = Some dv ->
  Sync.usageData body = JUndefined ->
  Sync.activityEvents body = JUndefined ->
  let d' := snd (Sync.push user body now d) in
  fst (Sync.push user body now d) = Sync.SyncComplete 0 0 /\
  usage_records d' = usage_records d /\
  activity_events d' = activity_events d /\
  Sync.select_device (Sync.deviceId body) user d' = Some (synced now dv) /\
  sync_log d' =
    sync_log d ++
    [{| sl_user_id := user; sl_device_id := dev_id dv; sync_type := "push";
        records_synced := 0; sl_synced_at := now |}].
Proof.
  intros Ht Hdv Hu He. cbv zeta. rewrite push_unfold.
  unfold push_outcome, js_not, accepted_events. rewrite Ht, Hdv, Hu, He.
  cbn [negb Sync.usage_trace truthy andb fst snd Sync.events_trace
       List.length Z.of_nat Sync.upsert_all fold_left].
  destruct (select_device_some _ _ _ _ Hdv) as (Hin & Hid & Huser).
  split; [reflexivity|]. split; [reflexivity|]. split.
  { cbn [activity_events Sync.insert_sync_log set_sync_log
         Sync.update_last_sync set_devices set_activity_events
         set_usage_records].
    apply app_nil_r. }
  split.
  - rewrite select_device_sync_log, select_device_update,
      select_device_events, select_device_usage, Hdv.
    cbn [option_map]. now rewrite Hid, String.eqb_refl.
  - cbn [sync_log Sync.insert_sync_log set_sync_log Sync.update_last_sync
         set_devices set_activity_events set_usage_records].
    now rewrite Hid.
Qed.

(** C5, as the handler has it.  The handler validates nothing: a
    [usageData] that is not an object is ignored, and the push does exactly
    what it does without [usageData]; in particular it writes no usage
    record. *)
Theorem push_ignores_non_object_report (user : string)
  (body : Sync.push_body) (now : Z) (d : db) :
  truthy (Sync.usageData body) && typeof_object (Sync.usageData body) = false ->
  Sync.push user body now d =
    Sync.push user
      {| Sync.deviceId := Sync.deviceId body; Sync.usageData := JUndefined;
         Sync.activityEvents := Sync.activityEvents body |} now d /\
  usage_records (snd (Sync.push user body now d)) = usage_records d.
Proof.
  intros H. split.
  - rewrite !push_unfold. unfold push_outcome, Sync.usage_trace.
    cbn [Sync.deviceId Sync.usageData Sync.activityEvents]. rewrite H.
    reflexivity.
  - rewrite push_usage_records. unfold usage_written, Sync.usage_trace.
    rewrite H.
    destruct (js_not (Sync.deviceId body)); [reflexivity|].
    now destruct (Sync.select_device (Sync.deviceId body) user d).
Qed.

Lemma push_complete_inv (user : string) (body : Sync.push_body) (now : Z)
  (d d' : db) (n m : Z) :
  Sync.push user body now d = (Sync.SyncComplete n m, d') ->
  snd (Sync.usage_trace user (pg_text (Sync.deviceId body))
                        (Sync.usageData body)) = true /\
  usage_records d' =
    Sync.upsert_all now
      (fst (Sync.usage_trace user (pg_text (Sync.deviceId body))
                             (Sync.usageData body)))
      (usage_records d).
Proof.
  rewrite push_unfold. unfold push_outcome.
  destruct (js_not (Sync.deviceId body)); [discriminate|].
  destruct (Sync.select_device (Sync.deviceId body) user d); [|discriminate].
  destruct (Sync.usage_trace user (pg_text (Sync.deviceId body))
                             (Sync.usageData body)) as [es ok].
  cbn [fst snd]. destruct ok; [|discriminate].
  destruct (Sync.events_trace user (pg_text (Sync.deviceId body))
              (accepted_events (Sync.activityEvents body))) as [rows ok].
  cbn [fst snd]. destruct ok; [|discriminate].
  intros [= _ _ <-]. split; reflexivity.
Qed.

Lemma select_device_exists (id : jsval) (user : string) (d : db) :
  (exists dv, In dv (devices d) /\ dev_id dv = pg_text id /\
              dev_user_id dv = user) ->
  exists dv, Sync.select_device id user d = Some dv.
Proof.
  intros (dv & Hin & Hid & Hu). unfold Sync.select_device.
  destruct (find _ (devices d)) as [dv'|] eqn:E; [now exists dv'|].
  apply (find_none _ _ E) in Hin.
  rewrite Hid, Hu, !String.eqb_refl in Hin. discriminate.
Qed.

(** The parameters bound for an entry that carries the two counters
    only. *)
Lemma upsert_params_counters (user device domain date : string) (t v : Z) :
  int4_min <= t <= int4_max -> int4_min <= v <= int4_max ->
  Sync.upsert_params user device domain date
    (JObj [("totalSeconds", JNum t); ("visits", JNum v)]) =
  Some {| Sync.p_user_id := user; Sync.p_device_id := device;
          Sync.p_domain := domain; Sync.p_title := Some domain;
          Sync.p_category := Some "Other"; Sync.p_date := date;
          Sync.p_total_seconds := t; Sync.p_visits := v;
          Sync.p_first_visit := None; Sync.p_last_visit := None |}.
Proof.
  intros Ht Hv. unfold Sync.upsert_params.
  cbn [get_prop assoc String.eqb Ascii.eqb Bool.eqb Sync.visit_param truthy].
  assert (Hor : forall n, pg_int4 (js_or (JNum n) (JNum 0)) = pg_int4 (JNum n)).
  { intros n. unfold js_or. cbn [truthy].
    destruct (n =? 0) eqn:E; [|reflexivity].
    apply Z.eqb_eq in E. now subst n. }
  rewrite !Hor.
  rewrite (pg_int4_JNum t) by assumption.
  rewrite (pg_int4_JNum v) by assumption.
  unfold js_or, Sql.bind_text. cbn [truthy]. now rewrite !pg_text_JStr.
Qed.

(** C1.  After a push that completes, every (date, domain) entry of the
    report has been merged under the key (user, device, domain, date): when
    a record was stored under the key, its [total_seconds] and [visits] are
    the maximum of the stored and the incoming value, its [first_visit] the
    earliest and its [last_visit] the latest of the two, [NULL] being no
    bound; when none was stored, the incoming row is inserted as it is.  The
    incoming values are the ones the statement binds, and dates and domains
    occur once in the report.  In particular, 100 s and 2 visits followed by
    80 s and 5 visits for the same key give 100 s and 5 visits. *)
Theorem push_merges_by_max :
  (forall (user : string) (body : Sync.push_body) (now : Z) (d d' : db)
          (n m : Z) (dates : list (string * jsval)) (date : string)
          (domains : jsval) (entries : list (string * jsval))
          (domain : string) (data : jsval),
     Sync.push user body now d = (Sync.SyncComplete n m, d') ->
     Sync.usageData body = JObj dates ->
     NoDup (map fst dates) ->
     (forall date' domains' entries',
        In (date', domains') dates ->
        object_entries domains' = Some entries' ->
        NoDup (map fst entries')) ->
     In (date, domains) dates ->
     object_entries domains = Some entries ->
     In (domain, data) entries ->
     let device := pg_text (Sync.deviceId body) in
     let k := (user, device, domain, date) in
     exists e,
       Sync.upsert_params user device domain date data = Some e /\
       match find_record k (usage_records d) with
       | Some r =>
           exists r',
             find_record k (usage_records d') = Some r' /\
             total_seconds r' =
               Z.max (total_seconds r) (Sync.p_total_seconds e) /\
             visits r' = Z.max (visits r) (Sync.p_visits e) /\
             Sync.earliest_of (first_visit r') (first_visit r)
                              (Sync.p_first_visit e) /\
             Sync.latest_of (last_visit r') (last_visit r)
                            (Sync.p_last_visit e)
       | None =>
           find_record k (usage_records d') = Some (Sync.inserted now e)
       end) /\
  (forall (user dev : string) (now1 now2 : Z) (d : db),
     dev <> "" ->
     (exists dv, In dv (devices d) /\ dev_id dv = dev /\
                 dev_user_id dv = user) ->
     find_record (user, dev, "example.com", "2024-01-01") (usage_records d)
       = None ->
     let body t v :=
       {| Sync.deviceId := JStr dev;
          Sync.usageData :=
            Examples.report [("totalSeconds", JNum t); ("visits", JNum v)];
          Sync.activityEvents := JUndefined |} in
     let d1 := snd (Sync.push user (body 100 2) now1 d) in
     let d2 := snd (Sync.push user (body 80 5) now2 d1) in
     exists r,
       find_record (user, dev, "example.com", "2024-01-01")
                   (usage_records d2) = Some r /\
       total_seconds r = 100 /\ visits r = 5).
Proof.
  split.
  { intros user body now d d' n m dates date domains entries domain data.
    intros Hpush Hu Hnd Hinner Hin Hent Hin'. cbv zeta.
    destruct (push_complete_inv _ _ _ _ _ _ _ Hpush) as [Hok Hrows].
    rewrite Hu in Hok, Hrows. unfold Sync.usage_trace in Hok, Hrows.
    cbn [truthy typeof_object andb object_entries] in Hok, Hrows.
    destruct (dates_trace_in _ _ _ Hok _ _ _ _ _ Hin Hent Hin')
      as (e & He & Hine).
    exists e. split; [assumption|].
    pose proof (upsert_params_key _ _ _ _ _ _ He) as Hk.
    rewrite Hrows, <- Hk.
    rewrite (find_upsert_all now _ e)
      by (try assumption; now apply dates_trace_nodup).
    destruct (find_record (Sync.key_of_params e) (usage_records d)) as [r|].
    - eexists. split; [reflexivity|].
      cbn [Sync.on_conflict total_seconds visits first_visit last_visit].
      repeat split.
      + apply least_is_earliest.
      + apply greatest_is_latest.
    - reflexivity. }
  { intros user dev now1 now2 d.
    intros Hdev Hdv Hnone. cbv zeta.
    assert (Hw : forall t v d0,
      int4_min <= t <= int4_max -> int4_min <= v <= int4_max ->
      (exists dv, Sync.select_device (JStr dev) user d0 = Some dv) ->
      usage_written user
        {| Sync.deviceId := JStr dev;
           Sync.usageData :=
             Examples.report [("totalSeconds", JNum t); ("visits", JNum v)];
           Sync.activityEvents := JUndefined |} d0 =
      [{| Sync.p_user_id := user; Sync.p_device_id := dev;
          Sync.p_domain := "example.com"; Sync.p_title := Some "example.com";
          Sync.p_category := Some "Other"; Sync.p_date := "2024-01-01";
          Sync.p_total_seconds := t; Sync.p_visits := v;
          Sync.p_first_visit := None; Sync.p_last_visit := None |}]).
    { intros t v d0 Ht Hv [dv0 Hsel]. unfold usage_written, js_not.
      cbn [Sync.deviceId Sync.usageData truthy].
      apply String.eqb_neq in Hdev. rewrite Hdev. cbn [negb].
      rewrite Hsel, pg_text_JStr.
      unfold Sync.usage_trace, Examples.report.
      cbn [truthy typeof_object andb object_entries Sync.dates_trace
           Sync.entries_trace].
      now rewrite upsert_params_counters. }
    assert (Hsel : exists dv, Sync.select_device (JStr dev) user d = Some dv).
    { apply select_device_exists. now rewrite pg_text_JStr. }
    assert (Hsel1 : exists dv,
      Sync.select_device (JStr dev) user
        (snd (Sync.push user
                {| Sync.deviceId := JStr dev;
                   Sync.usageData :=
                     Examples.report
                       [("totalSeconds", JNum 100); ("visits", JNum 2)];
                   Sync.activityEvents := JUndefined |} now1 d)) = Some dv).
    { destruct Hsel as [dv0 Hsel0].
      match goal with
      | |- exists _, Sync.select_device _ _ (snd (Sync.push _ ?b _ _)) = _ =>
          pose proof (push_select_device user b now1 d (JStr dev) user) as H
      end.
      rewrite Hsel0 in H.
      match type of H with
      | is_some ?x = _ => destruct x as [dv1|]; [now exists dv1|discriminate]
      end. }
    rewrite !push_usage_records.
    rewrite (Hw 80 5), (Hw 100 2) by (try assumption; unfold int4_min, int4_max; lia).
    rewrite !upsert_all_cons. unfold Sync.upsert_all. cbn [fold_left].
    match goal with
    | |- context [Sync.upsert now2 ?e2 (Sync.upsert now1 ?e1 _)] =>
        pose proof (find_upsert_same now2 e2
                      (Sync.upsert now1 e1 (usage_records d))) as H2;
        pose proof (find_upsert_same now1 e1 (usage_records d)) as H1
    end.
    unfold Sync.key_of_params in H1, H2.
    cbn [Sync.p_user_id Sync.p_device_id Sync.p_domain Sync.p_date] in H1, H2.
    rewrite H1, Hnone in H2. rewrite H2.
    eexists. split; [reflexivity|].
    cbn [Sync.on_conflict Sync.inserted total_seconds visits
         Sync.p_total_seconds Sync.p_visits].
    split; reflexivity. }
Qed.

End WithPlatform.
End SyncSpec.

(** ** POST /push on the example data *)

Module SyncExamples.
Import Examples.

(** The general form of the defect the next example shows: [data.title ||
    domain] is never [NULL], so the [COALESCE] of the upsert always takes
    the incoming side, and an entry without a title replaces the stored
    title by the domain. *)
Lemma missing_title_replaces_title {P : Platform}
  (user device domain date : string) (data : jsval) (e : Sync.usage_params)
  (now : Z) (rows : list usage_record) (r : usage_record) :
  get_prop data "title" = Some JUndefined ->
  Sync.upsert_params user device domain date data = Some e ->
  find_record (user, device, domain, date) rows = Some r ->
  exists r',
    find_record (user, device, domain, date) (Sync.upsert now e rows)
      = Some r' /\
    ur_title r' = Some domain.
Proof.
  intros Ht He Hr.
  pose proof (TraceFacts.upsert_params_key _ _ _ _ _ _ He) as Hk.
  rewrite <- Hk in *. rewrite UpsertFacts.find_upsert_same, Hr.
  eexists. split; [reflexivity|].
  cbn [Sync.on_conflict ur_title].
  unfold Sync.upsert_params in He. rewrite Ht in He.
  repeat match type of He with
         | context [match ?x with Some _ => _ | None => _ end] =>
             destruct x; try discriminate
         end.
  injection He as <-. cbn [Sync.p_title].
  unfold js_or, Sql.bind_text. cbn [truthy Sql.coalesce].
  now rewrite pg_text_JStr.
Qed.

(** C4.  The stored title "Example" and category "Work" do not survive a
    push of the same key that carries neither: they become the domain and
    "Other". *)
Theorem push_without_title_overwrites_title :
  let d1 := snd (Sync.push (P:=reference_platform) "u1" first_push 1000 fresh) in
  let d2 := snd (Sync.push (P:=reference_platform) "u1" second_push 2000 d1) in
  find_record example_key (usage_records d1) = Some first_record /\
  option_map ur_title (find_record example_key (usage_records d2))
    = Some (Some "example.com") /\
  option_map ur_category (find_record example_key (usage_records d2))
    = Some (Some "Other").
Proof. vm_compute. repeat split. Qed.

(** C5, as stated, fails: a report whose second date maps to [null] is
    not a two-level mapping, yet the push merges the entries of its first
    date before it fails, with the generic 500 response. *)
Lemma push_malformed_report_partial_merge :
  two_level_mapping (Sync.usageData malformed_push) = false /\
  fst (Sync.push (P:=reference_platform) "u1" malformed_push 2000 fresh)
    = Sync.InternalServerError /\
  usage_records
    (snd (Sync.push (P:=reference_platform) "u1" malformed_push 2000 fresh))
    <> usage_records fresh.
Proof.
  split; [reflexivity|]. split; [reflexivity|].
  vm_compute. discriminate.
Qed.

Lemma push_ignores_non_object_report_witness :
  truthy (JStr "2024-01-01") && typeof_object (JStr "2024-01-01") = false /\
  Sync.push (P:=reference_platform) "u1" (body_of (JStr "2024-01-01")) 1000
            fresh =
    Sync.push (P:=reference_platform) "u1" (body_of JUndefined) 1000 fresh /\
  usage_records
    (snd (Sync.push (P:=reference_platform) "u1"
            (body_of (JStr "2024-01-01")) 1000 fresh))
    = usage_records fresh.
Proof.
  split; [reflexivity|].
  apply (SyncSpec.push_ignores_non_object_report (P:=reference_platform)
           "u1" (body_of (JStr "2024-01-01")) 1000 fresh).
  reflexivity.
Defined.

Lemma push_counters_never_regress_witness :
  find_record example_key
    (usage_records
       (Sync.pushes (P:=reference_platform) [("u1", first_push, 1000)] fresh))
    = Some first_record /\
  exists r',
    find_record example_key
      (usage_records
         (Sync.pushes (P:=reference_platform)
            ([("u1", first_push, 1000)] ++ [("u1", second_push, 2000)])
            fresh)) = Some r' /\
    total_seconds first_record <= total_seconds r' /\
    visits first_record <= visits r'.
Proof.
  split; [reflexivity|].
  apply (SyncSpec.push_counters_never_regress (P:=reference_platform)
           [("u1", first_push, 1000)] [("u1", second_push, 2000)] fresh
           example_key first_record).
  reflexivity.
Defined.

Lemma push_device_not_found_witness :
  truthy (JStr "dev1") = true /\
  Sync.push (P:=reference_platform) "u2" first_push 1000 fresh
    = (Sync.DeviceNotFound, fresh).
Proof.
  split; [reflexivity|].
  apply (SyncSpec.push_device_not_found (P:=reference_platform)
           "u2" first_push 1000 fresh).
  - reflexivity.
  - intros dv [<-|[]] [_ H]. discriminate H.
Defined.

Lemma push_empty_payload_witness :
  Sync.select_device (P:=reference_platform) (JStr "dev1") "u1" fresh
    = Some laptop /\
  let d' :=
    snd (Sync.push (P:=reference_platform) "u1" (body_of JUndefined) 1000
                   fresh) in
  fst (Sync.push (P:=reference_platform) "u1" (body_of JUndefined) 1000 fresh)
    = Sync.SyncComplete 0 0 /\
  usage_records d' = usage_records fresh /\
  activity_events d' = activity_events fresh /\
  Sync.select_device (P:=reference_platform) (JStr "dev1") "u1" d'
    = Some (SyncNotions.synced 1000 laptop) /\
  sync_log d' =
    sync_log fresh ++
    [{| sl_user_id := "u1"; sl_device_id := "dev1"; sync_type := "push";
        records_synced := 0; sl_synced_at := 1000 |}].
Proof.
  split; [reflexivity|].
  apply (SyncSpec.push_empty_payload (P:=reference_platform)
           "u1" (body_of JUndefined) 1000 fresh laptop);
    reflexivity.
Defined.

Lemma push_merges_by_max_witness :
  Sync.push (P:=reference_platform) "u1" second_push 2000
            (snd (Sync.push (P:=reference_platform) "u1" first_push 1000 fresh))
    = (Sync.SyncComplete 1 0,
       snd (Sync.push (P:=reference_platform) "u1" second_push 2000
              (snd (Sync.push (P:=reference_platform) "u1" first_push 1000
                      fresh)))) /\
  exists e,
    Sync.upsert_params (P:=reference_platform) "u1" "dev1" "example.com"
      "2024-01-01"
      (JObj [("totalSeconds", JNum 80); ("visits", JNum 5);
             ("firstVisit", JStr "2024-01-01T08:00:00.000Z")]) = Some e /\
    exists r',
      find_record example_key
        (usage_records
           (snd (Sync.push (P:=reference_platform) "u1" second_push 2000
                   (snd (Sync.push (P:=reference_platform) "u1" first_push
                           1000 fresh))))) = Some r' /\
      total_seconds r' = Z.max 100 (Sync.p_total_seconds e) /\
      visits r' = Z.max 2 (Sync.p_visits e) /\
      Sync.earliest_of (P:=reference_platform) (first_visit r')
        (Some "2024-01-01T09:00:00.000Z") (Sync.p_first_visit e) /\
      Sync.latest_of (P:=reference_platform) (last_visit r')
        (Some "2024-01-01T10:00:00.000Z") (Sync.p_last_visit e).
Proof.
  split; [reflexivity|].
  apply (proj1 (SyncSpec.push_merges_by_max (P:=reference_platform))
           "u1" second_push 2000
           (snd (Sync.push (P:=reference_platform) "u1" first_push 1000 fresh))
           _ 1 0
           [("2024-01-01",
             JObj [("example.com",
                    JObj [("totalSeconds", JNum 80); ("visits", JNum 5);
                          ("firstVisit", JStr "2024-01-01T08:00:00.000Z")])])]
           "2024-01-01"
           (JObj [("example.com",
                   JObj [("totalSeconds", JNum 80); ("visits", JNum 5);
                         ("firstVisit", JStr "2024-01-01T08:00:00.000Z")])])
           [("example.com",
             JObj [("totalSeconds", JNum 80); ("visits", JNum 5);
                   ("firstVisit", JStr "2024-01-01T08:00:00.000Z")])]
           "example.com"
           (JObj [("totalSeconds", JNum 80); ("visits", JNum 5);
                  ("firstVisit", JStr "2024-01-01T08:00:00.000Z")])).
  - reflexivity.
  - reflexivity.
  - constructor; [intros []|constructor].
  - intros date' domains' entries' [[= <- <-]|[]] [= <-].
    constructor; [intros []|constructor].
  - now left.
  - reflexivity.
  - now left.
Defined.

End SyncExamples.

(** ** Sorting, grouping and sums *)

Module SqlFacts.

Lemma insert_asc_perm {A : Type} (f : A -> Z) (x : A) (l : list A) :
  Permutation (Sql.insert_asc f x l) (x :: l).
Proof.
  induction l as [|y l IH]; cbn [Sql.insert_asc]; [reflexivity|].
  destruct (f x <=? f y); [reflexivity|].
  rewrite IH. apply perm_swap.
Qed.

Lemma order_by_asc_perm {A : Type} (f : A -> Z) (l : list A) :
  Permutation (Sql.order_by_asc f l) l.
Proof.
  induction l as [|x l IH]; cbn [Sql.order_by_asc]; [reflexivity|].
  rewrite insert_asc_perm. now constructor.
Qed.

Lemma insert_desc_perm {A : Type} (f : A -> Z) (x : A) (l : list A) :
  Permutation (Sql.insert_desc f x l) (x :: l).
Proof.
  induction l as [|y l IH]; cbn [Sql.insert_desc]; [reflexivity|].
  destruct (f y <=? f x); [reflexivity|].
  rewrite IH. apply perm_swap.
Qed.

Lemma order_by_desc_perm {A : Type} (f : A -> Z) (l : list A) :
  Permutation (Sql.order_by_desc f l) l.
Proof.
  induction l as [|x l IH]; cbn [Sql.order_by_desc]; [reflexivity|].
  rewrite insert_desc_perm. now constructor.
Qed.

Lemma insert_desc_sorted {A : Type} (f : A -> Z) (x : A) (l : list A) :
  Sorted (Sql.desc f) l -> Sorted (Sql.desc f) (Sql.insert_desc f x l).
Proof.
  induction l as [|y l IH]; intros Hs; cbn [Sql.insert_desc].
  - repeat constructor.
  - destruct (f y <=? f x) eqn:E.
    + apply Z.leb_le in E. constructor; [assumption|]. now constructor.
    + apply Z.leb_gt in E. inversion Hs as [|? ? Hs' Hhd]; subst.
      constructor; [now apply IH|].
      destruct l as [|z l]; cbn [Sql.insert_desc].
      * constructor. unfold Sql.desc. lia.
      * destruct (f z <=? f x).
        -- constructor. unfold Sql.desc. lia.
        -- inversion Hhd; subst. now constructor.
Qed.

Lemma order_by_desc_sorted {A : Type} (f : A -> Z) (l : list A) :
  Sorted (Sql.desc f) (Sql.order_by_desc f l).
Proof.
  induction l as [|x l IH]; cbn [Sql.order_by_desc]; [constructor|].
  now apply insert_desc_sorted.
Qed.

Lemma filter_length_perm {A : Type} (p : A -> bool) (l l' : list A) :
  Permutation l l' ->
  List.length (filter p l) = List.length (filter p l').
Proof.
  induction 1 as [|x l l' _ IH|x y l|l l' l'' _ IH1 _ IH2]; cbn [filter].
  - reflexivity.
  - destruct (p x); cbn [List.length]; now rewrite IH.
  - destruct (p x), (p y); reflexivity.
  - now rewrite IH1.
Qed.

Lemma filter_filter {A : Type} (p q : A -> bool) (l : list A) :
  filter p (filter q l) = filter (fun x => q x && p x) l.
Proof.
  induction l as [|x l IH]; cbn [filter]; [reflexivity|].
  destruct (q x); cbn [filter andb]; [|assumption].
  destruct (p x); now rewrite IH.
Qed.

Lemma filter_comm {A : Type} (p q : A -> bool) (l : list A) :
  filter p (filter q l) = filter q (filter p l).
Proof.
  rewrite !filter_filter. apply filter_ext. intros x. apply andb_comm.
Qed.

End SqlFacts.

(** ** Screenshots: the per-user limit *)

Module ScreenshotFacts.
Import SqlFacts ScreenshotNotions.

Section WithPlatform.
Context {P : Platform}.

Lemma run_removals (user : string) (oldest : list screenshot) :
  forall d,
    for_of oldest (Screenshots.remove_oldest user) tt d =
    (Returned tt, removed_all user oldest d).
Proof.
  induction oldest as [|o rest IH]; intros d; [reflexivity|].
  cbn [for_of removed_all fold_left]. unfold bind at 1.
  unfold Screenshots.remove_oldest at 1. unfold bind, exec.
  apply IH.
Qed.

Lemma removed_all_screenshots (user : string) (oldest : list screenshot) :
  forall d,
    screenshots (removed_all user oldest d) =
    filter (fun s => negb (id_among oldest s)) (screenshots d).
Proof.
  induction oldest as [|o rest IH]; intros d.
  - cbn [removed_all fold_left id_among existsb negb].
    now rewrite filter_true.
  - change (removed_all user (o :: rest) d)
      with (removed_all user rest
              (Screenshots.delete_screenshot (ss_id o)
                 (Screenshots.unlink_if_exists user (ss_filename o) d))).
    rewrite IH.
    cbn [screenshots Screenshots.delete_screenshot set_screenshots
         Screenshots.unlink_if_exists set_files].
    rewrite filter_filter. apply filter_ext. intros s.
    cbn [id_among existsb]. now rewrite negb_orb.
Qed.

Lemma filter_firstn_bound {A : Type} (q : A -> bool) (l : list A) :
  forall n,
    (forall x, In x (firstn n l) -> q x = true) ->
    (List.length (filter (fun x => negb (q x)) l) <= List.length l - n)%nat.
Proof.
  induction l as [|x l IH]; intros n Hq; [cbn; lia|].
  destruct n as [|n].
  - rewrite Nat.sub_0_r. apply filter_length_le.
  - cbn [firstn] in Hq. cbn [filter]. rewrite (Hq x) by now left.
    cbn [negb List.length Nat.sub]. apply IH.
    intros y Hin. apply Hq. now right.
Qed.

Lemma removals_bound (user : string) (d : db) (n : nat) :
  let oldest :=
    firstn n (Sql.order_by_asc created_at (Screenshots.of_user user d)) in
  (List.length
     (filter (fun s => (ss_user_id s =? user)%string)
             (filter (fun s => negb (id_among oldest s)) (screenshots d)))
   <= List.length (Screenshots.of_user user d) - n)%nat.
Proof.
  cbv zeta. rewrite filter_comm. fold (Screenshots.of_user user d).
  rewrite (filter_length_perm _ _ _
             (Permutation_sym
                (order_by_asc_perm created_at (Screenshots.of_user user d)))).
  rewrite <- (Permutation_length
                (order_by_asc_perm created_at (Screenshots.of_user user d))).
  apply filter_firstn_bound.
  intros s Hin. unfold id_among. apply existsb_exists.
  exists s. split; [assumption|apply String.eqb_refl].
Qed.

(** After the limit is enforced the user has at most 200 screenshots. *)
Lemma enforce_limit_bound (user : string) (d : db) :
  fst (Screenshots.enforce_limit user d) = Returned tt /\
  Screenshots.count_of_user user (snd (Screenshots.enforce_limit user d))
    <= Screenshots.limit.
Proof.
  unfold Screenshots.enforce_limit, bind, query.
  destruct (Screenshots.count_of_user user d >? Screenshots.limit) eqn:E.
  - rewrite run_removals. split; [reflexivity|]. cbn [snd].
    unfold Screenshots.count_of_user at 1, Sql.count, Screenshots.of_user.
    rewrite removed_all_screenshots. unfold Screenshots.select_oldest.
    pose proof (removals_bound user d
                  (Z.to_nat (Screenshots.count_of_user user d
                             - Screenshots.limit))) as Hb.
    cbv zeta in Hb.
    apply Z.gtb_lt in E.
    unfold Screenshots.count_of_user, Sql.count in *.
    unfold Screenshots.limit in *. lia.
  - split; [reflexivity|]. cbn [snd ret].
    destruct (Screenshots.count_of_user user d >? Screenshots.limit) eqn:E';
      [discriminate|].
    rewrite Z.gtb_ltb in E'. apply Z.ltb_ge in E'. assumption.
Qed.

(** POST /upload-base64, statement by statement. *)
Lemma upload_base64_unfold (user : string) (dataUrl : jsval)
  (f : Screenshots.fields) (uuid_name id : string) (now : Z) (d : db) :
  Screenshots.upload_base64 user dataUrl f uuid_name id now d =
  if js_not dataUrl then (Screenshots.DataUrlRequired, d) else
  match Screenshots.js_match dataUrl with
  | None => (Screenshots.InternalServerError, d)
  | Some None => (Screenshots.InvalidDataUrl, d)
  | Some (Some (m1, m2)) =>
      let ext := if (m1 =? "jpeg")%string then "jpg" else m1 in
      let filename :=
        (Screenshots.decimal now ++ "-" ++ substring 0 8 uuid_name ++ "." ++
         ext)%string in
      let d1 := Screenshots.write_file user filename d in
      match Screenshots.screenshot_row id user filename
              (base64_byteLength m2) f now with
      | None => (Screenshots.InternalServerError, d1)
      | Some row =>
          match Screenshots.insert_screenshot row d1 with
          | (Thrown, d2) => (Screenshots.InternalServerError, d2)
          | (Returned _, d2) =>
              (Screenshots.Uploaded id filename,
               snd (Screenshots.enforce_limit user d2))
          end
      end
  end.
Proof.
  unfold Screenshots.upload_base64, try_catch.
  destruct (js_not dataUrl); [reflexivity|].
  unfold bind at 1. unfold eval.
  destruct (Screenshots.js_match dataUrl) as [[[m1 m2]|]|];
    try reflexivity.
  unfold ret at 1. cbv zeta.
  unfold bind at 1. unfold exec at 1.
  unfold bind at 1.
  destruct (Screenshots.screenshot_row _ _ _ _ _ _) as [row|];
    [|reflexivity].
  unfold ret at 1. unfold bind at 1.
  destruct (Screenshots.insert_screenshot row _) as [[[]|] d2];
    [|reflexivity].
  unfold bind at 1.
  destruct (enforce_limit_bound user d2) as [H1 _].
  destruct (Screenshots.enforce_limit user d2) as [[[]|] d3];
    [reflexivity|discriminate].
Qed.

(** POST /upload-base64 keeps the user within the limit whenever it
    answers 201. *)
Lemma upload_base64_within_limit (user : string) (dataUrl : jsval)
  (f : Screenshots.fields) (uuid_name id : string) (now : Z) (d : db)
  (id' filename : string) :
  fst (Screenshots.upload_base64 user dataUrl f uuid_name id now d)
    = Screenshots.Uploaded id' filename ->
  Screenshots.count_of_user user
    (snd (Screenshots.upload_base64 user dataUrl f uuid_name id now d))
    <= Screenshots.limit.
Proof.
  rewrite upload_base64_unfold.
  destruct (js_not dataUrl); [discriminate|].
  destruct (Screenshots.js_match dataUrl) as [[[m1 m2]|]|];
    try discriminate.
  cbv zeta.
  destruct (Screenshots.screenshot_row _ _ _ _ _ _) as [row|];
    [|discriminate].
  destruct (Screenshots.insert_screenshot row _) as [[[]|] d2];
    [|discriminate].
  intros _. apply enforce_limit_bound.
Qed.

End WithPlatform.
End ScreenshotFacts.

(** ** Screenshots on the example data *)

Module ScreenshotExamples.
Import Examples.

(** C6.  POST /upload stores the 201st screenshot of a user and removes
    nothing: the user is left above the limit of 200. *)
Theorem upload_exceeds_limit :
  let r :=
    Screenshots.upload (P:=reference_platform) "u1"
      (Some ("1704099600000-0a1b2c3d.jpg", 2048)) metadata "new-id"
      upload_time at_limit in
  Screenshots.count_of_user "u1" at_limit = 200 /\
  fst r = Screenshots.Uploaded "new-id" "1704099600000-0a1b2c3d.jpg" /\
  Screenshots.count_of_user "u1" (snd r) = 201 /\
  Screenshots.limit < Screenshots.count_of_user "u1" (snd r).
Proof. vm_compute. repeat split. Qed.

(** The same upload through POST /upload-base64 ends at the limit: the
    oldest screenshot is removed, row and file. *)
Lemma upload_base64_evicts_oldest :
  let r :=
    Screenshots.upload_base64 (P:=reference_platform) "u1"
      (JStr "data:image/jpeg;base64,AAAA") metadata "0a1b2c3d-0000" "new-id"
      upload_time at_limit in
  fst r = Screenshots.Uploaded "new-id" "1704099600000-0a1b2c3d.jpg" /\
  Screenshots.count_of_user "u1" (snd r) = 200 /\
  existsb (fun s => (ss_id s =? ss_id (shot 0))%string) (screenshots (snd r))
    = false /\
  Screenshots.has_file "u1" (ss_filename (shot 0)) (snd r) = false /\
  existsb (fun s => (ss_id s =? "new-id")%string) (screenshots (snd r))
    = true.
Proof. vm_compute. repeat split. Qed.

End ScreenshotExamples.


Module AnalyticsFacts.
Import SqlFacts AnalyticsSpec.

Lemma sum_of_filter (p : usage_record -> bool) (f : usage_record -> Z)
  (rows : list usage_record) :
  Sql.sum_of (map f (filter p rows)) = sum_where p f rows.
Proof.
  induction rows as [|r rows IH]; cbn [filter sum_where]; [reflexivity|].
  destruct (p r); cbn [map Sql.sum_of fold_right]; fold (Sql.sum_of);
    rewrite <- IH; unfold Sql.sum_of; lia.
Qed.

Lemma sum_where_filter (p q : usage_record -> bool) (f : usage_record -> Z)
  (rows : list usage_record) :
  sum_where q f (filter p rows) = sum_where (fun r => p r && q r) f rows.
Proof.
  induction rows as [|r rows IH]; cbn [filter sum_where]; [reflexivity|].
  destruct (p r); cbn [sum_where andb]; now rewrite IH.
Qed.

Lemma coerced_sum (l : list Z) :
  Analytics.parseInt_or_0 (Sql.coalesce (Sql.sum l) (Some 0)) = Sql.sum_of l.
Proof.
  destruct l as [|x l]; [reflexivity|].
  unfold Sql.sum, Sql.coalesce, Analytics.parseInt_or_0, Analytics.or_default.
  destruct (Sql.sum_of (x :: l) =? 0) eqn:E; [|reflexivity].
  apply Z.eqb_eq in E. now rewrite E.
Qed.

Lemma coerced_count (n : Z) : Analytics.parseInt_or_0 (Some n) = n.
Proof.
  unfold Analytics.parseInt_or_0, Analytics.or_default.
  destruct (n =? 0) eqn:E; [|reflexivity].
  apply Z.eqb_eq in E. now rewrite E.
Qed.

Lemma opt_eqb_eq (a b : option string) :
  Analytics.opt_eqb a b = true <-> a = b.
Proof.
  destruct a as [x|], b as [y|]; cbn; try (split; congruence).
  rewrite String.eqb_eq. split; congruence.
Qed.

Lemma site_eqb_eq (a b : Analytics.site_key) :
  Analytics.site_eqb a b = true <-> a = b.
Proof.
  destruct a as [[d1 t1] c1], b as [[d2 t2] c2]. cbn [Analytics.site_eqb].
  rewrite !andb_true_iff, String.eqb_eq, !opt_eqb_eq.
  split; [intros [[-> ->] ->]; reflexivity|intros [= -> -> ->]; auto].
Qed.

Section Distinct.
Context {K : Type} (eqb : K -> K -> bool).
Hypothesis eqb_eq : forall a b, eqb a b = true <-> a = b.

Lemma distinct_in (l : list K) (k : K) :
  In k (Sql.distinct eqb l) <-> In k l.
Proof.
  induction l as [|k0 l IH]; cbn [Sql.distinct In]; [reflexivity|].
  rewrite filter_In, IH. split.
  - intros [H|[H _]]; auto.
  - intros [H|H]; [now left|].
    destruct (eqb k k0) eqn:E.
    + left. symmetry. now apply eqb_eq.
    + right. auto.
Qed.

Lemma distinct_nodup (l : list K) : NoDup (Sql.distinct eqb l).
Proof.
  induction l as [|k0 l IH]; cbn [Sql.distinct]; constructor.
  - rewrite filter_In. intros [_ H].
    rewrite (proj2 (eqb_eq k0 k0) eq_refl) in H. discriminate.
  - now apply NoDup_filter.
Qed.

End Distinct.

(** [COUNT(DISTINCT ...)] counts the distinct values. *)
Lemma count_distinct_nodup (l : list string) :
  Sql.count_distinct l = Z.of_nat (List.length (nodup string_dec l)).
Proof.
  unfold Sql.count_distinct. f_equal. apply Permutation_length.
  apply NoDup_Permutation.
  - apply distinct_nodup, String.eqb_eq.
  - apply NoDup_nodup.
  - intros x. rewrite nodup_In. apply distinct_in, String.eqb_eq.
Qed.

Lemma sorted_firstn {A : Type} (R : A -> A -> Prop) (l : list A) :
  Sorted R l -> forall n, Sorted R (firstn n l).
Proof.
  induction 1 as [|x l Hs IH Hhd]; intros [|n]; cbn [firstn];
    try constructor.
  - apply IH.
  - destruct Hhd as [|y l' Hxy]; [destruct n; constructor|].
    destruct n; cbn [firstn]; now constructor.
Qed.

(** The groups of [GROUP BY domain, title, category]: one per site with a
    record, each holding the records of its site. *)
Lemma group_by_site (rows : list usage_record)
  (g : Analytics.site_key * list usage_record) :
  In g (Sql.group_by Analytics.site_eqb Analytics.site_of rows) ->
  snd g = filter (of_site (fst g)) rows /\
  exists r, In r rows /\ Analytics.site_of r = fst g.
Proof.
  unfold Sql.group_by. intros H. apply in_map_iff in H.
  destruct H as (k & <- & Hk). cbn [fst snd]. split; [reflexivity|].
  apply (proj1 (distinct_in _ site_eqb_eq _ _)) in Hk.
  apply in_map_iff in Hk.
  destruct Hk as (r & Hr & Hin). now exists r.
Qed.

Lemma group_by_site_keys (rows : list usage_record) :
  map fst (Sql.group_by Analytics.site_eqb Analytics.site_of rows) =
  Sql.distinct Analytics.site_eqb (map Analytics.site_of rows).
Proof.
  unfold Sql.group_by. rewrite map_map. cbn [fst]. apply map_id.
Qed.

End AnalyticsFacts.

(** ** GET /daily *)

Module DailySpec.
Import SqlFacts AnalyticsSpec AnalyticsFacts.

Lemma filter_none {A : Type} (p : A -> bool) (l : list A) :
  (forall x, In x l -> p x = false) -> filter p l = [].
Proof.
  induction l as [|x l IH]; intros H; cbn [filter]; [reflexivity|].
  rewrite (H x) by now left. apply IH. intros y Hy. apply H. now right.
Qed.

Lemma site_row_of_key (g : Analytics.site_key * list usage_record) :
  site_row_key (site_row_of g) = fst g.
Proof. destruct g as [[[dm t] c] rs]. reflexivity. Qed.

Lemma select_sites_perm (rows : list usage_record) :
  Permutation (Analytics.select_sites rows)
    (map site_row_of
         (Sql.group_by Analytics.site_eqb Analytics.site_of rows)).
Proof. apply order_by_desc_perm. Qed.

Lemma select_sites_keys (rows : list usage_record) :
  Permutation (map site_row_key (Analytics.select_sites rows))
    (Sql.distinct Analytics.site_eqb (map Analytics.site_of rows)).
Proof.
  rewrite (Permutation_map site_row_key (select_sites_perm rows)).
  rewrite map_map, <- group_by_site_keys.
  erewrite map_ext; [reflexivity|]. apply site_row_of_key.
Qed.

Lemma select_sites_row (rows : list usage_record) (row : Analytics.site_row) :
  In row (Analytics.select_sites rows) ->
  Analytics.s_total_seconds row =
    sum_where (of_site (site_row_key row)) total_seconds rows /\
  Analytics.s_visits row =
    sum_where (of_site (site_row_key row)) visits rows.
Proof.
  intros H. apply (Permutation_in _ (select_sites_perm rows)) in H.
  apply in_map_iff in H. destruct H as (g & <- & Hg).
  apply group_by_site in Hg. destruct Hg as [Hs _].
  rewrite site_row_of_key. destruct g as [[[dm t] c] rs].
  cbn [fst snd] in *. subst rs. cbn [site_row_of fst snd
    Analytics.s_total_seconds Analytics.s_visits].
  now rewrite !sum_of_filter.
Qed.

Section WithPlatform.
Context {P : Platform}.

Lemma body_fields (s : Analytics.daily_summary) :
  get_prop (DailyBody.body s) "totals" =
    Some (JObj [("totalSeconds",
                 JNum (Analytics.totalSeconds (Analytics.totals s)));
                ("totalVisits",
                 JNum (Analytics.totalVisits (Analytics.totals s)));
                ("totalDomains",
                 JNum (Analytics.totalDomains (Analytics.totals s)))]) /\
  get_prop (DailyBody.body s) "screenshotCount" =
    Some (JNum (Analytics.screenshotCount s)) /\
  get_prop (DailyBody.body s) "sites" =
    Some (JArr (map DailyBody.site_json (Analytics.sites s))) /\
  get_prop (DailyBody.body s) "categories" =
    Some (JArr (map DailyBody.category_json (Analytics.categories s))) /\
  get_prop (DailyBody.body s) "deviceBreakdown" =
    Some (JArr (map DailyBody.device_json (Analytics.deviceBreakdown s))).
Proof. repeat split. Qed.

(** C7, as the handler has it.  For a given date, GET /daily answers with
    totals that are the sums of [total_seconds] and of [visits] over the
    usage records of the user with that date, and with one [sites] row for
    each (domain, title, category) that has such a record, holding the sums
    over its records, in descending order of [total_seconds].  In the body
    it sends, [totals] and [screenshotCount] are integers, 0 where nothing
    matches; the sums and counts of the rows of [sites], [categories] and
    [deviceBreakdown] are not converted: they are the decimal strings the
    driver returns.  Where no record matches, these three lists are
    empty. *)
Theorem daily_totals_are_sums (user : string) (qdate : jsval) (now : Z)
  (d : db) :
  truthy qdate = true ->
  exists s,
    Analytics.daily user qdate now d = Some s /\
    Analytics.date s = qdate /\
    let day := on_day user (pg_text qdate) in
    Analytics.totalSeconds (Analytics.totals s)
      = sum_where day total_seconds (usage_records d) /\
    Analytics.totalVisits (Analytics.totals s)
      = sum_where day visits (usage_records d) /\
    Sorted (Sql.desc Analytics.s_total_seconds) (Analytics.sites s) /\
    NoDup (map site_row_key (Analytics.sites s)) /\
    (forall row,
       In row (Analytics.sites s) ->
       Analytics.s_total_seconds row =
         sum_where (fun r => day r && of_site (site_row_key row) r)
                   total_seconds (usage_records d) /\
       Analytics.s_visits row =
         sum_where (fun r => day r && of_site (site_row_key row) r)
                   visits (usage_records d)) /\
    (forall r,
       In r (usage_records d) -> day r = true ->
       exists row,
         In row (Analytics.sites s) /\
         site_row_key row = Analytics.site_of r) /\
    ((forall r, In r (usage_records d) -> day r = false) ->
     Analytics.totals s =
       {| Analytics.totalSeconds := 0; Analytics.totalVisits := 0;
          Analytics.totalDomains := 0 |} /\
     Analytics.sites s = [] /\
     Analytics.categories s = [] /\
     Analytics.deviceBreakdown s = []) /\
    ((forall x, In x (screenshots d) ->
                ((ss_user_id x =? user) && (ss_date x =? pg_text qdate))%string
                = false) ->
     Analytics.screenshotCount s = 0) /\
    DailyBody.daily_body user qdate now d = Some (DailyBody.body s) /\
    get_prop (DailyBody.body s) "totals" =
      Some (JObj
              [("totalSeconds",
                JNum (sum_where day total_seconds (usage_records d)));
               ("totalVisits",
                JNum (sum_where day visits (usage_records d)));
               ("totalDomains",
                JNum (Z.of_nat
                        (List.length
                           (nodup string_dec
                              (map ur_domain
                                   (filter day (usage_records d)))))))]) /\
    get_prop (DailyBody.body s) "screenshotCount" =
      Some (JNum
              (Z.of_nat
                 (List.length
                    (filter
                       (fun x => ((ss_user_id x =? user)
                                  && (ss_date x =? pg_text qdate))%string)
                       (screenshots d))))) /\
    get_prop (DailyBody.body s) "sites" =
      Some (JArr (map DailyBody.site_json (Analytics.sites s))) /\
    get_prop (DailyBody.body s) "categories" =
      Some (JArr (map DailyBody.category_json (Analytics.categories s))) /\
    get_prop (DailyBody.body s) "deviceBreakdown" =
      Some (JArr (map DailyBody.device_json
                      (Analytics.deviceBreakdown s))) /\
    (forall row,
       In row (Analytics.sites s) ->
       DailyBody.site_numbers (DailyBody.site_json row) =
       [Some (JStr (Screenshots.decimal (Analytics.s_total_seconds row)));
        Some (JStr (Screenshots.decimal (Analytics.s_visits row)))]) /\
    (forall row,
       In row (Analytics.categories s) ->
       DailyBody.category_numbers (DailyBody.category_json row) =
       [Some (JStr (Screenshots.decimal (Analytics.c_total_seconds row)));
        Some (JStr (Screenshots.decimal (Analytics.c_total_visits row)));
        Some (JStr (Screenshots.decimal (Analytics.c_sites row)))]) /\
    (forall row,
       In row (Analytics.deviceBreakdown s) ->
       DailyBody.device_numbers (DailyBody.device_json row) =
       [Some (JStr (Screenshots.decimal (Analytics.b_total_seconds row)));
        Some (JStr (Screenshots.decimal (Analytics.b_total_visits row)));
        Some (JStr (Screenshots.decimal (Analytics.b_domains row)))]).
Proof.
  intros Ht. unfold Analytics.daily. rewrite Ht.
  eexists. split; [reflexivity|].
  cbn [Analytics.date Analytics.totals Analytics.sites Analytics.categories
       Analytics.deviceBreakdown Analytics.screenshotCount
       Analytics.totalSeconds Analytics.totalVisits].
  split; [reflexivity|]. cbv zeta.
  change (Analytics.records_on user (pg_text qdate) d)
    with (filter (on_day user (pg_text qdate)) (usage_records d)).
  set (day := on_day user (pg_text qdate)).
  split; [now rewrite coerced_sum, sum_of_filter|].
  split; [now rewrite coerced_sum, sum_of_filter|].
  split; [apply order_by_desc_sorted|].
  split.
  { apply (Permutation_NoDup (Permutation_sym (select_sites_keys _))).
    apply distinct_nodup, site_eqb_eq. }
  split.
  { intros row Hrow. apply select_sites_row in Hrow.
    now rewrite !sum_where_filter in Hrow. }
  split.
  { intros r Hin Hday.
    assert (Hk : In (Analytics.site_of r)
                    (map site_row_key
                       (Analytics.select_sites (filter day (usage_records d))))).
    { apply (Permutation_in _ (Permutation_sym (select_sites_keys _))).
      apply (distinct_in _ site_eqb_eq). apply in_map.
      apply filter_In. now split. }
    apply in_map_iff in Hk. destruct Hk as (row & Hkey & Hrow).
    now exists row. }
  split.
  { intros Hnone. rewrite (filter_none day) by assumption.
    repeat split. }
  split.
  { intros Hnone. rewrite filter_none by assumption. reflexivity. }
  split.
  { unfold DailyBody.daily_body, Analytics.daily. now rewrite Ht. }
  destruct (body_fields
              {| Analytics.date := qdate;
                 Analytics.sites :=
                   Analytics.select_sites (filter day (usage_records d));
                 Analytics.totals :=
                   {| Analytics.totalSeconds :=
                        Analytics.parseInt_or_0
                          (Sql.coalesce
                             (Sql.sum (map total_seconds
                                           (filter day (usage_records d))))
                             (Some 0));
                      Analytics.totalVisits :=
                        Analytics.parseInt_or_0
                          (Sql.coalesce
                             (Sql.sum (map visits
                                           (filter day (usage_records d))))
                             (Some 0));
                      Analytics.totalDomains :=
                        Analytics.parseInt_or_0
                          (Some (Sql.count_distinct
                                   (map ur_domain
                                        (filter day (usage_records d))))) |};
                 Analytics.categories :=
                   Analytics.select_categories
                     (filter day (usage_records d));
                 Analytics.deviceBreakdown :=
                   Analytics.select_devices (filter day (usage_records d)) d;
                 Analytics.screenshotCount :=
                   Analytics.parseInt_or_0
                     (Some (Sql.count
                              (filter
                                 (fun x => ((ss_user_id x =? user)
                                            && (ss_date x =? pg_text qdate))
                                           %string)
                                 (screenshots d)))) |})
    as (Htot & Hcount & Hsites & Hcats & Hdevs).
  cbn [Analytics.date Analytics.totals Analytics.sites Analytics.categories
       Analytics.deviceBreakdown Analytics.screenshotCount
       Analytics.totalSeconds Analytics.totalVisits Analytics.totalDomains]
    in Htot, Hcount, Hsites, Hcats, Hdevs.
  split.
  { rewrite Htot, !coerced_sum, !sum_of_filter, coerced_count,
      count_distinct_nodup. reflexivity. }
  split.
  { rewrite Hcount, coerced_count. reflexivity. }
  split; [exact Hsites|]. split; [exact Hcats|]. split; [exact Hdevs|].
  split; [|split]; intros row _; reflexivity.
Qed.

End WithPlatform.
End DailySpec.

Module DailyExamples.
Import Examples.

Lemma daily_totals_are_sums_witness :
  truthy (JStr "2024-01-02") = true /\
  exists s,
    Analytics.daily (P:=reference_platform) "u1" (JStr "2024-01-02")
      query_time two_titles = Some s /\
    Analytics.totalSeconds (Analytics.totals s) = 800 /\
    Analytics.totalVisits (Analytics.totals s) = 2 /\
    Sorted (Sql.desc Analytics.s_total_seconds) (Analytics.sites s).
Proof.
  split; [reflexivity|].
  destruct (DailySpec.daily_totals_are_sums (P:=reference_platform)
              "u1" (JStr "2024-01-02") query_time two_titles eq_refl)
    as (s & Hs & _ & Hsec & Hvis & Hsorted & _).
  exists s. split; [exact Hs|]. split; [exact Hsec|].
  split; [exact Hvis|exact Hsorted].
Defined.

(** C7, as stated, fails: the answer for 2024-01-02 carries the sums of
    its [sites] and [categories] rows as the strings the driver returned,
    "500" and "800", not as integers; only [totals] and [screenshotCount]
    are numbers. *)
Lemma daily_row_sums_are_text :
  exists body,
    DailyBody.daily_body (P:=reference_platform) "u1" (JStr "2024-01-02")
      query_time two_titles = Some body /\
    get_prop body "sites" =
      Some (JArr [JObj [("domain", JStr "b.com"); ("title", JStr "B");
                        ("category", JStr "Work");
                        ("total_seconds", JStr "500");
                        ("visits", JStr "1")];
                  JObj [("domain", JStr "a.com"); ("title", JStr "A - home");
                        ("category", JStr "Work");
                        ("total_seconds", JStr "300");
                        ("visits", JStr "1")]]) /\
    get_prop body "categories" =
      Some (JArr [JObj [("category", JStr "Work");
                        ("total_seconds", JStr "800");
                        ("total_visits", JStr "2");
                        ("sites", JStr "2")]]) /\
    get_prop body "totals" =
      Some (JObj [("totalSeconds", JNum 800); ("totalVisits", JNum 2);
                  ("totalDomains", JNum 2)]) /\
    DailyBody.is_integer (JStr "500") = false /\
    DailyBody.is_integer (JStr "800") = false.
Proof.
  eexists. split; [reflexivity|]. repeat split.
Qed.

End DailyExamples.

(** ** GET /top-domains *)

Module TopDomainsSpec.
Import SqlFacts AnalyticsSpec AnalyticsFacts.

Section WithPlatform.
Context {P : Platform}.

Lemma domain_row_of_key (g : Analytics.site_key * list usage_record) :
  domain_row_key (domain_row_of g) = fst g.
Proof. destruct g as [[[dm t] c] rs]. reflexivity. Qed.

Lemma select_domains_perm (rows : list usage_record) :
  Permutation (Analytics.select_domains rows)
    (map domain_row_of
         (Sql.group_by Analytics.site_eqb Analytics.site_of rows)).
Proof. apply order_by_desc_perm. Qed.

Lemma select_domains_keys (rows : list usage_record) :
  Permutation (map domain_row_key (Analytics.select_domains rows))
    (Sql.distinct Analytics.site_eqb (map Analytics.site_of rows)).
Proof.
  rewrite (Permutation_map domain_row_key (select_domains_perm rows)).
  rewrite map_map, <- group_by_site_keys.
  erewrite map_ext; [reflexivity|]. apply domain_row_of_key.
Qed.

Lemma select_domains_row (rows : list usage_record)
  (row : Analytics.domain_row) :
  In row (Analytics.select_domains rows) ->
  Analytics.t_total_seconds row =
    sum_where (of_site (domain_row_key row)) total_seconds rows /\
  Analytics.t_total_visits row =
    sum_where (of_site (domain_row_key row)) visits rows /\
  Analytics.t_active_days row = days_where (of_site (domain_row_key row)) rows /\
  exists r, In r rows /\ Analytics.site_of r = domain_row_key row.
Proof.
  intros H. apply (Permutation_in _ (select_domains_perm rows)) in H.
  apply in_map_iff in H. destruct H as (g & <- & Hg).
  apply group_by_site in Hg. destruct Hg as [Hs Hr].
  rewrite domain_row_of_key. destruct g as [[[dm t] c] rs].
  cbn [fst snd] in *. subst rs.
  cbn [domain_row_of fst snd Analytics.t_total_seconds
       Analytics.t_total_visits Analytics.t_active_days].
  rewrite !sum_of_filter, count_distinct_nodup. auto.
Qed.

Lemma sum_where_ext_in (p q : usage_record -> bool) (f : usage_record -> Z)
  (rows : list usage_record) :
  (forall r, In r rows -> p r = q r) ->
  sum_where p f rows = sum_where q f rows.
Proof.
  induction rows as [|r rows IH]; intros H; cbn [sum_where]; [reflexivity|].
  rewrite (H r) by now left. rewrite IH; [reflexivity|].
  intros r' Hr'. apply H. now right.
Qed.

Lemma select_domains_ranking (window : usage_record -> bool)
  (records : list usage_record) :
  group_ranking window records
    (Analytics.select_domains (filter window records)).
Proof.
  split; [apply order_by_desc_sorted|].
  split.
  { apply (Permutation_NoDup (Permutation_sym (select_domains_keys _))).
    apply distinct_nodup, site_eqb_eq. }
  split.
  - intros row Hrow group. apply select_domains_row in Hrow.
    destruct Hrow as (Hs & Hv & Hd & r & Hin & Hr).
    rewrite !sum_where_filter in *. unfold days_where in *.
    rewrite filter_filter in Hd. repeat split; try assumption.
    apply filter_In in Hin. destruct Hin as [Hin Hw].
    exists r. split; [assumption|]. unfold group, of_site.
    rewrite Hw, Hr. now apply site_eqb_eq.
  - intros r Hin Hw.
    assert (Hk : In (Analytics.site_of r)
                    (map domain_row_key
                       (Analytics.select_domains (filter window records)))).
    { apply (Permutation_in _ (Permutation_sym (select_domains_keys _))).
      apply (distinct_in _ site_eqb_eq). apply in_map.
      apply filter_In. now split. }
    apply in_map_iff in Hk. destruct Hk as (row & Hkey & Hrow).
    now exists row.
Qed.

Lemma days_where_ext_in (p q : usage_record -> bool)
  (rows : list usage_record) :
  (forall r, In r rows -> p r = q r) -> days_where p rows = days_where q rows.
Proof.
  intros H. unfold days_where. now rewrite (filter_ext_in p q rows H).
Qed.

(** Where every domain has a single title and category, the groups are
    the domains. *)
Lemma group_ranking_domains (window : usage_record -> bool)
  (records : list usage_record) (ranking : list Analytics.domain_row) :
  group_ranking window records ranking ->
  single_titled window records ->
  domain_ranking window records ranking.
Proof.
  intros (_ & _ & Hrows & _) Hsingle row Hrow whole.
  destruct (Hrows row Hrow) as (Hs & Hv & Hd & r0 & Hin0 & Hg0).
  apply andb_true_iff in Hg0. destruct Hg0 as [Hw0 Hk0].
  apply site_eqb_eq in Hk0.
  assert (Hext : forall r,
            In r records ->
            window r && of_site (domain_row_key row) r = whole r).
  { intros r Hin. unfold whole. destruct (window r) eqn:Hw; [|reflexivity].
    cbn [andb]. unfold of_site, of_domain.
    destruct (ur_domain r =? Analytics.t_domain row)%string eqn:E.
    - apply site_eqb_eq. apply String.eqb_eq in E.
      rewrite <- Hk0. apply Hsingle; try assumption.
      rewrite E. unfold Analytics.site_of, domain_row_key in Hk0. congruence.
    - destruct (Analytics.site_eqb (Analytics.site_of r) (domain_row_key row))
        eqn:E'; [|reflexivity].
      apply site_eqb_eq in E'. apply String.eqb_neq in E.
      unfold Analytics.site_of, domain_row_key in E'. congruence. }
  rewrite (sum_where_ext_in _ _ total_seconds _ Hext) in Hs.
  rewrite (sum_where_ext_in _ _ visits _ Hext) in Hv.
  rewrite (days_where_ext_in _ _ _ Hext) in Hd. auto.
Qed.

Lemma site_eqb_domains (a b : usage_record) :
  ur_domain a <> ur_domain b ->
  Analytics.site_eqb (Analytics.site_of a) (Analytics.site_of b) = false.
Proof.
  intros Hneq.
  destruct (Analytics.site_eqb (Analytics.site_of a) (Analytics.site_of b))
    eqn:E; [|reflexivity].
  apply site_eqb_eq in E. unfold Analytics.site_of in E. congruence.
Qed.

Lemma sum_where_nonzero (p : usage_record -> bool) (f : usage_record -> Z)
  (rows : list usage_record) :
  sum_where p f rows <> 0 -> exists r, In r rows /\ p r = true.
Proof.
  induction rows as [|r rows IH]; cbn [sum_where]; [congruence|].
  destruct (p r) eqn:E; [exists r; split; [now left|assumption]|].
  intros H. destruct (IH H) as (r' & Hin & Hp).
  exists r'. split; [now right|assumption].
Qed.

(** C8, as the handler has it.  GET /top-domains, with the period capped
    at 90 days and the limit at 100 rows, answers with the first [limit]
    rows of the ranking of the (domain, title, category) groups of the
    user's records dated from the start of the period on: one row for each
    group, with the sums and the number of distinct dates of the group, in
    descending order of [total_seconds].  Where every domain has a single
    title and category in the window, each row holds the sums and the
    distinct dates of its whole domain.  In particular, with period 7 and
    limit 1, when the window holds two domains, each under a single title
    and category, whose records total 500 s and 300 s, the answer is the
    one row of the domain of 500 s, with that total, its visits and the
    number of its distinct dates. *)
Theorem top_domains_ranks_groups :
  (forall (user : string) (period lim : option Z) (now : Z) (d : db)
          (iso : string),
     let days := Z.min (Analytics.or_default period 7) 90 in
     let limit := Z.min (Analytics.or_default lim 20) 100 in
     toISOString (JNum (now - days * 86400000)) = Some iso ->
     0 <= limit ->
     let window := in_window user (substring 0 10 iso) in
     exists rows ranking,
       Analytics.top_domains user period lim now d = Some (rows, days) /\
       days <= 90 /\ limit <= 100 /\
       rows = firstn (Z.to_nat limit) ranking /\
       group_ranking window (usage_records d) ranking /\
       (single_titled window (usage_records d) ->
        domain_ranking window (usage_records d) ranking)) /\
  (forall (user : string) (now : Z) (d : db) (iso : string)
          (a b : string),
     toISOString (JNum (now - 7 * 86400000)) = Some iso ->
     let window := in_window user (substring 0 10 iso) in
     (forall r, In r (usage_records d) -> window r = true ->
                ur_domain r = a \/ ur_domain r = b) ->
     single_titled window (usage_records d) ->
     sum_where (fun r => window r && of_domain a r) total_seconds
               (usage_records d) = 500 ->
     sum_where (fun r => window r && of_domain b r) total_seconds
               (usage_records d) = 300 ->
     exists row,
       Analytics.top_domains user (Some 7) (Some 1) now d
         = Some ([row], 7) /\
       Analytics.t_domain row = a /\
       Analytics.t_total_seconds row = 500 /\
       Analytics.t_total_visits row =
         sum_where (fun r => window r && of_domain a r) visits
                   (usage_records d) /\
       Analytics.t_active_days row =
         days_where (fun r => window r && of_domain a r) (usage_records d)).
Proof.
  split.
  { intros user period lim now d iso.
    intros days limit Hiso Hlim window.
    exists (firstn (Z.to_nat limit)
              (Analytics.select_domains (filter window (usage_records d)))).
    exists (Analytics.select_domains (filter window (usage_records d))).
    split.
    { unfold Analytics.top_domains. fold days limit. rewrite Hiso.
      apply Z.ltb_ge in Hlim. now rewrite Hlim. }
    split; [apply Z.le_min_r|]. split; [apply Z.le_min_r|].
    split; [reflexivity|].
    split; [apply select_domains_ranking|].
    apply group_ranking_domains, select_domains_ranking. }
  { intros user now d iso a b Hiso window Hdom Hsingle Ha Hb.
    unfold Analytics.top_domains.
    change (Z.min (Analytics.or_default (Some 7) 7) 90) with 7.
    change (Z.min (Analytics.or_default (Some 1) 20) 100) with 1.
    rewrite Hiso. change (1 <? 0) with false. cbv iota.
    change (Z.to_nat 1) with 1%nat.
    change (Analytics.records_since user (substring 0 10 iso) d)
      with (filter window (usage_records d)).
    pose proof (select_domains_ranking window (usage_records d)) as Hg.
    pose proof (group_ranking_domains _ _ _ Hg Hsingle) as Hdr.
    remember (Analytics.select_domains (filter window (usage_records d)))
      as ranking eqn:Hranking.
    destruct Hg as (Hsorted & _ & Hrows & Hcover).
    (* the rows are rows of [a] or of [b] *)
    assert (Hab : forall row, In row ranking ->
                   Analytics.t_domain row = a \/ Analytics.t_domain row = b).
    { intros row Hrow. destruct (Hrows row Hrow) as (_ & _ & _ & r & Hin & Hr).
      apply andb_true_iff in Hr. destruct Hr as [Hw Hk].
      apply site_eqb_eq in Hk.
      assert (Hd : ur_domain r = Analytics.t_domain row)
        by (unfold Analytics.site_of, domain_row_key in Hk; congruence).
      rewrite <- Hd. now apply Hdom. }
    (* [a] has a row *)
    assert (Hex : exists r, In r (usage_records d) /\
                            window r && of_domain a r = true).
    { apply sum_where_nonzero with (f := total_seconds).
      rewrite Ha. discriminate. }
    destruct Hex as (ra & Hina & Hpa).
    apply andb_true_iff in Hpa. destruct Hpa as [Hwa Hda].
    apply String.eqb_eq in Hda.
    destruct (Hcover ra Hina Hwa) as (row_a & Hrow_a & Hkey_a).
    assert (Hdom_a : Analytics.t_domain row_a = a)
      by (unfold Analytics.site_of, domain_row_key in Hkey_a; congruence).
    (* the totals of the rows *)
    assert (Htotal : forall row, In row ranking ->
              (Analytics.t_domain row = a ->
               Analytics.t_total_seconds row = 500) /\
              (Analytics.t_domain row = b ->
               Analytics.t_total_seconds row = 300)).
    { intros row Hrow. destruct (Hdr row Hrow) as (Hs & _ & _).
      split; intros E; rewrite E in Hs; congruence. }
    destruct ranking as [|x rest]; [destruct Hrow_a|].
    exists x. cbn [firstn]. split; [reflexivity|].
    assert (Hx : Analytics.t_domain x = a).
    { destruct (Hab x (or_introl eq_refl)) as [Hx|Hx]; [exact Hx|].
      exfalso.
      pose proof (proj2 (Htotal x (or_introl eq_refl)) Hx) as Hx300.
      pose proof (proj1 (Htotal row_a Hrow_a) Hdom_a) as Ha500.
      destruct Hrow_a as [<-|Hrest]; [lia|].
      apply Sorted_StronglySorted in Hsorted;
        [|intros u v w; unfold Sql.desc; lia].
      apply StronglySorted_inv in Hsorted. destruct Hsorted as [_ Hall].
      rewrite Forall_forall in Hall. specialize (Hall row_a Hrest).
      unfold Sql.desc in Hall. lia. }
    split; [exact Hx|].
    destruct (Hdr x (or_introl eq_refl)) as (Hs & Hv & Hdays).
    rewrite Hx in Hs, Hv, Hdays.
    split; [congruence|]. split; assumption. }
Qed.

End WithPlatform.
End TopDomainsSpec.

Module TopDomainsExamples.
Import Examples AnalyticsSpec.

(** The example database is what the push of the example leaves. *)
Lemma two_titles_pushed :
  snd (Sync.push (P:=reference_platform) "u1" two_titles_push 1000 fresh)
  = two_titles.
Proof. reflexivity. Qed.

(** C8, as stated, fails: of the two domains in the window [a.com] has
    500 s and [b.com] 300 s, yet with period 7 and limit 1 the answer is
    [b.com] with its 300 s.  The records of [a.com] carry two page titles,
    so the query splits it into two rows of 250 s, both below [b.com]. *)
Lemma top_domains_splits_domain_by_title :
  let window := in_window (P:=reference_platform) "u1" "2023-12-29" in
  Reference.toISOString (JNum (query_time - 7 * 86400000))
    = Some "2023-12-29T00:00:00.000Z" /\
  (forall r, In r (usage_records split_titles) -> window r = true ->
             ur_domain r = "a.com" \/ ur_domain r = "b.com") /\
  sum_where (fun r => window r && of_domain "a.com" r) total_seconds
            (usage_records split_titles) = 500 /\
  sum_where (fun r => window r && of_domain "b.com" r) total_seconds
            (usage_records split_titles) = 300 /\
  option_map (fun answer => (map summary (fst answer), snd answer))
    (Analytics.top_domains (P:=reference_platform) "u1" (Some 7) (Some 1)
       query_time split_titles)
  = Some ([("b.com", 300, 1)], 7).
Proof.
  cbv zeta. split; [reflexivity|]. split.
  { intros r [<-|[<-|[<-|[]]]] _; auto. }
  repeat split.
Qed.

Lemma top_domains_ranks_groups_witness :
  (Reference.toISOString (JNum (query_time - 7 * 86400000))
     = Some "2023-12-29T00:00:00.000Z" /\
   0 <= 1 /\
   exists rows ranking,
     Analytics.top_domains (P:=reference_platform) "u1" (Some 7) (Some 1)
       query_time two_titles = Some (rows, 7) /\
     7 <= 90 /\ 1 <= 100 /\
     rows = firstn 1 ranking /\
     group_ranking (in_window (P:=reference_platform) "u1" "2023-12-29")
       (usage_records two_titles) ranking /\
     (single_titled (in_window (P:=reference_platform) "u1" "2023-12-29")
        (usage_records two_titles) ->
      domain_ranking (in_window (P:=reference_platform) "u1" "2023-12-29")
        (usage_records two_titles) ranking)) /\
  let window := in_window (P:=reference_platform) "u1" "2023-12-29" in
  (forall r, In r (usage_records one_title) -> window r = true ->
             ur_domain r = "a.com" \/ ur_domain r = "b.com") /\
  single_titled window (usage_records one_title) /\
  sum_where (fun r => window r && of_domain "a.com" r) total_seconds
            (usage_records one_title) = 500 /\
  sum_where (fun r => window r && of_domain "b.com" r) total_seconds
            (usage_records one_title) = 300 /\
  exists row,
    Analytics.top_domains (P:=reference_platform) "u1" (Some 7) (Some 1)
      query_time one_title = Some ([row], 7) /\
    Analytics.t_domain row = "a.com" /\
    Analytics.t_total_seconds row = 500 /\
    Analytics.t_total_visits row =
      sum_where (fun r => window r && of_domain "a.com" r) visits
                (usage_records one_title) /\
    Analytics.t_active_days row =
      days_where (fun r => window r && of_domain "a.com" r)
                 (usage_records one_title).
Proof.
  split.
  { split; [reflexivity|]. split; [discriminate|].
    apply (proj1 (TopDomainsSpec.top_domains_ranks_groups
                    (P:=reference_platform))
             "u1" (Some 7) (Some 1) query_time two_titles
             "2023-12-29T00:00:00.000Z").
    - reflexivity.
    - discriminate. }
  cbv zeta.
  assert (Hdom : forall r, In r (usage_records one_title) ->
                   in_window (P:=reference_platform) "u1" "2023-12-29" r
                   = true ->
                   ur_domain r = "a.com" \/ ur_domain r = "b.com").
  { intros r [<-|[<-|[<-|[]]]] _; auto. }
  assert (Hsingle : single_titled
                      (in_window (P:=reference_platform) "u1" "2023-12-29")
                      (usage_records one_title)).
  { intros r r' [<-|[<-|[<-|[]]]] [<-|[<-|[<-|[]]]] _ _ E;
      try reflexivity; discriminate E. }
  split; [exact Hdom|]. split; [exact Hsingle|].
  split; [reflexivity|]. split; [reflexivity|].
  apply (proj2 (TopDomainsSpec.top_domains_ranks_groups
                  (P:=reference_platform))
           "u1" query_time one_title "2023-12-29T00:00:00.000Z"
           "a.com" "b.com" eq_refl Hdom Hsingle eq_refl eq_refl).
Defined.

End TopDomainsExamples.

(** ** The placeholders of a statement *)

Module DatabaseFacts.
Import Database.

Lemma string_app_assoc (a b c : string) :
  ((a ++ b) ++ c = a ++ (b ++ c))%string.
Proof.
  induction a as [|x a IH]; cbn [append]; [reflexivity|]. now rewrite IH.
Qed.

Lemma count_char_app (c : ascii) (a b : string) :
  count_char c (a ++ b) = (count_char c a + count_char c b)%nat.
Proof.
  induction a as [|x a IH]; cbn [append count_char]; [reflexivity|].
  rewrite IH. lia.
Qed.

(** A decimal numeral holds neither ['?'] nor ['$']. *)
Lemma numeral_chars (c : ascii) (d : Decimal.uint) :
  c = "?"%char \/ c = "$"%char ->
  count_char c (NilEmpty.string_of_uint d) = O.
Proof.
  intros [-> | ->]; induction d; cbn [NilEmpty.string_of_uint count_char];
    try reflexivity; rewrite IHd; reflexivity.
Qed.

Lemma convert_from_app (a b : string) :
  forall i,
    convert_from i (a ++ b) =
    (convert_from i a ++ convert_from (i + count_char "?" a) b)%string.
Proof.
  induction a as [|x a IH]; intros i; cbn [append convert_from count_char].
  - now rewrite Nat.add_0_r.
  - destruct (Ascii.eqb x "?"); rewrite IH.
    + cbn [append]. rewrite string_app_assoc.
      replace (S i + count_char "?" a)%nat
        with (i + (1 + count_char "?" a))%nat by lia.
      reflexivity.
    + reflexivity.
Qed.

Lemma convert_from_clean (s : string) :
  count_char "?" s = O -> forall i, convert_from i s = s.
Proof.
  induction s as [|x s IH]; cbn [count_char convert_from]; [reflexivity|].
  destruct (Ascii.eqb x "?"); [discriminate|].
  intros H i. now rewrite IH.
Qed.

Lemma convert_from_count (c : ascii) (s : string) :
  c = "?"%char \/ c = "$"%char ->
  forall i,
    count_char c (convert_from i s) =
    (if Ascii.eqb c "$" then count_char "$" s + count_char "?" s else 0)%nat.
Proof.
  intros Hc. induction s as [|x s IH]; intros i;
    cbn [convert_from count_char].
  - now destruct (Ascii.eqb c "$").
  - destruct (Ascii.eqb x "?") eqn:E.
    + apply Ascii.eqb_eq in E. subst x.
      cbn [append count_char]. unfold index_key.
      rewrite count_char_app, (numeral_chars c _ Hc), IH.
      destruct Hc as [-> | ->]; cbn; lia.
    + cbn [count_char]. rewrite IH.
      destruct Hc as [-> | ->]; cbn [Ascii.eqb Bool.eqb].
      * rewrite E. reflexivity.
      * cbn. destruct (Ascii.eqb x "$"); lia.
Qed.

(** X1.  [convertPlaceholders] numbers the placeholders from left to
    right: the ['?'] that follows [k] others becomes [$k+1], and the text
    before it is converted as it would be alone. *)
Theorem convertPlaceholders_numbers_in_order (before after : string) :
  convertPlaceholders (before ++ "?" ++ after) =
  (convertPlaceholders before ++ "$"
   ++ index_key (S (count_char "?" before))
   ++ convert_from (S (count_char "?" before)) after)%string.
Proof.
  unfold convertPlaceholders. rewrite convert_from_app.
  cbn [append convert_from Ascii.eqb Bool.eqb plus]. reflexivity.
Qed.

(** X2.  The converted statement holds no ['?'], and one ['$'] more for
    each placeholder; converting it again, or converting a statement without
    placeholders, changes nothing. *)
Theorem convertPlaceholders_leaves_none (sql : string) :
  count_char "?" (convertPlaceholders sql) = O /\
  count_char "$" (convertPlaceholders sql)
    = (count_char "$" sql + count_char "?" sql)%nat /\
  convertPlaceholders (convertPlaceholders sql) = convertPlaceholders sql /\
  (count_char "?" sql = O -> convertPlaceholders sql = sql).
Proof.
  unfold convertPlaceholders.
  assert (H : count_char "?" (convert_from 0 sql) = O).
  { now rewrite (convert_from_count "?" sql (or_introl eq_refl)). }
  repeat split.
  - exact H.
  - now rewrite (convert_from_count "$" sql (or_intror eq_refl)).
  - now apply convert_from_clean.
  - intros H0. now apply convert_from_clean.
Qed.

End DatabaseFacts.

(** ** POST /push: uniqueness, frame and order of merges *)

Module SyncMore.
Import DbFacts SyncNotions UpsertFacts TraceFacts SyncFacts PushFacts.
Section WithPlatform.
Context {P : Platform}.

Lemma upsert_keys (now : Z) (e : Sync.usage_params)
  (rows : list usage_record) (k : merge_key) :
  In k (map key_of (Sync.upsert now e rows)) ->
  In k (map key_of rows) \/ k = Sync.key_of_params e.
Proof.
  induction rows as [|r rows IH]; cbn [Sync.upsert map In].
  - intros [<-|[]]. now right.
  - destruct (key_eqb (key_of r) (Sync.key_of_params e)); cbn [map In].
    + change (key_of (Sync.on_conflict now r e)) with (key_of r). auto.
    + intros [H|H]; [auto|]. destruct (IH H); auto.
Qed.

Lemma upsert_unique (now : Z) (e : Sync.usage_params)
  (rows : list usage_record) :
  NoDup (map key_of rows) -> NoDup (map key_of (Sync.upsert now e rows)).
Proof.
  induction rows as [|r rows IH]; cbn [Sync.upsert map]; intros H.
  - repeat constructor. intros [].
  - destruct (key_eqb (key_of r) (Sync.key_of_params e)) eqn:E;
      cbn [map]; [exact H|].
    apply NoDup_cons_iff in H. destruct H as [Hnot Hnd].
    constructor; [|now apply IH].
    intros Hin. apply upsert_keys in Hin. destruct Hin as [Hin|Heq];
      [now apply Hnot|].
    apply key_eqb_neq in E. now apply E.
Qed.

Lemma upsert_all_unique (now : Z) (es : list Sync.usage_params) :
  forall rows,
    NoDup (map key_of rows) ->
    NoDup (map key_of (Sync.upsert_all now es rows)).
Proof.
  induction es as [|e es IH]; intros rows H; [exact H|].
  rewrite upsert_all_cons. now apply IH, upsert_unique.
Qed.

(** X3.  The upsert keeps [UNIQUE(user_id, device_id, domain, date)]: a
    table without two rows of the same key has none after any sequence of
    pushes. *)
Theorem pushes_keep_keys_unique (l : list (string * Sync.push_body * Z))
  (d : db) :
  NoDup (map key_of (usage_records d)) ->
  NoDup (map key_of (usage_records (Sync.pushes l d))).
Proof.
  revert d. induction l as [|[[user body] now] l IH]; intros d H;
    [exact H|].
  cbn [Sync.pushes]. apply IH. rewrite push_usage_records.
  now apply upsert_all_unique.
Qed.

Lemma filter_upsert_other (p : usage_record -> bool) (now : Z)
  (e : Sync.usage_params) (rows : list usage_record) :
  (forall r, key_of r = Sync.key_of_params e -> p r = false) ->
  filter p (Sync.upsert now e rows) = filter p rows.
Proof.
  intros Hp. induction rows as [|r rows IH]; cbn [Sync.upsert filter].
  - now rewrite (Hp (Sync.inserted now e)).
  - destruct (key_eqb (key_of r) (Sync.key_of_params e)) eqn:E;
      cbn [filter].
    + apply key_eqb_eq in E.
      rewrite (Hp (Sync.on_conflict now r e)) by exact E.
      now rewrite (Hp r E).
    + now rewrite IH.
Qed.

Lemma filter_upsert_all_other (p : usage_record -> bool) (now : Z)
  (es : list Sync.usage_params) :
  (forall e r, In e es -> key_of r = Sync.key_of_params e -> p r = false) ->
  forall rows, filter p (Sync.upsert_all now es rows) = filter p rows.
Proof.
  induction es as [|e es IH]; intros Hp rows; [reflexivity|].
  rewrite upsert_all_cons, IH.
  - apply filter_upsert_other. intros r. apply Hp. now left.
  - intros e' r Hin. apply Hp. now right.
Qed.

Lemma entries_trace_owner (user device date : string)
  (entries : list (string * jsval)) (e : Sync.usage_params) :
  In e (fst (Sync.entries_trace user device date entries)) ->
  Sync.p_user_id e = user /\ Sync.p_device_id e = device.
Proof.
  induction entries as [|[dom0 data0] rest IH]; cbn [Sync.entries_trace];
    [intros []|].
  destruct (Sync.upsert_params user device dom0 date data0) as [e0|] eqn:E0;
    [|intros []].
  destruct (Sync.entries_trace user device date rest) as [es ok].
  cbn [fst] in *. intros [<-|Hin]; [|now apply IH].
  apply upsert_params_key in E0. unfold Sync.key_of_params in E0.
  split; congruence.
Qed.

Lemma dates_trace_owner (user device : string)
  (dates : list (string * jsval)) (e : Sync.usage_params) :
  In e (fst (Sync.dates_trace user device dates)) ->
  Sync.p_user_id e = user /\ Sync.p_device_id e = device.
Proof.
  induction dates as [|[date0 domains0] rest IH]; cbn [Sync.dates_trace];
    [intros []|].
  destruct (object_entries domains0) as [entries|]; [|intros []].
  pose proof (entries_trace_owner user device date0 entries e) as He.
  destruct (Sync.entries_trace user device date0 entries) as [es ok].
  destruct ok.
  - destruct (Sync.dates_trace user device rest) as [es' ok'].
    cbn [fst] in *. intros Hin. apply in_app_or in Hin.
    destruct Hin; auto.
  - exact He.
Qed.

Lemma usage_written_owner (user : string) (body : Sync.push_body) (d : db)
  (e : Sync.usage_params) :
  In e (usage_written user body d) ->
  Sync.p_user_id e = user /\
  Sync.p_device_id e = pg_text (Sync.deviceId body).
Proof.
  unfold usage_written, Sync.usage_trace.
  destruct (js_not (Sync.deviceId body)); [intros []|].
  destruct (Sync.select_device (Sync.deviceId body) user d); [|intros []].
  destruct (truthy (Sync.usageData body) &&
            typeof_object (Sync.usageData body)); [|intros []].
  destruct (object_entries (Sync.usageData body)); [|intros []].
  apply dates_trace_owner.
Qed.

(** A filter that rejects the records of the pushing user and device sees
    the same rows after the push. *)
Lemma push_filter_other (p : usage_record -> bool) (user : string)
  (body : Sync.push_body) (now : Z) (d : db) :
  (forall r,
     ur_user_id r = user ->
     ur_device_id r = pg_text (Sync.deviceId body) -> p r = false) ->
  filter p (usage_records (snd (Sync.push user body now d))) =
  filter p (usage_records d).
Proof.
  intros Hp. rewrite push_usage_records. apply filter_upsert_all_other.
  intros e r Hin Hk. apply usage_written_owner in Hin.
  destruct Hin as [Hu Hd]. unfold key_of, Sync.key_of_params in Hk.
  apply Hp; congruence.
Qed.

(** X4.  A push writes the usage records of its own user and device only:
    the records of every other user or device are, row for row, what they
    were, whether the push succeeds or fails. *)
Theorem push_leaves_other_devices (user : string) (body : Sync.push_body)
  (now : Z) (d : db) :
  let own r :=
    ((ur_user_id r =? user)
     && (ur_device_id r =? pg_text (Sync.deviceId body)))%string in
  filter (fun r => negb (own r))
         (usage_records (snd (Sync.push user body now d))) =
  filter (fun r => negb (own r)) (usage_records d).
Proof.
  cbv zeta. apply push_filter_other. intros r -> ->.
  now rewrite !String.eqb_refl.
Qed.

End WithPlatform.
End SyncMore.

(** ** [LEAST] and [GREATEST] do not depend on the order of their arguments *)

Module OrderFacts.

Ltac leb_cases :=
  repeat match goal with
         | |- context [text_leb ?a ?b] =>
             is_var a; is_var b;
             let E := fresh "E" in destruct (text_leb a b) eqn:E; cbv iota
         end.

Ltac leb_flip :=
  repeat match goal with
         | E : text_leb ?a ?b = false |- _ =>
             lazymatch goal with
             | _ : text_leb b a = true |- _ => fail
             | _ =>
                 assert (text_leb b a = true)
                   by (destruct (text_leb_total a b);
                       [congruence|assumption])
             end
         end.

Ltac leb_solve :=
  leb_cases; leb_flip;
  first
    [ reflexivity
    | discriminate
    | solve [f_equal; apply text_leb_antisym; eauto using text_leb_trans]
    | exfalso;
      match goal with
      | E : text_leb ?a ?b = false |- _ =>
          assert (text_leb a b = true) by eauto using text_leb_trans;
          congruence
      end ].

Section WithPlatform.
Context {P : Platform}.

Lemma least_comm (a b : option string) : Sql.least a b = Sql.least b a.
Proof. destruct a, b; cbn; try reflexivity. leb_solve. Qed.

Lemma greatest_comm (a b : option string) :
  Sql.greatest a b = Sql.greatest b a.
Proof. destruct a, b; cbn; try reflexivity. leb_solve. Qed.

Lemma least_assoc (a b c : option string) :
  Sql.least (Sql.least a b) c = Sql.least a (Sql.least b c).
Proof. destruct a, b, c; cbn; try reflexivity; leb_solve. Qed.

Lemma greatest_assoc (a b c : option string) :
  Sql.greatest (Sql.greatest a b) c = Sql.greatest a (Sql.greatest b c).
Proof. destruct a, b, c; cbn; try reflexivity; leb_solve. Qed.

Lemma least_swap (a b c : option string) :
  Sql.least (Sql.least a b) c = Sql.least (Sql.least a c) b.
Proof. now rewrite !least_assoc, (least_comm b c). Qed.

Lemma greatest_swap (a b c : option string) :
  Sql.greatest (Sql.greatest a b) c = Sql.greatest (Sql.greatest a c) b.
Proof. now rewrite !greatest_assoc, (greatest_comm b c). Qed.

End WithPlatform.
End OrderFacts.

(** ** The order of the merges *)

Module MergeOrder.
Import DbFacts UpsertFacts OrderFacts.
Section WithPlatform.
Context {P : Platform}.

Local Notation "'merged_at' k rows" :=
  (option_map Sync.merged_fields (find_record k rows))
  (at level 10, k at level 9, rows at level 9).

Lemma merged_on_conflict (now now' : Z) (r r' : usage_record)
  (e : Sync.usage_params) :
  Sync.merged_fields r = Sync.merged_fields r' ->
  Sync.merged_fields (Sync.on_conflict now r e) =
  Sync.merged_fields (Sync.on_conflict now' r' e).
Proof.
  unfold Sync.merged_fields, key_of. intros [= Hu Hd Hm Ht Hs Hv Hf Hl].
  cbn [Sync.on_conflict ur_user_id ur_device_id ur_domain ur_date
       total_seconds visits first_visit last_visit].
  now rewrite Hu, Hd, Hm, Ht, Hs, Hv, Hf, Hl.
Qed.

Lemma upsert_respects (now now' : Z) (e : Sync.usage_params)
  (a b : list usage_record) :
  (forall k, merged_at k a = merged_at k b) ->
  forall k,
    merged_at k (Sync.upsert now e a) = merged_at k (Sync.upsert now' e b).
Proof.
  intros H k. destruct (key_eqb k (Sync.key_of_params e)) eqn:E.
  - apply key_eqb_eq in E. subst k. rewrite !find_upsert_same.
    specialize (H (Sync.key_of_params e)).
    destruct (find_record (Sync.key_of_params e) a) as [r|],
             (find_record (Sync.key_of_params e) b) as [r'|];
      cbn [option_map] in *; try discriminate.
    + f_equal. apply merged_on_conflict. congruence.
    + reflexivity.
  - apply key_eqb_neq in E. rewrite !find_upsert_other by assumption.
    apply H.
Qed.

Lemma upsert_all_respects (now now' : Z) (es : list Sync.usage_params) :
  forall a b,
    (forall k, merged_at k a = merged_at k b) ->
    forall k,
      merged_at k (Sync.upsert_all now es a) =
      merged_at k (Sync.upsert_all now' es b).
Proof.
  induction es as [|e es IH]; intros a b H; [exact H|].
  rewrite !upsert_all_cons. apply IH. now apply upsert_respects.
Qed.

Lemma merged_twice (now now' : Z) (o : option usage_record)
  (e1 e2 : Sync.usage_params) :
  Sync.key_of_params e1 = Sync.key_of_params e2 ->
  Sync.merged_fields
    (Sync.on_conflict now
       match o with
       | Some r => Sync.on_conflict now r e1
       | None => Sync.inserted now e1
       end e2) =
  Sync.merged_fields
    (Sync.on_conflict now'
       match o with
       | Some r => Sync.on_conflict now' r e2
       | None => Sync.inserted now' e2
       end e1).
Proof.
  unfold Sync.key_of_params. intros [= Hu Hd Hm Ht].
  unfold Sync.merged_fields, key_of. destruct o as [r|];
    cbn [Sync.on_conflict Sync.inserted ur_user_id ur_device_id ur_domain
         ur_date total_seconds visits first_visit last_visit].
  - rewrite (least_swap (first_visit r)), (greatest_swap (last_visit r)).
    rewrite <- !Z.max_assoc, (Z.max_comm (Sync.p_total_seconds e1)),
      (Z.max_comm (Sync.p_visits e1)).
    reflexivity.
  - rewrite Hu, Hd, Hm, Ht, (least_comm (Sync.p_first_visit e1)),
      (greatest_comm (Sync.p_last_visit e1)),
      (Z.max_comm (Sync.p_total_seconds e1)),
      (Z.max_comm (Sync.p_visits e1)).
    reflexivity.
Qed.

Lemma upsert_swap (now now' : Z) (e1 e2 : Sync.usage_params)
  (a : list usage_record) (k : merge_key) :
  merged_at k (Sync.upsert now e2 (Sync.upsert now e1 a)) =
  merged_at k (Sync.upsert now' e1 (Sync.upsert now' e2 a)).
Proof.
  destruct (key_eqb (Sync.key_of_params e1) (Sync.key_of_params e2)) eqn:E12.
  - apply key_eqb_eq in E12.
    destruct (key_eqb k (Sync.key_of_params e1)) eqn:E.
    + apply key_eqb_eq in E. subst k.
      rewrite (find_upsert_same now' e1).
      rewrite E12 at 1. rewrite (find_upsert_same now e2).
      rewrite <- E12 at 1. rewrite (find_upsert_same now e1).
      rewrite E12 at 2. rewrite (find_upsert_same now' e2).
      rewrite <- E12. cbn [option_map]. f_equal.
      now apply merged_twice.
    + apply key_eqb_neq in E.
      assert (E' : k <> Sync.key_of_params e2) by congruence.
      rewrite !find_upsert_other by assumption.
      destruct (find_record k a); reflexivity.
  - apply key_eqb_neq in E12.
    destruct (key_eqb k (Sync.key_of_params e1)) eqn:E1.
    + apply key_eqb_eq in E1. subst k.
      rewrite (find_upsert_other now e2) by assumption.
      rewrite !find_upsert_same.
      rewrite (find_upsert_other now' e2) by assumption.
      destruct (find_record (Sync.key_of_params e1) a); reflexivity.
    + apply key_eqb_neq in E1.
      rewrite (find_upsert_other now' e1) by assumption.
      destruct (key_eqb k (Sync.key_of_params e2)) eqn:E2.
      * apply key_eqb_eq in E2. subst k.
        rewrite !find_upsert_same.
        rewrite (find_upsert_other now e1) by assumption.
        destruct (find_record (Sync.key_of_params e2) a); reflexivity.
      * apply key_eqb_neq in E2.
        rewrite !find_upsert_other by assumption.
        destruct (find_record k a); reflexivity.
Qed.

(** X5.  The order in which proposed rows are merged does not matter for
    what a push is meant to reconcile: whatever the order of the upserts
    (and their times), every key ends with the same counters and the same
    visit window. *)
Theorem merge_order_irrelevant (now now' : Z)
  (es es' : list Sync.usage_params) (rows : list usage_record) :
  Permutation es es' ->
  forall k,
    option_map Sync.merged_fields
      (find_record k (Sync.upsert_all now es rows)) =
    option_map Sync.merged_fields
      (find_record k (Sync.upsert_all now' es' rows)).
Proof.
  intros Hp.
  enough (H : forall a b,
             (forall k, merged_at k a = merged_at k b) ->
             forall k,
               merged_at k (Sync.upsert_all now es a) =
               merged_at k (Sync.upsert_all now' es' b))
    by (apply H; reflexivity).
  induction Hp as [|x l l' Hp IH|x y l|l l' l'' Hp1 IH1 Hp2 IH2];
    intros a b Hab k.
  - apply Hab.
  - rewrite !upsert_all_cons. apply IH. now apply upsert_respects.
  - rewrite !upsert_all_cons. apply upsert_all_respects. intros k'.
    rewrite (upsert_swap now now' y x a k').
    apply upsert_respects. now apply upsert_respects.
  - transitivity (merged_at k (Sync.upsert_all now' l' a));
      [apply IH1; reflexivity|].
    transitivity (merged_at k (Sync.upsert_all now l' a));
      [apply upsert_all_respects; reflexivity|].
    apply IH2. exact Hab.
Qed.

End WithPlatform.
End MergeOrder.

(** ** POST /push: events, devices and the sync log *)

Module PushEffects.
Import DbFacts SyncNotions SyncFacts.
Section WithPlatform.
Context {P : Platform}.

Lemma accepted_events_slice (v : jsval) :
  accepted_events v = slice_last 200 (array_items v).
Proof.
  unfold accepted_events.
  destruct v; cbn [isArray array_items]; rewrite ?andb_false_r;
    reflexivity.
Qed.

Lemma slice_last_length {A : Type} (n : nat) (l : list A) :
  List.length (slice_last n l) = Nat.min (List.length l) n.
Proof. unfold slice_last. rewrite length_skipn. lia. Qed.

Lemma events_trace_rows (user device : string) (events : list jsval) :
  snd (Sync.events_trace user device events) = true ->
  Forall2 (fun ev row => Sync.event_row user device ev = Some row)
          events (fst (Sync.events_trace user device events)).
Proof.
  induction events as [|ev rest IH]; cbn [Sync.events_trace].
  - constructor.
  - destruct (Sync.event_row user device ev) as [row|] eqn:E;
      [|discriminate].
    destruct (Sync.events_trace user device rest) as [rows ok].
    cbn [fst snd] in *. intros Hok. constructor; auto.
Qed.

(** X6.  A push that completes appends to [activity_events] one row for
    each of the last 200 events of [activityEvents], in their order, and
    nothing else: [synced.activityEvents] is their number, at most 200. *)
Theorem push_appends_last_events (user : string) (body : Sync.push_body)
  (now : Z) (d : db) (n m : Z) :
  fst (Sync.push user body now d) = Sync.SyncComplete n m ->
  let events := array_items (Sync.activityEvents body) in
  exists rows,
    activity_events (snd (Sync.push user body now d)) =
      activity_events d ++ rows /\
    Forall2 (fun ev row =>
               Sync.event_row user (pg_text (Sync.deviceId body)) ev
               = Some row)
            (slice_last 200 events) rows /\
    m = Z.of_nat (Nat.min (List.length events) 200).
Proof.
  rewrite push_unfold. unfold push_outcome.
  destruct (js_not (Sync.deviceId body)); [discriminate|].
  destruct (Sync.select_device (Sync.deviceId body) user d);
    [|discriminate].
  cbv zeta.
  destruct (snd (Sync.usage_trace user (pg_text (Sync.deviceId body))
                   (Sync.usageData body))); [|discriminate].
  rewrite accepted_events_slice.
  pose proof (events_trace_rows user (pg_text (Sync.deviceId body))
                (slice_last 200 (array_items (Sync.activityEvents body))))
    as Hrows.
  destruct (Sync.events_trace user (pg_text (Sync.deviceId body))
              (slice_last 200 (array_items (Sync.activityEvents body))))
    as [rows ok].
  cbn [fst snd] in *. destruct ok; [|discriminate].
  intros [= _ <-]. exists rows. split; [reflexivity|].
  split; [now apply Hrows|].
  rewrite <- (Forall2_length (Hrows eq_refl)).
  now rewrite slice_last_length.
Qed.

(** X7.  Only a push that completes touches [devices] and [sync_log]: it
    stamps the devices of the given id and appends one log row, whose
    [records_synced] is the number of rows upserted.  A push that is
    refused or fails leaves both tables as they were; no push changes
    [users], [screenshots] or the stored files. *)
Theorem push_logs_completed_syncs (user : string) (body : Sync.push_body)
  (now : Z) (d : db) :
  let d' := snd (Sync.push user body now d) in
  let dev := pg_text (Sync.deviceId body) in
  match fst (Sync.push user body now d) with
  | Sync.SyncComplete n _ =>
      n = Z.of_nat (List.length (usage_written user body d)) /\
      sync_log d' =
        sync_log d ++
        [{| sl_user_id := user; sl_device_id := dev; sync_type := "push";
            records_synced := n; sl_synced_at := now |}] /\
      devices d' =
        map (fun dv => if (dev_id dv =? dev)%string then synced now dv
                       else dv)
            (devices d)
  | _ => sync_log d' = sync_log d /\ devices d' = devices d
  end /\
  users d' = users d /\ screenshots d' = screenshots d /\
  files d' = files d.
Proof.
  cbv zeta. rewrite push_unfold. unfold push_outcome, usage_written.
  destruct (js_not (Sync.deviceId body)); [now cbn|].
  destruct (Sync.select_device (Sync.deviceId body) user d);
    [|now cbn].
  cbv zeta.
  destruct (Sync.usage_trace user (pg_text (Sync.deviceId body))
              (Sync.usageData body)) as [es ok].
  cbn [fst snd]. destruct ok; [|now cbn].
  destruct (Sync.events_trace user (pg_text (Sync.deviceId body))
              (accepted_events (Sync.activityEvents body))) as [rows ok].
  cbn [fst snd]. destruct ok; [|now cbn].
  cbn. repeat split.
Qed.

End WithPlatform.
End PushEffects.

(** ** POST /push and the other users *)

Module Isolation.
Import DbFacts SyncNotions SyncMore.
Section WithPlatform.
Context {P : Platform}.

Lemma push_records_on (user other date : string) (body : Sync.push_body)
  (now : Z) (d : db) :
  other <> user ->
  Analytics.records_on other date (snd (Sync.push user body now d)) =
  Analytics.records_on other date d.
Proof.
  intros Hne. unfold Analytics.records_on. apply push_filter_other.
  intros r Hu _. rewrite Hu.
  destruct (String.eqb_spec user other); [congruence|reflexivity].
Qed.

Lemma push_records_since (user other since : string)
  (body : Sync.push_body) (now : Z) (d : db) :
  other <> user ->
  Analytics.records_since other since (snd (Sync.push user body now d)) =
  Analytics.records_since other since d.
Proof.
  intros Hne. unfold Analytics.records_since. apply push_filter_other.
  intros r Hu _. rewrite Hu.
  destruct (String.eqb_spec user other); [congruence|reflexivity].
Qed.

Lemma push_records_between (user other from to : string)
  (body : Sync.push_body) (now : Z) (d : db) :
  other <> user ->
  Trends.records_between other from to (snd (Sync.push user body now d)) =
  Trends.records_between other from to d.
Proof.
  intros Hne. unfold Trends.records_between. apply push_filter_other.
  intros r Hu _. rewrite Hu.
  destruct (String.eqb_spec user other); [congruence|reflexivity].
Qed.

(** X8.  What one user pushes is invisible to every other user: the
    answers of GET /pull, GET /full, GET /top-domains, GET /weekly and
    GET /trends for another user are the same before and after the push,
    whatever it carries and whether it succeeds or fails. *)
Theorem push_invisible_to_other_users (user other : string)
  (body : Sync.push_body) (now : Z) (d : db) :
  other <> user ->
  let d' := snd (Sync.push user body now d) in
  (forall qdate qsince t,
     SyncRead.pull other qdate qsince t d' =
     SyncRead.pull other qdate qsince t d) /\
  (forall qdays t, SyncRead.full other qdays t d' =
                   SyncRead.full other qdays t d) /\
  (forall period lim t,
     Analytics.top_domains other period lim t d' =
     Analytics.top_domains other period lim t d) /\
  (forall qweeks t, Trends.weekly other qweeks t d' =
                    Trends.weekly other qweeks t d) /\
  (forall t, Trends.trends other t d' = Trends.trends other t d).
Proof.
  intros Hne. cbv zeta.
  split; [|split; [|split; [|split]]].
  - intros qdate qsince t. unfold SyncRead.pull.
    rewrite push_records_on by assumption.
    destruct (truthy qdate); [reflexivity|].
    destruct (if truthy qsince then _ else _); [|reflexivity].
    now rewrite push_records_since.
  - intros qdays t. unfold SyncRead.full.
    destruct (toISOString _); [|reflexivity].
    now rewrite push_records_since.
  - intros period lim t. unfold Analytics.top_domains.
    destruct (toISOString _); [|reflexivity].
    now rewrite push_records_since.
  - intros qweeks t. unfold Trends.weekly.
    destruct (toISOString _); [|reflexivity].
    now rewrite push_records_since.
  - intros t. unfold Trends.trends.
    destruct (toISOString _); [|reflexivity].
    destruct (toISOString _); [|reflexivity].
    destruct (toISOString _); [|reflexivity].
    rewrite push_records_since by assumption.
    now rewrite push_records_between.
Qed.

End WithPlatform.
End Isolation.

(** ** [ORDER BY] with a comparison, and sums over groups *)

Module GroupFacts.
Import SqlFacts AnalyticsFacts.

Lemma insert_by_perm {A : Type} (before : A -> A -> bool) (x : A)
  (l : list A) :
  Permutation (SqlOrder.insert_by before x l) (x :: l).
Proof.
  induction l as [|y l IH]; cbn [SqlOrder.insert_by]; [reflexivity|].
  destruct (before x y); [reflexivity|].
  rewrite IH. apply perm_swap.
Qed.

Lemma order_by_perm {A : Type} (before : A -> A -> bool) (l : list A) :
  Permutation (SqlOrder.order_by before l) l.
Proof.
  induction l as [|x l IH]; cbn [SqlOrder.order_by]; [reflexivity|].
  rewrite insert_by_perm. now constructor.
Qed.

Section Sorting.
Context {A : Type} (before : A -> A -> bool) (R : A -> A -> Prop).
Hypothesis before_true : forall x y, before x y = true -> R x y.
Hypothesis before_false : forall x y, before x y = false -> R y x.

Lemma insert_by_sorted (x : A) (l : list A) :
  Sorted R l -> Sorted R (SqlOrder.insert_by before x l).
Proof.
  induction l as [|y l IH]; intros Hs; cbn [SqlOrder.insert_by].
  - repeat constructor.
  - destruct (before x y) eqn:E.
    + constructor; [assumption|]. constructor. now apply before_true.
    + inversion Hs as [|? ? Hs' Hhd]; subst.
      constructor; [now apply IH|].
      destruct l as [|z l]; cbn [SqlOrder.insert_by].
      * constructor. now apply before_false.
      * destruct (before x z).
        -- constructor. now apply before_false.
        -- inversion Hhd; subst. now constructor.
Qed.

Lemma order_by_sorted (l : list A) : Sorted R (SqlOrder.order_by before l).
Proof.
  induction l as [|x l IH]; cbn [SqlOrder.order_by]; [constructor|].
  now apply insert_by_sorted.
Qed.

End Sorting.

Lemma sum_of_cons (x : Z) (l : list Z) :
  Sql.sum_of (x :: l) = x + Sql.sum_of l.
Proof. reflexivity. Qed.

Lemma sum_of_perm (l l' : list Z) :
  Permutation l l' -> Sql.sum_of l = Sql.sum_of l'.
Proof.
  induction 1 as [|x l l' _ IH|x y l|l l' l'' _ IH1 _ IH2];
    rewrite ?sum_of_cons; lia.
Qed.

Lemma sum_of_map_perm {A : Type} (f : A -> Z) (l l' : list A) :
  Permutation l l' -> Sql.sum_of (map f l) = Sql.sum_of (map f l').
Proof. intros H. apply sum_of_perm. now apply Permutation_map. Qed.

Section Groups.
Context {R K : Type} (eqb : K -> K -> bool) (key : R -> K).
Hypothesis eqb_eq : forall a b, eqb a b = true <-> a = b.

Lemma eqb_refl (k : K) : eqb k k = true.
Proof. now apply eqb_eq. Qed.

Lemma indicator_zero (ks : list K) (k0 : K) (v : Z) :
  ~ In k0 ks ->
  Sql.sum_of (map (fun k => if eqb k0 k then v else 0) ks) = 0.
Proof.
  induction ks as [|k ks IH]; intros Hn; cbn [map]; [reflexivity|].
  rewrite sum_of_cons, IH by (intros H; apply Hn; now right).
  destruct (eqb k0 k) eqn:E; [|reflexivity].
  apply eqb_eq in E. subst k. exfalso. apply Hn. now left.
Qed.

Lemma indicator_sum (ks : list K) (k0 : K) (v : Z) :
  NoDup ks -> In k0 ks ->
  Sql.sum_of (map (fun k => if eqb k0 k then v else 0) ks) = v.
Proof.
  induction 1 as [|k ks Hnot Hnd IH]; intros Hin; [destruct Hin|].
  cbn [map]. rewrite sum_of_cons. destruct Hin as [->|Hin].
  - rewrite eqb_refl, indicator_zero by assumption. lia.
  - rewrite IH by assumption.
    destruct (eqb k0 k) eqn:E; [|reflexivity].
    apply eqb_eq in E. subst k. contradiction.
Qed.

Lemma sum_of_add {X : Type} (f g : X -> Z) (l : list X) :
  Sql.sum_of (map (fun x => f x + g x) l) =
  Sql.sum_of (map f l) + Sql.sum_of (map g l).
Proof.
  induction l as [|x l IH]; cbn [map]; [reflexivity|].
  rewrite !sum_of_cons, IH. lia.
Qed.

(** Summing group by group is summing over all the rows. *)
Lemma groups_sum (f : R -> Z) (ks : list K) (rows : list R) :
  NoDup ks -> (forall r, In r rows -> In (key r) ks) ->
  Sql.sum_of
    (map (fun k => Sql.sum_of (map f (filter (fun r => eqb (key r) k) rows)))
         ks) =
  Sql.sum_of (map f rows).
Proof.
  intros Hnd. induction rows as [|r rows IH]; intros Hin.
  - cbn [filter map]. clear. induction ks as [|k ks IH]; [reflexivity|].
    cbn [map]. now rewrite sum_of_cons, IH.
  - cbn [map]. rewrite sum_of_cons.
    rewrite <- IH by (intros r' Hr'; apply Hin; now right).
    rewrite <- (indicator_sum ks (key r) (f r) Hnd) at 1
      by (apply Hin; now left).
    rewrite <- sum_of_add. f_equal. apply map_ext. intros k.
    cbn [filter]. destruct (eqb (key r) k); [|reflexivity].
    cbn [map]. now rewrite sum_of_cons.
Qed.

Lemma group_by_sums (f : R -> Z) (rows : list R) :
  Sql.sum_of
    (map (fun g => Sql.sum_of (map f (snd g))) (Sql.group_by eqb key rows)) =
  Sql.sum_of (map f rows).
Proof.
  unfold Sql.group_by. rewrite map_map. cbn [snd].
  apply groups_sum.
  - now apply distinct_nodup.
  - intros r Hr. apply (distinct_in eqb eqb_eq). now apply in_map.
Qed.

Lemma group_by_keys (rows : list R) :
  map fst (Sql.group_by eqb key rows) = Sql.distinct eqb (map key rows).
Proof.
  unfold Sql.group_by. rewrite map_map. cbn [fst]. apply map_id.
Qed.

End Groups.

End GroupFacts.

(** ** GET /daily, GET /weekly and GET /trends: the parts add up *)

Module BreakdownFacts.
Import SqlFacts AnalyticsSpec AnalyticsFacts GroupFacts.

(** The sum of a column over ranked groups is the sum over the rows
    grouped. *)
Lemma ranked_groups_sum {R K Row : Type} (eqb : K -> K -> bool)
  (key : R -> K) (eqb_eq : forall a b, eqb a b = true <-> a = b)
  (mk : K * list R -> Row) (col rank : Row -> Z) (f : R -> Z)
  (rows : list R) :
  (forall g, col (mk g) = Sql.sum_of (map f (snd g))) ->
  Sql.sum_of
    (map col (Sql.order_by_desc rank (map mk (Sql.group_by eqb key rows)))) =
  Sql.sum_of (map f rows).
Proof.
  intros Hcol.
  rewrite (sum_of_map_perm col _ _ (order_by_desc_perm rank _)).
  rewrite map_map, (map_ext _ _ Hcol).
  now apply group_by_sums.
Qed.

Lemma coalesced_sum (l : list Z) :
  match Sql.coalesce (Sql.sum l) (Some 0) with
  | Some n => n
  | None => 0
  end = Sql.sum_of l.
Proof. now destruct l. Qed.

Lemma sum_where_split (p q : usage_record -> bool) (f : usage_record -> Z)
  (rows : list usage_record) :
  sum_where p f rows =
  sum_where (fun r => p r && q r) f rows +
  sum_where (fun r => p r && negb (q r)) f rows.
Proof.
  induction rows as [|r rows IH]; cbn [sum_where]; [reflexivity|].
  rewrite IH. destruct (p r), (q r); cbn [andb negb]; lia.
Qed.

Lemma sum_where_ext (p q : usage_record -> bool) (f : usage_record -> Z)
  (rows : list usage_record) :
  (forall r, p r = q r) -> sum_where p f rows = sum_where q f rows.
Proof.
  intros H. induction rows as [|r rows IH]; cbn [sum_where];
    [reflexivity|].
  now rewrite H, IH.
Qed.

Section WithPlatform.
Context {P : Platform}.

(** X9.  In the answer of GET /daily the breakdowns add up: the seconds
    and the visits of the [sites] rows, and those of the [categories] rows,
    sum to [totals.totalSeconds] and [totals.totalVisits]. *)
Theorem daily_breakdowns_add_up (user : string) (qdate : jsval) (now : Z)
  (d : db) (s : Analytics.daily_summary) :
  Analytics.daily user qdate now d = Some s ->
  Sql.sum_of (map Analytics.s_total_seconds (Analytics.sites s)) =
    Analytics.totalSeconds (Analytics.totals s) /\
  Sql.sum_of (map Analytics.s_visits (Analytics.sites s)) =
    Analytics.totalVisits (Analytics.totals s) /\
  Sql.sum_of (map Analytics.c_total_seconds (Analytics.categories s)) =
    Analytics.totalSeconds (Analytics.totals s) /\
  Sql.sum_of (map Analytics.c_total_visits (Analytics.categories s)) =
    Analytics.totalVisits (Analytics.totals s).
Proof.
  unfold Analytics.daily.
  destruct (if truthy qdate then _ else _) as [dt|]; [|discriminate].
  intros [= <-].
  cbn [Analytics.sites Analytics.categories Analytics.totals
       Analytics.totalSeconds Analytics.totalVisits].
  rewrite !coerced_sum.
  unfold Analytics.select_sites, Analytics.select_categories.
  split; [|split; [|split]].
  - apply ranked_groups_sum; [apply site_eqb_eq|].
    now intros [[[dm t] c] rs].
  - apply ranked_groups_sum; [apply site_eqb_eq|].
    now intros [[[dm t] c] rs].
  - apply ranked_groups_sum; [apply opt_eqb_eq|]. now intros [c rs].
  - apply ranked_groups_sum; [apply opt_eqb_eq|]. now intros [c rs].
Qed.


(** X11.  GET /trends counts every record of the last fourteen days once:
    when the start of last week does not come after the start of this
    week, the seconds and visits of [thisWeek] and [lastWeek] add up to
    those of the records of the user dated from the start of last week on,
    and the seconds of each week's categories add up to the week's total. *)
Theorem trends_weeks_partition (user : string) (now : Z) (d : db)
  (this last : string) (t : Trends.trends_summary) :
  toISOString (JNum (now - 7 * 86400000)) = Some this ->
  toISOString (JNum (now - 14 * 86400000)) = Some last ->
  text_leb (substring 0 10 last) (substring 0 10 this) = true ->
  Trends.trends user now d = Some t ->
  let window := in_window user (substring 0 10 last) in
  Trends.total_seconds_ (Trends.thisWeek t)
  + Trends.total_seconds_ (Trends.lastWeek t) =
    sum_where window total_seconds (usage_records d) /\
  Trends.total_visits_ (Trends.thisWeek t)
  + Trends.total_visits_ (Trends.lastWeek t) =
    sum_where window visits (usage_records d) /\
  Sql.sum_of (map Trends.tc_total_seconds (Trends.thisWeekCategories t)) =
    Trends.total_seconds_ (Trends.thisWeek t) /\
  Sql.sum_of (map Trends.tc_total_seconds (Trends.lastWeekCategories t)) =
    Trends.total_seconds_ (Trends.lastWeek t).
Proof.
  intros Hthis Hlast Hle. unfold Trends.trends. rewrite Hthis, Hlast.
  destruct (toISOString (JNum now)); [|discriminate].
  intros [= <-].
  cbn [Trends.thisWeek Trends.lastWeek Trends.thisWeekCategories
       Trends.lastWeekCategories].
  unfold Trends.totals_of.
  cbn [Trends.total_seconds_ Trends.total_visits_].
  rewrite !coalesced_sum. cbv zeta.
  set (ts := substring 0 10 this) in *.
  set (ls := substring 0 10 last) in *.
  assert (Hsplit : forall f,
    Sql.sum_of (map f (Analytics.records_since user ts d)) +
    Sql.sum_of (map f (Trends.records_between user ls ts d)) =
    sum_where (in_window user ls) f (usage_records d)).
  { intros f. unfold Analytics.records_since, Trends.records_between.
    rewrite !sum_of_filter.
    rewrite (sum_where_split (in_window user ls)
               (fun r => text_leb ts (ur_date r))).
    f_equal. apply sum_where_ext. intros r. unfold in_window.
    destruct (ur_user_id r =? user)%string; [|reflexivity].
    cbn [andb]. destruct (text_leb ts (ur_date r)) eqn:E.
    - now rewrite (text_leb_trans ls ts (ur_date r)).
    - now rewrite andb_false_r. }
  split; [apply Hsplit|]. split; [apply Hsplit|].
  unfold Trends.categories_of. split.
  - apply ranked_groups_sum; [apply opt_eqb_eq|]. now intros [c rs].
  - apply ranked_groups_sum; [apply opt_eqb_eq|]. now intros [c rs].
Qed.

End WithPlatform.
End BreakdownFacts.

(** ** GET /pull and GET /full *)

Module SyncReadFacts.
Import SqlFacts AnalyticsSpec AnalyticsFacts GroupFacts UpsertFacts.

Lemma pull_key_eqb_eq (a b : SyncRead.pull_key) :
  SyncRead.pull_key_eqb a b = true <-> a = b.
Proof.
  destruct a as [[[d1 t1] c1] x1], b as [[[d2 t2] c2] x2].
  cbn [SyncRead.pull_key_eqb].
  rewrite !andb_true_iff, !String.eqb_eq, !opt_eqb_eq.
  split; [intros [[[-> ->] ->] ->]; reflexivity|intros [= -> -> -> ->]; auto].
Qed.

Lemma sorted_map {A B : Type} (f : A -> B) (R : B -> B -> Prop)
  (l : list A) :
  Sorted (fun a b => R (f a) (f b)) l -> Sorted R (map f l).
Proof.
  induction 1 as [|x l Hs IH Hhd]; cbn [map]; constructor; [assumption|].
  destruct Hhd; cbn [map]; now constructor.
Qed.

Section WithPlatform.
Context {P : Platform}.

Lemma date_desc_true {A : Type} (date : A -> string) (total : A -> Z)
  (x y : A) :
  SqlOrder.date_desc_total_desc date total x y = true ->
  text_leb (date y) (date x) = true.
Proof.
  unfold SqlOrder.date_desc_total_desc, SqlOrder.text_ltb.
  destruct (text_leb (date x) (date y)) eqn:Exy; cbn [negb].
  - destruct (text_leb (date y) (date x)); [reflexivity|discriminate].
  - intros _. destruct (text_leb_total (date x) (date y)); congruence.
Qed.

Lemma date_desc_false {A : Type} (date : A -> string) (total : A -> Z)
  (x y : A) :
  SqlOrder.date_desc_total_desc date total x y = false ->
  text_leb (date x) (date y) = true.
Proof.
  unfold SqlOrder.date_desc_total_desc, SqlOrder.text_ltb.
  destruct (text_leb (date x) (date y)) eqn:Exy; cbn [negb];
    [reflexivity|discriminate].
Qed.

Lemma min_text_cons (a : option string) (l : list (option string)) :
  SqlOrder.min_text (a :: l) = Sql.least a (SqlOrder.min_text l).
Proof. reflexivity. Qed.

Lemma max_text_cons (a : option string) (l : list (option string)) :
  SqlOrder.max_text (a :: l) = Sql.greatest a (SqlOrder.max_text l).
Proof. reflexivity. Qed.

(** [MIN] is a value of the column that none precedes, and [NULL] only
    when every value is. *)
Lemma min_text_least (l : list (option string)) :
  match SqlOrder.min_text l with
  | Some m =>
      In (Some m) l /\ forall t, In (Some t) l -> text_leb m t = true
  | None => forall x, In x l -> x = None
  end.
Proof.
  induction l as [|a l IH]; [intros x []|].
  rewrite min_text_cons.
  destruct a as [x|], (SqlOrder.min_text l) as [y|]; cbn [Sql.least].
  - destruct IH as [Hin Hle]. destruct (text_leb x y) eqn:E.
    + split; [now left|]. intros t [[= <-]|Ht]; [apply text_leb_refl|].
      apply (text_leb_trans x y t); auto.
    + assert (Hyx : text_leb y x = true)
        by (destruct (text_leb_total x y); congruence).
      split; [now right|]. intros t [[= <-]|Ht]; auto.
  - split; [now left|]. intros t [[= <-]|Ht]; [apply text_leb_refl|].
    apply IH in Ht. discriminate.
  - destruct IH as [Hin Hle]. split; [now right|].
    intros t [Ht|Ht]; [discriminate|auto].
  - intros x [<-|Hx]; auto.
Qed.

Lemma max_text_greatest (l : list (option string)) :
  match SqlOrder.max_text l with
  | Some m =>
      In (Some m) l /\ forall t, In (Some t) l -> text_leb t m = true
  | None => forall x, In x l -> x = None
  end.
Proof.
  induction l as [|a l IH]; [intros x []|].
  rewrite max_text_cons.
  destruct a as [x|], (SqlOrder.max_text l) as [y|]; cbn [Sql.greatest].
  - destruct IH as [Hin Hle]. destruct (text_leb x y) eqn:E.
    + split; [now right|]. intros t [[= <-]|Ht]; auto.
    + assert (Hyx : text_leb y x = true)
        by (destruct (text_leb_total x y); congruence).
      split; [now left|]. intros t [[= <-]|Ht]; [apply text_leb_refl|].
      apply (text_leb_trans t y x); auto.
  - split; [now left|]. intros t [[= <-]|Ht]; [apply text_leb_refl|].
    apply IH in Ht. discriminate.
  - destruct IH as [Hin Hle]. split; [now right|].
    intros t [Ht|Ht]; [discriminate|auto].
  - intros x [<-|Hx]; auto.
Qed.

End WithPlatform.
End SyncReadFacts.

(** ** GET /pull: one row per site and date, across devices *)

Module PullSpec.
Import SqlFacts AnalyticsSpec AnalyticsFacts GroupFacts SyncReadFacts
       ReadNotions.
Section WithPlatform.
Context {P : Platform}.

Lemma pull_groups_keys (rows : list usage_record) :
  map pull_row_key (SyncRead.pull_groups rows) =
  Sql.distinct SyncRead.pull_key_eqb (map SyncRead.pull_key_of rows).
Proof.
  unfold SyncRead.pull_groups. rewrite map_map.
  rewrite <- (group_by_keys SyncRead.pull_key_eqb SyncRead.pull_key_of).
  apply map_ext. now intros [[[[dm t] c] x] rs].
Qed.

Lemma pull_groups_row (rows : list usage_record) (row : SyncRead.pull_row) :
  In row (SyncRead.pull_groups rows) ->
  let g := filter (fun r => SyncRead.pull_key_eqb (SyncRead.pull_key_of r)
                                                  (pull_row_key row)) rows in
  SyncRead.r_total_seconds row = Sql.sum_of (map total_seconds g) /\
  SyncRead.r_visits row = Sql.sum_of (map visits g) /\
  SyncRead.r_first_visit row = SqlOrder.min_text (map first_visit g) /\
  SyncRead.r_last_visit row = SqlOrder.max_text (map last_visit g).
Proof.
  unfold SyncRead.pull_groups, Sql.group_by. rewrite map_map.
  intros H. apply in_map_iff in H. destruct H as (k & <- & _).
  destruct k as [[[dm t] c] x]. cbn. auto.
Qed.

Lemma pull_groups_rollup (window : usage_record -> bool)
  (records : list usage_record) (rows : list SyncRead.pull_row) :
  Permutation rows (SyncRead.pull_groups (filter window records)) ->
  NoDup (map pull_row_key rows) /\
  (forall r,
     In r records -> window r = true ->
     exists row, In row rows /\ pull_row_key row = SyncRead.pull_key_of r) /\
  (forall row,
     In row rows ->
     let group r :=
       window r &&
       SyncRead.pull_key_eqb (SyncRead.pull_key_of r) (pull_row_key row) in
     SyncRead.r_total_seconds row = sum_where group total_seconds records /\
     SyncRead.r_visits row = sum_where group visits records /\
     match SyncRead.r_first_visit row with
     | Some m =>
         (exists r, In r records /\ group r = true /\
                    first_visit r = Some m) /\
         (forall r t, In r records -> group r = true ->
                      first_visit r = Some t -> text_leb m t = true)
     | None => forall r, In r records -> group r = true ->
                         first_visit r = None
     end /\
     match SyncRead.r_last_visit row with
     | Some m =>
         (exists r, In r records /\ group r = true /\
                    last_visit r = Some m) /\
         (forall r t, In r records -> group r = true ->
                      last_visit r = Some t -> text_leb t m = true)
     | None => forall r, In r records -> group r = true ->
                         last_visit r = None
     end).
Proof.
  intros Hperm.
  assert (Hkeys : Permutation (map pull_row_key rows)
                    (Sql.distinct SyncRead.pull_key_eqb
                       (map SyncRead.pull_key_of (filter window records)))).
  { rewrite <- pull_groups_keys. now apply Permutation_map. }
  split.
  { apply (Permutation_NoDup (Permutation_sym Hkeys)).
    apply distinct_nodup, pull_key_eqb_eq. }
  split.
  { intros r Hin Hw.
    assert (Hk : In (SyncRead.pull_key_of r) (map pull_row_key rows)).
    { apply (Permutation_in _ (Permutation_sym Hkeys)).
      apply (distinct_in _ pull_key_eqb_eq). apply in_map.
      apply filter_In. now split. }
    apply in_map_iff in Hk. destruct Hk as (row & Hkey & Hrow).
    now exists row. }
  intros row Hrow. apply (Permutation_in _ Hperm) in Hrow.
  apply pull_groups_row in Hrow. cbv zeta in Hrow.
  destruct Hrow as (Hsec & Hvis & Hfirst & Hlast). cbv zeta.
  set (group := fun r => window r &&
                 SyncRead.pull_key_eqb (SyncRead.pull_key_of r)
                                       (pull_row_key row)).
  rewrite filter_filter in Hsec, Hvis, Hfirst, Hlast.
  fold group in Hsec, Hvis, Hfirst, Hlast.
  assert (Hmem : forall (f : usage_record -> option string) x,
             In x (map f (filter group records)) <->
             exists r, In r records /\ group r = true /\ f r = x).
  { intros f x. rewrite in_map_iff. split.
    - intros (r & Hf & Hr). apply filter_In in Hr. destruct Hr.
      exists r. auto.
    - intros (r & Hr & Hg & Hf). exists r. split; [assumption|].
      apply filter_In. auto. }
  split; [now rewrite Hsec, sum_of_filter|].
  split; [now rewrite Hvis, sum_of_filter|].
  split.
  - rewrite Hfirst.
    pose proof (min_text_least (map first_visit (filter group records)))
      as Hmin.
    destruct (SqlOrder.min_text (map first_visit (filter group records)))
      as [m|].
    + destruct Hmin as [Hin Hle]. split; [now apply Hmem|].
      intros r t Hr Hg Ht. apply Hle. apply Hmem. now exists r.
    + intros r Hr Hg. apply Hmin. apply Hmem. now exists r.
  - rewrite Hlast.
    pose proof (max_text_greatest (map last_visit (filter group records)))
      as Hmax.
    destruct (SqlOrder.max_text (map last_visit (filter group records)))
      as [m|].
    + destruct Hmax as [Hin Hle]. split; [now apply Hmem|].
      intros r t Hr Hg Ht. apply Hle. apply Hmem. now exists r.
    + intros r Hr Hg. apply Hmax. apply Hmem. now exists r.
Qed.

(** X12.  GET /pull merges the devices of the user: for the records of
    the requested day, or of the days from [since] on (by default the last
    seven), it answers one row for each (domain, title, category, date)
    that has a record, whose seconds and visits are the sums over the
    records of that group on all devices, whose [first_visit] is the
    earliest and whose [last_visit] the latest of the group.  The rows come
    in descending order of the seconds for one day, of the date
    otherwise. *)
Theorem pull_merges_devices (user : string) (qdate qsince : jsval) (now : Z)
  (d : db) (rows : list SyncRead.pull_row) :
  SyncRead.pull user qdate qsince now d = Some rows ->
  exists window : usage_record -> bool,
    (if truthy qdate then
       window = on_day user (pg_text qdate) /\
       Sorted (Sql.desc SyncRead.r_total_seconds) rows
     else
       exists since,
         window = in_window user since /\
         (if truthy qsince then since = pg_text qsince
          else option_map (substring 0 10)
                 (toISOString (JNum (now - 7 * 86400000))) = Some since) /\
         Sorted (fun a b =>
                   text_leb (SyncRead.r_date b) (SyncRead.r_date a) = true)
                rows) /\
    NoDup (map pull_row_key rows) /\
    (forall r,
       In r (usage_records d) -> window r = true ->
       exists row, In row rows /\ pull_row_key row = SyncRead.pull_key_of r) /\
    (forall row,
       In row rows ->
       let group r :=
         window r &&
         SyncRead.pull_key_eqb (SyncRead.pull_key_of r) (pull_row_key row) in
       SyncRead.r_total_seconds row
         = sum_where group total_seconds (usage_records d) /\
       SyncRead.r_visits row = sum_where group visits (usage_records d) /\
       match SyncRead.r_first_visit row with
       | Some m =>
           (exists r, In r (usage_records d) /\ group r = true /\
                      first_visit r = Some m) /\
           (forall r t, In r (usage_records d) -> group r = true ->
                        first_visit r = Some t -> text_leb m t = true)
       | None => forall r, In r (usage_records d) -> group r = true ->
                           first_visit r = None
       end /\
       match SyncRead.r_last_visit row with
       | Some m =>
           (exists r, In r (usage_records d) /\ group r = true /\
                      last_visit r = Some m) /\
           (forall r t, In r (usage_records d) -> group r = true ->
                        last_visit r = Some t -> text_leb t m = true)
       | None => forall r, In r (usage_records d) -> group r = true ->
                           last_visit r = None
       end).
Proof.
  unfold SyncRead.pull. destruct (truthy qdate).
  - intros [= <-]. exists (on_day user (pg_text qdate)).
    split; [split; [reflexivity|apply order_by_desc_sorted]|].
    apply pull_groups_rollup. apply order_by_desc_perm.
  - assert (Hsorted : forall l,
              Sorted (fun a b =>
                        text_leb (SyncRead.r_date b) (SyncRead.r_date a)
                        = true)
                     (SqlOrder.order_by
                        (SqlOrder.date_desc_total_desc
                           SyncRead.r_date SyncRead.r_total_seconds) l)).
    { intros l.
      apply order_by_sorted with
        (before := SqlOrder.date_desc_total_desc
                     SyncRead.r_date SyncRead.r_total_seconds).
      - intros x y. apply date_desc_true.
      - intros x y. apply date_desc_false. }
    destruct (truthy qsince).
    + intros [= <-]. exists (in_window user (pg_text qsince)).
      split.
      { exists (pg_text qsince). split; [reflexivity|].
        split; [reflexivity|apply Hsorted]. }
      apply pull_groups_rollup. apply order_by_perm.
    + destruct (toISOString (JNum (now - 7 * 86400000))) as [iso|];
        cbn [option_map]; [|discriminate].
      rewrite pg_text_JStr. intros [= <-].
      exists (in_window user (substring 0 10 iso)).
      split.
      { exists (substring 0 10 iso). split; [reflexivity|].
        split; [reflexivity|apply Hsorted]. }
      apply pull_groups_rollup. apply order_by_perm.
Qed.

(** X13.  GET /full looks back at most 90 days and lists, once each, the
    records of the user dated [since] or later, on every device, the
    latest date first. *)
Theorem full_lists_window (user : string) (qdays : option Z) (now : Z)
  (d : db) (rows : list SyncRead.full_row) (days : Z) :
  SyncRead.full user qdays now d = Some (rows, days) ->
  days <= 90 /\
  exists since,
    option_map (substring 0 10)
      (toISOString (JNum (now - days * 86400000))) = Some since /\
    Permutation rows
      (map SyncRead.full_row_of
           (filter (in_window user since) (usage_records d))) /\
    Sorted (fun a b =>
              text_leb (SyncRead.f_date b) (SyncRead.f_date a) = true)
           rows.
Proof.
  unfold SyncRead.full.
  destruct (toISOString _) as [iso|] eqn:E; [|discriminate].
  intros [= <- <-]. split; [apply Z.le_min_r|].
  exists (substring 0 10 iso). rewrite E. split; [reflexivity|]. split.
  - apply Permutation_map. apply order_by_perm.
  - apply sorted_map.
    apply order_by_sorted with
      (before := SqlOrder.date_desc_total_desc ur_date total_seconds).
    + intros x y. apply (date_desc_true ur_date total_seconds).
    + intros x y. apply (date_desc_false ur_date total_seconds).
Qed.

End WithPlatform.
End PullSpec.

(** ** The data URL of POST /upload-base64 *)

Module DataUrlFacts.
Import ReadNotions.

Lemma strip_prefix_app (p s : string) :
  Screenshots.strip_prefix p (p ++ s) = Some s.
Proof.
  induction p as [|a p IH]; cbn [append Screenshots.strip_prefix];
    [reflexivity|].
  now rewrite Ascii.eqb_refl.
Qed.

Lemma strip_prefix_some (p : string) :
  forall s r, Screenshots.strip_prefix p s = Some r -> s = (p ++ r)%string.
Proof.
  induction p as [|a p IH]; intros s r; cbn [Screenshots.strip_prefix append].
  - now intros [= ->].
  - destruct s as [|b s]; [discriminate|].
    destruct (Ascii.eqb_spec a b) as [->|]; [|discriminate].
    intros H. now rewrite (IH _ _ H).
Qed.

Lemma span_word_sound (s : string) :
  forall w r,
    Screenshots.span_word s = (w, r) ->
    s = (w ++ r)%string /\ all_word w = true /\
    match r with
    | String c _ => Screenshots.is_word c = false
    | EmptyString => True
    end.
Proof.
  induction s as [|c s IH]; intros w r; cbn [Screenshots.span_word].
  - intros [= <- <-]. auto.
  - destruct (Screenshots.is_word c) eqn:E.
    + destruct (Screenshots.span_word s) as [w' r'].
      intros [= <- <-]. destruct (IH w' r' eq_refl) as (-> & Hw & Hr).
      cbn [append all_word]. rewrite E. auto.
    + intros [= <- <-]. auto.
Qed.

Lemma span_word_app (w r : string) :
  all_word w = true ->
  match r with
  | String c _ => Screenshots.is_word c = false
  | EmptyString => True
  end ->
  Screenshots.span_word (w ++ r) = (w, r).
Proof.
  intros Hw Hr. induction w as [|c w IH]; cbn [append].
  - destruct r as [|c r]; [reflexivity|].
    cbn [Screenshots.span_word]. now rewrite Hr.
  - cbn [all_word] in Hw. apply andb_true_iff in Hw. destruct Hw as [Hc Hw].
    cbn [Screenshots.span_word]. now rewrite Hc, (IH Hw).
Qed.

(** X14.  The data URLs POST /upload-base64 accepts are exactly the strings
    [data:image/<ext>;base64,<payload>] whose extension is a non-empty run
    of word characters and whose payload is non-empty and free of line
    breaks; the two groups of the match are that extension and that
    payload. *)
Theorem match_data_url_exact (s ext payload : string) :
  Screenshots.match_data_url s = Some (ext, payload) <->
  s = ("data:image/" ++ ext ++ ";base64," ++ payload)%string /\
  ext <> EmptyString /\ all_word ext = true /\
  payload <> EmptyString /\ Screenshots.single_line payload = true.
Proof.
  unfold Screenshots.match_data_url. split.
  - destruct (Screenshots.strip_prefix "data:image/" s) as [r|] eqn:E1;
      [|discriminate].
    destruct (Screenshots.span_word r) as [w r'] eqn:E2.
    destruct (String.eqb_spec w "") as [|Hw]; [discriminate|].
    destruct (Screenshots.strip_prefix ";base64," r') as [p|] eqn:E3;
      [|discriminate].
    destruct (String.eqb_spec p "") as [|Hp]; [discriminate|].
    cbn [orb]. destruct (Screenshots.single_line p) eqn:E4;
      [|discriminate].
    intros [= <- <-].
    apply strip_prefix_some in E1, E3.
    apply span_word_sound in E2. destruct E2 as (E2 & Hall & _).
    subst. auto.
  - intros (-> & Hext & Hall & Hp & Hline).
    rewrite strip_prefix_app.
    rewrite (span_word_app ext (";base64," ++ payload)) by
      (assumption || reflexivity).
    destruct (String.eqb_spec ext "") as [|_]; [contradiction|].
    rewrite strip_prefix_app.
    destruct (String.eqb_spec payload "") as [|_]; [contradiction|].
    now rewrite Hline.
Qed.

End DataUrlFacts.

(** ** Screenshots: what the limit removes *)

Module RetentionFacts.
Import SqlFacts ScreenshotNotions ScreenshotFacts ReadNotions.

Lemma nodup_map_inj {A B : Type} (f : A -> B) (l : list A) (x y : A) :
  NoDup (map f l) -> In x l -> In y l -> f x = f y -> x = y.
Proof.
  induction l as [|a l IH]; cbn [map]; intros Hnd Hx Hy Hf; [destruct Hx|].
  apply NoDup_cons_iff in Hnd. destruct Hnd as [Hnot Hnd].
  destruct Hx as [->|Hx], Hy as [->|Hy]; auto.
  - exfalso. apply Hnot. rewrite Hf. now apply in_map.
  - exfalso. apply Hnot. rewrite <- Hf. now apply in_map.
Qed.

Lemma unique_after_filter {K V : Type} (key : V -> K) (keep : V -> bool)
  (rows : list V) (Hnd : NoDup (map key rows)) :
  NoDup (map key (filter keep rows)).
Proof.
  induction rows as [|row rows IH]; cbn [map filter] in *; [constructor|].
  apply NoDup_cons_iff in Hnd. destruct Hnd as [Hnot Hnd].
  destruct (keep row); cbn [map]; [|now apply IH].
  constructor; [|now apply IH].
  intros Hin. apply Hnot. apply in_map_iff in Hin.
  destruct Hin as (x & Hx & Hin). apply filter_In in Hin.
  rewrite <- Hx. apply in_map. tauto.
Qed.

Lemma insert_asc_sorted {A : Type} (f : A -> Z) (x : A) (l : list A) :
  Sorted (fun a b => f a <= f b) l ->
  Sorted (fun a b => f a <= f b) (Sql.insert_asc f x l).
Proof.
  induction l as [|y l IH]; intros Hs; cbn [Sql.insert_asc].
  - repeat constructor.
  - destruct (f x <=? f y) eqn:E.
    + apply Z.leb_le in E. constructor; [assumption|]. now constructor.
    + apply Z.leb_gt in E. inversion Hs as [|? ? Hs' Hhd]; subst.
      constructor; [now apply IH|].
      destruct l as [|z l]; cbn [Sql.insert_asc].
      * constructor. lia.
      * destruct (f x <=? f z).
        -- constructor. lia.
        -- inversion Hhd; subst. now constructor.
Qed.

Lemma order_by_asc_sorted {A : Type} (f : A -> Z) (l : list A) :
  Sorted (fun a b => f a <= f b) (Sql.order_by_asc f l).
Proof.
  induction l as [|x l IH]; cbn [Sql.order_by_asc]; [constructor|].
  now apply insert_asc_sorted.
Qed.

Lemma in_firstn {A : Type} (n : nat) (l : list A) (x : A) :
  In x (firstn n l) -> In x l.
Proof.
  intros H. rewrite <- (firstn_skipn n l). apply in_or_app. now left.
Qed.

Lemma in_skipn {A : Type} (n : nat) (l : list A) (x : A) :
  In x (skipn n l) -> In x l.
Proof.
  intros H. rewrite <- (firstn_skipn n l). apply in_or_app. now right.
Qed.

Lemma sorted_prefix_le {A : Type} (f : A -> Z) (l : list A) :
  Sorted (fun a b => f a <= f b) l ->
  forall n a b, In a (firstn n l) -> In b (skipn n l) -> f a <= f b.
Proof.
  intros Hs. apply Sorted_StronglySorted in Hs;
    [|intros x y z; lia].
  induction Hs as [|x l Hs IH Hall]; intros n a b Ha Hb.
  - destruct n; destruct Ha.
  - destruct n as [|n]; [destruct Ha|].
    cbn [firstn skipn] in Ha, Hb. destruct Ha as [<-|Ha].
    + rewrite Forall_forall in Hall. apply Hall.
      now apply (in_skipn n).
    + now apply (IH n).
Qed.

Lemma id_among_in (removed : list screenshot) (s : screenshot) :
  In s removed -> id_among removed s = true.
Proof.
  intros H. unfold id_among. apply existsb_exists.
  exists s. split; [assumption|apply String.eqb_refl].
Qed.

Lemma id_among_inv (l removed : list screenshot) (s : screenshot) :
  NoDup (map ss_id l) -> incl removed l -> In s l ->
  id_among removed s = true -> In s removed.
Proof.
  intros Hnd Hincl Hs H. unfold id_among in H. apply existsb_exists in H.
  destruct H as (o & Ho & E). apply String.eqb_eq in E.
  rewrite (nodup_map_inj ss_id l s o Hnd Hs (Hincl o Ho) E). assumption.
Qed.

(** In a table without duplicate ids, removing the first [n] rows by id
    leaves the others. *)
Lemma filter_prefix_removed (l : list screenshot) :
  NoDup (map ss_id l) ->
  forall n,
    filter (fun s => negb (id_among (firstn n l) s)) l = skipn n l.
Proof.
  induction l as [|x l IH]; intros Hnd n; [now destruct n|].
  cbn [map] in Hnd. apply NoDup_cons_iff in Hnd. destruct Hnd as [Hnot Hnd].
  destruct n as [|n].
  - cbn [firstn skipn]. apply filter_true.
  - cbn [firstn skipn filter]. unfold id_among at 1. cbn [existsb].
    rewrite String.eqb_refl. cbn [orb negb].
    rewrite <- (IH Hnd n). apply filter_ext_in. intros s Hs.
    unfold id_among. cbn [existsb].
    destruct (String.eqb_spec (ss_id s) (ss_id x)) as [E|_]; [|reflexivity].
    exfalso. apply Hnot. rewrite <- E. now apply in_map.
Qed.

Lemma removed_all_files (user : string) (oldest : list screenshot) :
  forall d,
    files (removed_all user oldest d) =
    filter (fun f => negb (file_among user oldest f)) (files d).
Proof.
  induction oldest as [|o rest IH]; intros d.
  - cbn [removed_all fold_left file_among existsb negb].
    now rewrite filter_true.
  - change (removed_all user (o :: rest) d)
      with (removed_all user rest
              (Screenshots.delete_screenshot (ss_id o)
                 (Screenshots.unlink_if_exists user (ss_filename o) d))).
    rewrite IH.
    cbn [files Screenshots.delete_screenshot set_screenshots
         Screenshots.unlink_if_exists set_files].
    rewrite filter_filter. apply filter_ext. intros f.
    cbn [file_among existsb]. now rewrite negb_orb.
Qed.

Lemma has_file_removed (user : string) (oldest : list screenshot) (d : db)
  (o : screenshot) :
  In o oldest ->
  Screenshots.has_file user (ss_filename o) (removed_all user oldest d)
  = false.
Proof.
  intros Ho. unfold Screenshots.has_file. rewrite removed_all_files.
  destruct (existsb _ _) eqn:E; [|reflexivity].
  apply existsb_exists in E. destruct E as (f & Hf & Hm).
  apply filter_In in Hf. destruct Hf as [_ Hf].
  apply negb_true_iff in Hf.
  assert (Ht : file_among user oldest f = true).
  { unfold file_among. apply existsb_exists. now exists o. }
  congruence.
Qed.

(** X15.  When no two screenshots share an id, enforcing the limit leaves
    the user with the newest 200 at most: it removes nothing below the
    limit and ends at exactly 200 above it; every screenshot it removes is
    at most as recent as every one it keeps, and its file is gone; the
    screenshots of the other users are untouched and none is added. *)
Theorem enforce_limit_evicts_oldest (user : string) (d : db) :
  NoDup (map ss_id (screenshots d)) ->
  let d' := snd (Screenshots.enforce_limit user d) in
  Screenshots.count_of_user user d' =
    Z.min (Screenshots.count_of_user user d) Screenshots.limit /\
  filter (fun s => negb (ss_user_id s =? user)%string) (screenshots d') =
    filter (fun s => negb (ss_user_id s =? user)%string) (screenshots d) /\
  (forall s, In s (screenshots d') -> In s (screenshots d)) /\
  (forall kept gone,
     In kept (Screenshots.of_user user d') ->
     In gone (Screenshots.of_user user d) ->
     ~ In gone (Screenshots.of_user user d') ->
     created_at gone <= created_at kept /\
     Screenshots.has_file user (ss_filename gone) d' = false).
Proof.
  intros Hnd. cbv zeta.
  unfold Screenshots.enforce_limit, bind, query.
  destruct (Screenshots.count_of_user user d >? Screenshots.limit) eqn:E.
  - rewrite run_removals. cbn [snd].
    unfold Screenshots.select_oldest.
    set (U := Screenshots.of_user user d).
    set (U' := Sql.order_by_asc created_at U).
    set (n := Z.to_nat (Screenshots.count_of_user user d
                        - Screenshots.limit)).
    set (oldest := firstn n U').
    assert (HU' : Permutation U' U) by apply order_by_asc_perm.
    assert (HndU : NoDup (map ss_id U'))
      by (apply (Permutation_NoDup
                   (Permutation_map ss_id (Permutation_sym HU')));
          now apply unique_after_filter).
    assert (Hincl : incl oldest (screenshots d)).
    { intros o Ho. apply in_firstn in Ho.
      apply (Permutation_in _ HU') in Ho.
      apply filter_In in Ho. tauto. }
    assert (Hown : forall o, In o oldest ->
                             (ss_user_id o =? user)%string = true).
    { intros o Ho. apply in_firstn in Ho.
      apply (Permutation_in _ HU') in Ho.
      apply filter_In in Ho. tauto. }
    assert (Hleft :
      Screenshots.of_user user (removed_all user oldest d) =
      filter (fun s => negb (id_among oldest s)) U).
    { unfold Screenshots.of_user at 1. rewrite removed_all_screenshots.
      apply filter_comm. }
    assert (Hmem : forall s,
              In s (filter (fun s => negb (id_among oldest s)) U) <->
              In s (skipn n U')).
    { intros s. rewrite <- (filter_prefix_removed U' HndU n).
      fold oldest. rewrite !filter_In. split.
      - intros [Hs Ha]. split; [|assumption].
        now apply (Permutation_in _ (Permutation_sym HU')).
      - intros [Hs Ha]. split; [|assumption].
        now apply (Permutation_in _ HU'). }
    apply Z.gtb_lt in E.
    split; [|split; [|split]].
    + unfold Screenshots.count_of_user at 1, Sql.count. rewrite Hleft.
      rewrite (filter_length_perm _ _ _ (Permutation_sym HU')).
      unfold oldest. rewrite (filter_prefix_removed U' HndU n).
      rewrite length_skipn, (Permutation_length HU').
      unfold n, Screenshots.count_of_user, Sql.count in *. fold U in E |- *.
      unfold Screenshots.limit in *. lia.
    + rewrite removed_all_screenshots, filter_filter.
      apply filter_ext_in. intros s Hs.
      destruct (id_among oldest s) eqn:Ha; [|reflexivity].
      apply (id_among_inv (screenshots d)) in Ha; try assumption.
      now rewrite (Hown s Ha).
    + intros s. rewrite removed_all_screenshots, filter_In. tauto.
    + intros kept gone Hkept Hgone Hnot.
      rewrite Hleft in Hkept, Hnot.
      assert (Hg : In gone oldest).
      { apply (id_among_inv (screenshots d)); try assumption.
        - unfold U, Screenshots.of_user in Hgone.
          apply filter_In in Hgone. tauto.
        - destruct (id_among oldest gone) eqn:Ha; [reflexivity|].
          exfalso. apply Hnot. apply filter_In. now rewrite Ha. }
      split.
      * apply (sorted_prefix_le created_at U'
                 (order_by_asc_sorted created_at U) n); [exact Hg|].
        now apply Hmem.
      * now apply has_file_removed.
  - cbn [snd ret]. rewrite Z.gtb_ltb in E. apply Z.ltb_ge in E.
    split; [now rewrite Z.min_l|]. split; [reflexivity|].
    split; [auto|]. intros kept gone _ Hgone Hnot. contradiction.
Qed.

End RetentionFacts.

(** ** Screenshots: listing, serving and deleting *)

Module ScreenshotRouteFacts.
Import SqlFacts AnalyticsFacts GroupFacts SyncReadFacts ScreenshotFacts
       RetentionFacts.

Lemma find_app_none {A : Type} (p : A -> bool) (l l' : list A) :
  (forall x, In x l -> p x = false) -> find p (l ++ l') = find p l'.
Proof.
  induction l as [|x l IH]; intros H; cbn [app find]; [reflexivity|].
  rewrite (H x) by now left. apply IH. intros y Hy. apply H. now right.
Qed.

Lemma find_none_iff {A : Type} (p : A -> bool) (l : list A) :
  (forall x, In x l -> p x = false) -> find p l = None.
Proof.
  intros H. destruct (find p l) as [x|] eqn:E; [|reflexivity].
  apply find_some in E. destruct E as [Hin Hp].
  rewrite (H x Hin) in Hp. discriminate.
Qed.

Lemma has_file_write (user filename : string) (d : db) :
  Screenshots.has_file user filename
    (Screenshots.write_file user filename d) = true.
Proof.
  unfold Screenshots.write_file.
  destruct (Screenshots.has_file user filename d) eqn:E; [assumption|].
  unfold Screenshots.has_file. cbn [files set_files].
  rewrite existsb_app. cbn [existsb fst snd].
  now rewrite !String.eqb_refl, orb_true_r.
Qed.

Section WithPlatform.
Context {P : Platform}.

Lemma screenshot_row_fields (id user filename : string) (size : Z)
  (f : Screenshots.fields) (now : Z) (row : screenshot) :
  Screenshots.screenshot_row id user filename size f now = Some row ->
  ss_id row = id /\ ss_user_id row = user /\ ss_filename row = filename /\
  created_at row = now.
Proof.
  unfold Screenshots.screenshot_row.
  destruct (if truthy (Screenshots.f_timestamp f) then _ else _);
    [|discriminate].
  destruct (if truthy (Screenshots.f_date f) then _ else _);
    [|discriminate].
  intros [= <-]. auto.
Qed.

(** A screenshot that has just been inserted is the one its id selects,
    and its file is served. *)
Lemma inserted_is_served (id user filename : string) (row : screenshot)
  (d d' : db) :
  ss_id row = id -> ss_user_id row = user -> ss_filename row = filename ->
  Screenshots.has_file user filename d = true ->
  Screenshots.insert_screenshot row d = (Returned tt, d') ->
  ScreenshotRoutes.image user id d' = ScreenshotRoutes.SendFile user filename
  /\ files d' = files d
  /\ screenshots d' = screenshots d ++ [row].
Proof.
  intros Hid Huser Hname Hfile. unfold Screenshots.insert_screenshot.
  destruct (existsb (fun s => (ss_id s =? ss_id row)%string) (screenshots d))
    eqn:Efresh; [discriminate|].
  cbn [negb andb].
  destruct (existsb (String.eqb (ss_user_id row)) (users d) && _);
    [|discriminate].
  intros [= <-]. split; [|split; reflexivity].
  unfold ScreenshotRoutes.image, ScreenshotRoutes.select_screenshot.
  cbn [screenshots set_screenshots].
  rewrite find_app_none.
  - cbn [find]. rewrite Hid, Huser, !String.eqb_refl. cbn [andb].
    rewrite Hname.
    unfold Screenshots.has_file in *. cbn [files set_screenshots].
    now rewrite Hfile.
  - intros s Hs.
    destruct (String.eqb_spec (ss_id s) id) as [E|]; [|reflexivity].
    exfalso.
    assert (Ht : existsb (fun s => (ss_id s =? ss_id row)%string)
                         (screenshots d) = true).
    { apply existsb_exists. exists s. split; [assumption|].
      rewrite Hid. now apply String.eqb_eq. }
    congruence.
Qed.

(** POST /upload, statement by statement. *)
Lemma upload_unfold (user : string) (file : option (string * Z))
  (f : Screenshots.fields) (id : string) (now : Z) (d : db) :
  Screenshots.upload user file f id now d =
  match file with
  | None => (Screenshots.NoFileUploaded, d)
  | Some (name, size) =>
      let d1 := Screenshots.write_file user name d in
      match Screenshots.screenshot_row id user name size f now with
      | None => (Screenshots.InternalServerError, d1)
      | Some row =>
          match Screenshots.insert_screenshot row d1 with
          | (Thrown, d2) => (Screenshots.InternalServerError, d2)
          | (Returned _, d2) => (Screenshots.Uploaded id name, d2)
          end
      end
  end.
Proof.
  unfold Screenshots.upload, try_catch.
  destruct file as [[name size]|]; [|reflexivity].
  unfold bind at 1. unfold eval. cbv zeta.
  destruct (Screenshots.screenshot_row id user name size f now) as [row|];
    [|reflexivity].
  unfold ret at 1. unfold bind.
  destruct (Screenshots.insert_screenshot row _) as [[[]|] d2];
    reflexivity.
Qed.

(** X16.  A screenshot uploaded through POST /upload can be fetched: GET
    /image/:id with the id of the 201 response serves, to the uploader, the
    file the response names. *)
Theorem upload_then_image (user : string) (file : option (string * Z))
  (f : Screenshots.fields) (id : string) (now : Z) (d : db)
  (id' filename : string) :
  fst (Screenshots.upload user file f id now d)
    = Screenshots.Uploaded id' filename ->
  ScreenshotRoutes.image user id'
    (snd (Screenshots.upload user file f id now d))
  = ScreenshotRoutes.SendFile user filename.
Proof.
  rewrite upload_unfold.
  destruct file as [[name size]|]; [|discriminate].
  cbv zeta.
  destruct (Screenshots.screenshot_row id user name size f now) as [row|]
    eqn:Erow; [|discriminate].
  destruct (Screenshots.insert_screenshot row
              (Screenshots.write_file user name d)) as [[[]|] d2] eqn:Eins;
    [|discriminate].
  cbn [fst snd]. intros [= <- <-].
  apply screenshot_row_fields in Erow.
  destruct Erow as (Hid & Huser & Hname & _).
  destruct (inserted_is_served id user name row _ d2 Hid Huser Hname
              (has_file_write user name d) Eins) as (Himg & _).
  exact Himg.
Qed.

(** X17.  A screenshot uploaded through POST /upload-base64 while the user
    is below the limit can be fetched in the same way. *)
Theorem upload_base64_then_image (user : string) (dataUrl : jsval)
  (f : Screenshots.fields) (uuid_name id : string) (now : Z) (d : db)
  (id' filename : string) :
  fst (Screenshots.upload_base64 user dataUrl f uuid_name id now d)
    = Screenshots.Uploaded id' filename ->
  Screenshots.count_of_user user d < Screenshots.limit ->
  ScreenshotRoutes.image user id'
    (snd (Screenshots.upload_base64 user dataUrl f uuid_name id now d))
  = ScreenshotRoutes.SendFile user filename.
Proof.
  rewrite upload_base64_unfold.
  destruct (js_not dataUrl); [discriminate|].
  destruct (Screenshots.js_match dataUrl) as [[[m1 m2]|]|];
    try discriminate.
  cbv zeta.
  set (name := (Screenshots.decimal now ++ "-" ++ substring 0 8 uuid_name
                ++ "." ++ (if (m1 =? "jpeg")%string then "jpg" else m1))
               %string).
  destruct (Screenshots.screenshot_row id user name (base64_byteLength m2)
              f now) as [row|] eqn:Erow; [|discriminate].
  destruct (Screenshots.insert_screenshot row
              (Screenshots.write_file user name d)) as [[[]|] d2] eqn:Eins;
    [|discriminate].
  cbn [fst snd]. intros [= <- <-] Hcount.
  apply screenshot_row_fields in Erow.
  destruct Erow as (Hid & Huser & Hname & _).
  destruct (inserted_is_served id user name row _ d2 Hid Huser Hname
              (has_file_write user name d) Eins) as (Himg & _ & Hss).
  assert (Hsame : snd (Screenshots.enforce_limit user d2) = d2).
  { unfold Screenshots.enforce_limit, bind, query.
    assert (Hc : Screenshots.count_of_user user d2
                 <= Screenshots.limit).
    { unfold Screenshots.count_of_user, Sql.count, Screenshots.of_user
        in *.
      rewrite Hss, filter_app, length_app.
      assert (Hw : screenshots (Screenshots.write_file user name d)
                   = screenshots d).
      { unfold Screenshots.write_file.
        now destruct (Screenshots.has_file user name d). }
      rewrite Hw. cbn [filter].
      destruct (ss_user_id row =? user)%string; cbn [List.length]; lia. }
    destruct (Screenshots.count_of_user user d2 >? Screenshots.limit)
      eqn:E; [|reflexivity].
    apply Z.gtb_lt in E. lia. }
  now rewrite Hsame.
Qed.

Lemma select_screenshot_none (user id : string) (d : db) :
  (forall s, In s (screenshots d) -> ss_id s = id -> ss_user_id s <> user) ->
  ScreenshotRoutes.select_screenshot id user d = None.
Proof.
  intros H. apply find_none_iff. intros s Hs.
  destruct (String.eqb_spec (ss_id s) id) as [E|]; [|reflexivity].
  destruct (String.eqb_spec (ss_user_id s) user) as [E'|]; [|reflexivity].
  now destruct (H s Hs E).
Qed.

(** X18.  GET /image/:id and DELETE /:id are scoped to the owner: for an
    id that only screenshots of other users carry, both answer 404 and the
    delete changes nothing, rows and files. *)
Theorem screenshot_routes_scoped_to_owner (user id : string) (d : db) :
  (forall s, In s (screenshots d) -> ss_id s = id -> ss_user_id s <> user) ->
  ScreenshotRoutes.image user id d = ScreenshotRoutes.ScreenshotNotFound /\
  ScreenshotRoutes.delete user id d = (ScreenshotRoutes.DeleteNotFound, d).
Proof.
  intros H. unfold ScreenshotRoutes.image, ScreenshotRoutes.delete.
  now rewrite (select_screenshot_none user id d H).
Qed.

(** X19.  After DELETE /:id has answered 200, the screenshot is gone: no
    screenshot has the id, every other screenshot is still there, GET
    /image/:id and a second DELETE answer 404, and the file of the deleted
    screenshot has left the directory of the user, while the files of the
    other users stay. *)
Theorem delete_then_gone (user id : string) (d : db) :
  fst (ScreenshotRoutes.delete user id d)
    = ScreenshotRoutes.ScreenshotDeleted ->
  let d' := snd (ScreenshotRoutes.delete user id d) in
  (forall s, In s (screenshots d') <->
             In s (screenshots d) /\ ss_id s <> id) /\
  ScreenshotRoutes.image user id d' = ScreenshotRoutes.ScreenshotNotFound /\
  ScreenshotRoutes.delete user id d'
    = (ScreenshotRoutes.DeleteNotFound, d') /\
  (forall ss, ScreenshotRoutes.select_screenshot id user d = Some ss ->
              Screenshots.has_file user (ss_filename ss) d' = false) /\
  filter (fun f => negb (fst f =? user)%string) (files d') =
    filter (fun f => negb (fst f =? user)%string) (files d).
Proof.
  unfold ScreenshotRoutes.delete at 1 2.
  destruct (ScreenshotRoutes.select_screenshot id user d) as [ss|] eqn:E;
    [|discriminate].
  intros _. cbn [snd].
  set (d' := Screenshots.delete_screenshot id
               (Screenshots.unlink_if_exists user (ss_filename ss) d)).
  assert (Hmem : forall s, In s (screenshots d') <->
                           In s (screenshots d) /\ ss_id s <> id).
  { intros s. unfold d'.
    cbn [screenshots Screenshots.delete_screenshot set_screenshots
         Screenshots.unlink_if_exists set_files].
    rewrite filter_In, negb_true_iff.
    destruct (String.eqb_spec (ss_id s) id); intuition congruence. }
  split; [exact Hmem|].
  assert (Hscoped : forall s, In s (screenshots d') -> ss_id s = id ->
                              ss_user_id s <> user).
  { intros s Hs Hid. apply Hmem in Hs. tauto. }
  apply select_screenshot_none in Hscoped.
  split; [unfold ScreenshotRoutes.image; now rewrite Hscoped|].
  split; [unfold ScreenshotRoutes.delete; now rewrite Hscoped|].
  split.
  - intros ss' [= <-]. unfold d', Screenshots.has_file.
    cbn [files Screenshots.delete_screenshot set_screenshots
         Screenshots.unlink_if_exists set_files].
    destruct (existsb _ _) eqn:Ex; [|reflexivity].
    apply existsb_exists in Ex. destruct Ex as (f & Hf & Hm).
    apply filter_In in Hf. destruct Hf as [_ Hf].
    rewrite Hm in Hf. discriminate.
  - unfold d'.
    cbn [files Screenshots.delete_screenshot set_screenshots
         Screenshots.unlink_if_exists set_files].
    rewrite filter_filter. apply filter_ext. intros f.
    destruct (fst f =? user)%string; cbn [andb negb];
      [apply andb_false_r|reflexivity].
Qed.

End WithPlatform.
End ScreenshotRouteFacts.

(** ** GET /screenshots *)

Module ScreenshotListFacts.
Import SqlFacts AnalyticsFacts GroupFacts SyncReadFacts RetentionFacts.
Section WithPlatform.
Context {P : Platform}.

(** X20.  GET /screenshots lists at most 200 screenshots, 50 when no limit
    is given, the latest timestamp first; each is a screenshot of the user
    that matches the date and the device asked for; and when the matching
    screenshots are not more than the limit, all of them are listed. *)
Theorem list_screenshots_filters (user : string) (qdate qdevice : jsval)
  (qlimit : option Z) (d : db) (rows : list ScreenshotRoutes.listed) :
  ScreenshotRoutes.list_screenshots user qdate qdevice qlimit d = Some rows ->
  (List.length rows <= 200)%nat /\
  (qlimit = None -> (List.length rows <= 50)%nat) /\
  Sorted (fun a b =>
            text_leb (ScreenshotRoutes.l_timestamp b)
                     (ScreenshotRoutes.l_timestamp a) = true) rows /\
  (forall row,
     In row rows ->
     exists s,
       In s (screenshots d) /\ row = ScreenshotRoutes.listed_of s /\
       ss_user_id s = user /\
       (truthy qdate = true -> ss_date s = pg_text qdate) /\
       (truthy qdevice = true -> ss_device_id s = pg_text qdevice)) /\
  (let matching :=
     filter (ScreenshotRoutes.list_where user qdate qdevice) (screenshots d) in
   Z.of_nat (List.length matching)
     <= Z.min (Analytics.or_default qlimit 50) 200 ->
   Permutation rows (map ScreenshotRoutes.listed_of matching)).
Proof.
  unfold ScreenshotRoutes.list_screenshots. cbv zeta.
  set (lim := Z.min (Analytics.or_default qlimit 50) 200).
  destruct (lim <? 0) eqn:Elim; [discriminate|]. intros [= <-].
  set (matching := filter (ScreenshotRoutes.list_where user qdate qdevice)
                          (screenshots d)).
  set (sorted := SqlOrder.order_by ScreenshotRoutes.timestamp_desc matching).
  assert (Hlen : (List.length (firstn (Z.to_nat lim) sorted)
                  <= Z.to_nat lim)%nat) by apply firstn_le_length.
  assert (Hlim : lim <= 200) by apply Z.le_min_r.
  split; [rewrite length_map; lia|].
  split.
  { intros Hq. assert (Hl : lim = 50) by (unfold lim; now rewrite Hq).
    rewrite length_map. lia. }
  split.
  { apply sorted_map. apply sorted_firstn.
    apply order_by_sorted with (before := ScreenshotRoutes.timestamp_desc).
    - auto.
    - intros x y E. unfold ScreenshotRoutes.timestamp_desc in E.
      cbn [ScreenshotRoutes.listed_of ScreenshotRoutes.l_timestamp].
      destruct (text_leb_total (ss_timestamp x) (ss_timestamp y));
        congruence. }
  split.
  { intros row Hrow. apply in_map_iff in Hrow.
    destruct Hrow as (s & <- & Hs). apply in_firstn in Hs.
    apply (Permutation_in _ (order_by_perm _ _)) in Hs.
    apply filter_In in Hs. destruct Hs as [Hin Hw].
    unfold ScreenshotRoutes.list_where in Hw.
    apply andb_true_iff in Hw. destruct Hw as [Hw Hdev].
    apply andb_true_iff in Hw. destruct Hw as [Hu Hdate].
    exists s. split; [assumption|]. split; [reflexivity|].
    split; [now apply String.eqb_eq|]. split.
    - intros Ht. rewrite Ht in Hdate. now apply String.eqb_eq.
    - intros Ht. rewrite Ht in Hdev. now apply String.eqb_eq. }
  intros Hall. apply Permutation_map.
  rewrite firstn_all2.
  - apply order_by_perm.
  - unfold sorted. rewrite (Permutation_length (order_by_perm _ _)). lia.
Qed.

End WithPlatform.
End ScreenshotListFacts.

(** ** Devices: registering, renaming and removing *)

Module DeviceFacts.
Import SyncNotions SyncFacts ScreenshotRouteFacts.
Section WithPlatform.
Context {P : Platform}.

Lemma push_needs_device (user : string) (body : Sync.push_body) (now : Z)
  (d : db) :
  Sync.select_device (Sync.deviceId body) user d = None ->
  fst (Sync.push user body now d) = Sync.DeviceIdRequired \/
  fst (Sync.push user body now d) = Sync.DeviceNotFound.
Proof.
  intros H. rewrite push_unfold. unfold push_outcome. rewrite H.
  destruct (js_not (Sync.deviceId body)); auto.
Qed.

Lemma push_with_device (user : string) (body : Sync.push_body) (now : Z)
  (d : db) (dv : device) :
  truthy (Sync.deviceId body) = true ->
  Sync.select_device (Sync.deviceId body) user d = Some dv ->
  fst (Sync.push user body now d) <> Sync.DeviceIdRequired /\
  fst (Sync.push user body now d) <> Sync.DeviceNotFound.
Proof.
  intros Ht H. rewrite push_unfold. unfold push_outcome, js_not.
  rewrite Ht, H. cbn [negb]. cbv zeta.
  destruct (snd (Sync.usage_trace _ _ _)); [|split; discriminate].
  destruct (snd (Sync.events_trace _ _ _)); split; discriminate.
Qed.

(** X21.  A device that POST /devices has registered can push at once:
    with the id of the 201 response, POST /push of the same user passes
    the device check, whereas no push of another user completes with that
    id. *)
Theorem registered_device_can_push (user : string)
  (deviceName deviceType : jsval) (id : string) (d : db)
  (id' : string) (name type : jsval) :
  fst (Devices.register user deviceName deviceType id d)
    = Devices.DeviceRegistered id' name type ->
  let d1 := snd (Devices.register user deviceName deviceType id d) in
  (forall body now,
     truthy (Sync.deviceId body) = true ->
     pg_text (Sync.deviceId body) = id' ->
     fst (Sync.push user body now d1) <> Sync.DeviceIdRequired /\
     fst (Sync.push user body now d1) <> Sync.DeviceNotFound) /\
  (forall other body now,
     other <> user ->
     pg_text (Sync.deviceId body) = id' ->
     fst (Sync.push other body now d1) = Sync.DeviceIdRequired \/
     fst (Sync.push other body now d1) = Sync.DeviceNotFound).
Proof.
  unfold Devices.register, try_catch.
  destruct (js_not deviceName); [discriminate|].
  unfold bind, Devices.insert_device. cbn [dev_id dev_user_id].
  destruct (existsb (fun dv => (dev_id dv =? id)%string) (devices d))
    eqn:Efresh; [discriminate|].
  cbn [negb andb].
  destruct (existsb (String.eqb user) (users d)); [|discriminate].
  unfold ret. cbn [fst snd]. intros [= <- _ _].
  assert (Hfresh : forall dv, In dv (devices d) ->
                              (dev_id dv =? id)%string = false).
  { intros dv Hdv. destruct (dev_id dv =? id)%string eqn:E; [|reflexivity].
    assert (Ht : existsb (fun dv => (dev_id dv =? id)%string) (devices d)
                 = true) by (apply existsb_exists; now exists dv).
    congruence. }
  split.
  - intros body now Ht Hid.
    apply push_with_device with
      (dv := {| dev_id := id; dev_user_id := user;
                device_name := pg_text deviceName;
                device_type := pg_text (js_or deviceType (JStr "other"));
                last_sync_at := None |}); [assumption|].
    unfold Sync.select_device. cbn [devices set_devices].
    rewrite find_app_none.
    + cbn [find dev_id dev_user_id]. now rewrite Hid, !String.eqb_refl.
    + intros dv Hdv. now rewrite Hid, (Hfresh dv Hdv).
  - intros other body now Hne Hid. apply push_needs_device.
    unfold Sync.select_device. cbn [devices set_devices].
    rewrite find_app_none.
    + cbn [find dev_id dev_user_id]. rewrite Hid, String.eqb_refl.
      destruct (String.eqb_spec user other); [congruence|reflexivity].
    + intros dv Hdv. now rewrite Hid, (Hfresh dv Hdv).
Qed.

(** X22.  DELETE /devices/:id takes the data of the device with it: when
    it answers 200, no device, usage record, activity event or screenshot
    row of that device is left while those of the other devices all stay,
    and a push with that id is refused.  The sync log and the stored files
    are not touched: the files of the removed screenshots stay on disk. *)
Theorem remove_device_cascades (user id : string) (d : db) :
  fst (Devices.remove user id d) = Devices.DeviceRemoved ->
  let d' := snd (Devices.remove user id d) in
  (forall dv, In dv (devices d') <-> In dv (devices d) /\ dev_id dv <> id) /\
  (forall r, In r (usage_records d') <->
             In r (usage_records d) /\ ur_device_id r <> id) /\
  (forall e, In e (activity_events d') <->
             In e (activity_events d) /\ ae_device_id e <> id) /\
  (forall s, In s (screenshots d') <->
             In s (screenshots d) /\ ss_device_id s <> id) /\
  sync_log d' = sync_log d /\ files d' = files d /\
  (forall u body now,
     pg_text (Sync.deviceId body) = id ->
     fst (Sync.push u body now d') = Sync.DeviceIdRequired \/
     fst (Sync.push u body now d') = Sync.DeviceNotFound).
Proof.
  unfold Devices.remove.
  destruct (Devices.select_own id user d); [|discriminate].
  intros _. cbn [snd]. unfold Devices.delete_device.
  cbn [devices usage_records activity_events screenshots sync_log files].
  assert (Hneq : forall a, negb (a =? id)%string = true <-> a <> id).
  { intros a. rewrite negb_true_iff.
    destruct (String.eqb_spec a id); split; congruence. }
  split; [intros dv; now rewrite filter_In, Hneq|].
  split; [intros r; now rewrite filter_In, Hneq|].
  split; [intros e; now rewrite filter_In, Hneq|].
  split; [intros s; now rewrite filter_In, Hneq|].
  split; [reflexivity|]. split; [reflexivity|].
  intros u body now Hid. apply push_needs_device.
  unfold Sync.select_device. cbn [devices]. apply find_none_iff.
  intros dv Hdv. apply filter_In in Hdv. destruct Hdv as [_ Hdv].
  apply negb_true_iff in Hdv. now rewrite Hid, Hdv.
Qed.

(** X23.  PUT and DELETE /devices/:id are scoped to the owner: for an id
    that only devices of other users carry, both answer 404 and change
    nothing. *)
Theorem device_routes_scoped_to_owner (user id : string) (d : db) :
  (forall dv, In dv (devices d) -> dev_id dv = id -> dev_user_id dv <> user) ->
  Devices.remove user id d = (Devices.DeviceNotFound, d) /\
  forall deviceName,
    Devices.update user id deviceName d
    = (Returned Devices.DeviceNotFound, d).
Proof.
  intros H.
  assert (Hnone : Devices.select_own id user d = None).
  { apply find_none_iff. intros dv Hdv.
    destruct (String.eqb_spec (dev_id dv) id) as [E|]; [|reflexivity].
    destruct (String.eqb_spec (dev_user_id dv) user) as [E'|];
      [|reflexivity].
    now destruct (H dv Hdv E). }
  split.
  - unfold Devices.remove. now rewrite Hnone.
  - intros deviceName. unfold Devices.update, bind, query.
    now rewrite Hnone.
Qed.

End WithPlatform.
End DeviceFacts.

(** ** The further handlers on the example data *)

Module ScenarioChecks.
Import Examples Scenarios ReadNotions.

Lemma convertPlaceholders_leaves_none_witness :
  Database.count_char "?" "SELECT 1" = O /\
  Database.convertPlaceholders "SELECT 1" = "SELECT 1".
Proof.
  split; [reflexivity|].
  apply (proj2 (proj2 (proj2
           (DatabaseFacts.convertPlaceholders_leaves_none "SELECT 1")))).
  reflexivity.
Defined.

Lemma pushes_keep_keys_unique_witness :
  NoDup (map key_of (usage_records two_titles)) /\
  NoDup (map key_of
           (usage_records
              (Sync.pushes (P:=reference_platform)
                 [("u1", two_titles_push, 2000)] two_titles))).
Proof.
  assert (H : NoDup (map key_of (usage_records two_titles))).
  { repeat (constructor; [cbn; intuition discriminate|]). constructor. }
  split; [exact H|].
  apply (SyncMore.pushes_keep_keys_unique (P:=reference_platform)
           [("u1", two_titles_push, 2000)] two_titles H).
Defined.

Lemma merge_order_irrelevant_witness :
  Permutation [morning; evening] [evening; morning] /\
  option_map Sync.merged_fields
    (find_record example_key
       (Sync.upsert_all (P:=reference_platform) 1000 [morning; evening]
          [first_record])) =
  option_map Sync.merged_fields
    (find_record example_key
       (Sync.upsert_all (P:=reference_platform) 2000 [evening; morning]
          [first_record])).
Proof.
  split; [apply perm_swap|].
  apply (MergeOrder.merge_order_irrelevant (P:=reference_platform)
           1000 2000 [morning; evening] [evening; morning] [first_record]
           (perm_swap evening morning []) example_key).
Defined.

Lemma push_appends_last_events_witness :
  fst (Sync.push (P:=reference_platform) "u1" events_push 1000 fresh)
    = Sync.SyncComplete 0 2 /\
  exists rows,
    activity_events
      (snd (Sync.push (P:=reference_platform) "u1" events_push 1000 fresh))
      = activity_events fresh ++ rows /\
    Forall2 (fun ev row =>
               Sync.event_row (P:=reference_platform) "u1"
                 (pg_text (Platform:=reference_platform)
                    (Sync.deviceId events_push)) ev
               = Some row)
            (slice_last 200 (array_items (Sync.activityEvents events_push)))
            rows /\
    2 = Z.of_nat
          (Nat.min
             (List.length (array_items (Sync.activityEvents events_push)))
             200).
Proof.
  split; [reflexivity|].
  apply (PushEffects.push_appends_last_events (P:=reference_platform)
           "u1" events_push 1000 fresh 0 2).
  reflexivity.
Defined.

Lemma push_invisible_to_other_users_witness :
  "u2" <> "u1" /\
  SyncRead.full (P:=reference_platform) "u2" (Some 7) query_time
    (snd (Sync.push (P:=reference_platform) "u1" two_titles_push 2000
            two_titles)) =
  SyncRead.full (P:=reference_platform) "u2" (Some 7) query_time two_titles.
Proof.
  assert (H : "u2" <> "u1") by discriminate.
  split; [exact H|].
  apply (proj1 (proj2
           (Isolation.push_invisible_to_other_users (P:=reference_platform)
              "u1" "u2" two_titles_push 2000 two_titles H))).
Defined.

Lemma daily_breakdowns_add_up_witness :
  exists s,
    Analytics.daily (P:=reference_platform) "u1" (JStr "2024-01-02")
      query_time two_titles = Some s /\
    Sql.sum_of (map Analytics.s_total_seconds (Analytics.sites s)) =
      Analytics.totalSeconds (Analytics.totals s) /\
    Sql.sum_of (map Analytics.c_total_seconds (Analytics.categories s)) =
      Analytics.totalSeconds (Analytics.totals s).
Proof.
  eexists. split; [reflexivity|].
  destruct (BreakdownFacts.daily_breakdowns_add_up (P:=reference_platform)
              "u1" (JStr "2024-01-02") query_time two_titles _ eq_refl)
    as (Hs & _ & Hc & _).
  split; [exact Hs|exact Hc].
Defined.


Lemma trends_weeks_partition_witness :
  Reference.toISOString (JNum (query_time - 7 * 86400000))
    = Some "2023-12-29T00:00:00.000Z" /\
  Reference.toISOString (JNum (query_time - 14 * 86400000))
    = Some "2023-12-22T00:00:00.000Z" /\
  text_leb (Platform:=reference_platform) "2023-12-22" "2023-12-29" = true /\
  exists t,
    Trends.trends (P:=reference_platform) "u1" query_time two_titles
      = Some t /\
    Trends.total_seconds_ (Trends.thisWeek t)
    + Trends.total_seconds_ (Trends.lastWeek t) =
      AnalyticsSpec.sum_where
        (AnalyticsSpec.in_window (P:=reference_platform) "u1" "2023-12-22")
        total_seconds (usage_records two_titles).
Proof.
  split; [reflexivity|]. split; [reflexivity|]. split; [reflexivity|].
  eexists. split; [reflexivity|].
  apply (proj1
           (BreakdownFacts.trends_weeks_partition (P:=reference_platform)
              "u1" query_time two_titles "2023-12-29T00:00:00.000Z"
              "2023-12-22T00:00:00.000Z" _ eq_refl eq_refl eq_refl eq_refl)).
Defined.

Lemma pull_merges_devices_witness :
  exists rows,
    SyncRead.pull (P:=reference_platform) "u1" (JStr "2024-01-02")
      JUndefined query_time two_titles = Some rows /\
    NoDup (map pull_row_key rows).
Proof.
  eexists. split; [reflexivity|].
  destruct (PullSpec.pull_merges_devices (P:=reference_platform)
              "u1" (JStr "2024-01-02") JUndefined query_time two_titles _
              eq_refl)
    as (window & _ & Hnd & _).
  exact Hnd.
Defined.

Lemma full_lists_window_witness :
  exists rows,
    SyncRead.full (P:=reference_platform) "u1" (Some 7) query_time
      two_titles = Some (rows, 7) /\
    7 <= 90.
Proof.
  eexists. split; [reflexivity|].
  apply (proj1
           (PullSpec.full_lists_window (P:=reference_platform)
              "u1" (Some 7) query_time two_titles _ 7 eq_refl)).
Defined.

Lemma match_data_url_exact_witness :
  Screenshots.match_data_url "data:image/png;base64,AAAA"
    = Some ("png", "AAAA").
Proof.
  apply (proj2 (DataUrlFacts.match_data_url_exact
                  "data:image/png;base64,AAAA" "png" "AAAA")).
  repeat split; discriminate.
Defined.

Lemma enforce_limit_evicts_oldest_witness :
  NoDup (map ss_id (screenshots two_shots)) /\
  Screenshots.count_of_user "u1"
    (snd (Screenshots.enforce_limit "u1" two_shots)) =
  Z.min (Screenshots.count_of_user "u1" two_shots) Screenshots.limit.
Proof.
  assert (H : NoDup (map ss_id (screenshots two_shots))).
  { repeat (constructor; [cbn; intuition discriminate|]). constructor. }
  split; [exact H|].
  apply (proj1 (RetentionFacts.enforce_limit_evicts_oldest "u1" two_shots H)).
Defined.

Lemma upload_then_image_witness :
  fst (Screenshots.upload (P:=reference_platform) "u1"
         (Some ("1704099600000-0a1b2c3d.jpg", 2048)) metadata "new-id"
         upload_time two_shots)
    = Screenshots.Uploaded "new-id" "1704099600000-0a1b2c3d.jpg" /\
  ScreenshotRoutes.image "u1" "new-id"
    (snd (Screenshots.upload (P:=reference_platform) "u1"
            (Some ("1704099600000-0a1b2c3d.jpg", 2048)) metadata "new-id"
            upload_time two_shots))
  = ScreenshotRoutes.SendFile "u1" "1704099600000-0a1b2c3d.jpg".
Proof.
  split; [reflexivity|].
  apply (ScreenshotRouteFacts.upload_then_image (P:=reference_platform)
           "u1" (Some ("1704099600000-0a1b2c3d.jpg", 2048)) metadata
           "new-id" upload_time two_shots).
  reflexivity.
Defined.

Lemma upload_base64_then_image_witness :
  fst (Screenshots.upload_base64 (P:=reference_platform) "u1"
         (JStr "data:image/jpeg;base64,AAAA") metadata "0a1b2c3d-0000"
         "new-id" upload_time two_shots)
    = Screenshots.Uploaded "new-id" "1704099600000-0a1b2c3d.jpg" /\
  Screenshots.count_of_user "u1" two_shots < Screenshots.limit /\
  ScreenshotRoutes.image "u1" "new-id"
    (snd (Screenshots.upload_base64 (P:=reference_platform) "u1"
            (JStr "data:image/jpeg;base64,AAAA") metadata "0a1b2c3d-0000"
            "new-id" upload_time two_shots))
  = ScreenshotRoutes.SendFile "u1" "1704099600000-0a1b2c3d.jpg".
Proof.
  split; [reflexivity|]. split; [reflexivity|].
  apply (ScreenshotRouteFacts.upload_base64_then_image
           (P:=reference_platform)
           "u1" (JStr "data:image/jpeg;base64,AAAA") metadata
           "0a1b2c3d-0000" "new-id" upload_time two_shots);
    reflexivity.
Defined.

Lemma screenshot_routes_scoped_to_owner_witness :
  (forall s, In s (screenshots two_shots) -> ss_id s = "shot-0" ->
             ss_user_id s <> "u2") /\
  ScreenshotRoutes.delete "u2" "shot-0" two_shots
    = (ScreenshotRoutes.DeleteNotFound, two_shots).
Proof.
  assert (H : forall s, In s (screenshots two_shots) -> ss_id s = "shot-0" ->
                        ss_user_id s <> "u2").
  { intros s [<-|[<-|[]]] _; discriminate. }
  split; [exact H|].
  apply (proj2 (ScreenshotRouteFacts.screenshot_routes_scoped_to_owner
                  "u2" "shot-0" two_shots H)).
Defined.

Lemma delete_then_gone_witness :
  fst (ScreenshotRoutes.delete "u1" "shot-0" two_shots)
    = ScreenshotRoutes.ScreenshotDeleted /\
  ScreenshotRoutes.image "u1" "shot-0"
    (snd (ScreenshotRoutes.delete "u1" "shot-0" two_shots))
  = ScreenshotRoutes.ScreenshotNotFound.
Proof.
  split; [reflexivity|].
  apply (proj1 (proj2
           (ScreenshotRouteFacts.delete_then_gone "u1" "shot-0" two_shots
              eq_refl))).
Defined.

Lemma list_screenshots_filters_witness :
  exists rows,
    ScreenshotRoutes.list_screenshots (P:=reference_platform) "u1"
      (JStr "2024-01-01") JUndefined None two_shots = Some rows /\
    (List.length rows <= 200)%nat.
Proof.
  eexists. split; [reflexivity|].
  apply (proj1
           (ScreenshotListFacts.list_screenshots_filters
              (P:=reference_platform) "u1" (JStr "2024-01-01") JUndefined
              None two_shots _ eq_refl)).
Defined.

Lemma registered_device_can_push_witness :
  fst (Devices.register (P:=reference_platform) "u1" (JStr "Phone")
         JUndefined "dev9" fresh)
    = Devices.DeviceRegistered "dev9" (JStr "Phone") (JStr "other") /\
  fst (Sync.push (P:=reference_platform) "u1"
         {| Sync.deviceId := JStr "dev9"; Sync.usageData := JUndefined;
            Sync.activityEvents := JUndefined |} 2000
         (snd (Devices.register (P:=reference_platform) "u1" (JStr "Phone")
                 JUndefined "dev9" fresh)))
    <> Sync.DeviceNotFound.
Proof.
  split; [reflexivity|].
  apply (proj1
           (DeviceFacts.registered_device_can_push (P:=reference_platform)
              "u1" (JStr "Phone") JUndefined "dev9" fresh "dev9"
              (JStr "Phone") (JStr "other") eq_refl)
           {| Sync.deviceId := JStr "dev9"; Sync.usageData := JUndefined;
              Sync.activityEvents := JUndefined |} 2000 eq_refl eq_refl).
Defined.

Lemma remove_device_cascades_witness :
  fst (Devices.remove "u1" "dev1" two_titles) = Devices.DeviceRemoved /\
  sync_log (snd (Devices.remove "u1" "dev1" two_titles))
    = sync_log two_titles /\
  forall r,
    In r (usage_records (snd (Devices.remove "u1" "dev1" two_titles))) <->
    In r (usage_records two_titles) /\ ur_device_id r <> "dev1".
Proof.
  split; [reflexivity|].
  destruct (DeviceFacts.remove_device_cascades (P:=reference_platform)
              "u1" "dev1" two_titles eq_refl)
    as (_ & Hr & _ & _ & Hlog & _).
  split; [exact Hlog|exact Hr].
Defined.

Lemma device_routes_scoped_to_owner_witness :
  (forall dv, In dv (devices fresh) -> dev_id dv = "dev1" ->
              dev_user_id dv <> "u2") /\
  Devices.remove "u2" "dev1" fresh = (Devices.DeviceNotFound, fresh).
Proof.
  assert (H : forall dv, In dv (devices fresh) -> dev_id dv = "dev1" ->
                         dev_user_id dv <> "u2").
  { intros dv [<-|[]] _; discriminate. }
  split; [exact H|].
  apply (proj1 (DeviceFacts.device_routes_scoped_to_owner
                  (P:=reference_platform) "u2" "dev1" fresh H)).
Defined.

End ScenarioChecks.

(** ** Replayed events, rejected uploads and the device breakdown *)

Module FurtherFacts.
Import SqlFacts AnalyticsFacts GroupFacts SyncNotions SyncFacts PushFacts
       ScreenshotFacts RetentionFacts.
Section WithPlatform.
Context {P : Platform}.

(** X24.  Activity events are not reconciled: a push that completes and
    is replayed completes again with the same counts, and its events are
    appended a second time, where its usage records are merged. *)
Theorem replayed_push_repeats_events (user : string) (body : Sync.push_body)
  (now now' : Z) (d : db) (n m : Z) :
  fst (Sync.push user body now d) = Sync.SyncComplete n m ->
  let d1 := snd (Sync.push user body now d) in
  fst (Sync.push user body now' d1) = Sync.SyncComplete n m /\
  exists rows,
    Z.of_nat (List.length rows) = m /\
    activity_events d1 = activity_events d ++ rows /\
    activity_events (snd (Sync.push user body now' d1)) =
      activity_events d ++ rows ++ rows.
Proof.
  intros H. cbv zeta.
  pose proof (push_select_device user body now d (Sync.deviceId body) user)
    as Hsel.
  remember (Sync.push user body now d) as r eqn:Hr.
  rewrite push_unfold in Hr. unfold push_outcome in Hr.
  destruct (js_not (Sync.deviceId body)) eqn:Hjs;
    [subst r; discriminate|].
  destruct (Sync.select_device (Sync.deviceId body) user d) as [dv|];
    [|subst r; discriminate].
  cbv zeta in Hr.
  destruct (Sync.usage_trace user (pg_text (Sync.deviceId body))
              (Sync.usageData body)) as [es ok] eqn:Hut.
  cbn [fst snd] in Hr. destruct ok; [|subst r; discriminate].
  destruct (Sync.events_trace user (pg_text (Sync.deviceId body))
              (accepted_events (Sync.activityEvents body)))
    as [rows ok] eqn:Het.
  cbn [fst snd] in Hr. destruct ok; [|subst r; discriminate].
  subst r. cbn [fst snd] in *. injection H as <- <-.
  rewrite push_unfold. unfold push_outcome. rewrite Hjs.
  destruct (Sync.select_device (Sync.deviceId body) user _);
    [|discriminate Hsel].
  cbv zeta. rewrite Hut, Het. cbn [fst snd].
  split; [reflexivity|]. exists rows.
  split; [reflexivity|]. split; [reflexivity|].
  cbn. now rewrite <- app_assoc.
Qed.

(** X25.  POST /upload-base64 stores nothing it does not accept: without
    a [dataUrl] it answers 400 'dataUrl required', with a string that is
    not an image data URL 400 'Invalid data URL', with a value that is not
    a string 500; in each case no row is inserted, no file written and
    nothing evicted. *)
Theorem upload_base64_rejects_unchanged (user : string) (dataUrl : jsval)
  (f : Screenshots.fields) (uuid_name id : string) (now : Z) (d : db) :
  match dataUrl with
  | JStr s => Screenshots.match_data_url s = None
  | _ => True
  end ->
  Screenshots.upload_base64 user dataUrl f uuid_name id now d =
  (if js_not dataUrl then Screenshots.DataUrlRequired
   else match dataUrl with
        | JStr _ => Screenshots.InvalidDataUrl
        | _ => Screenshots.InternalServerError
        end,
   d).
Proof.
  intros H. rewrite upload_base64_unfold.
  destruct (js_not dataUrl); [reflexivity|].
  destruct dataUrl; cbn [Screenshots.js_match]; try reflexivity.
  now rewrite H.
Qed.

Lemma filter_nothing {A : Type} (p : A -> bool) (l : list A) :
  (forall x, In x l -> p x = false) -> filter p l = [].
Proof.
  induction l as [|x l IH]; intros H; cbn [filter]; [reflexivity|].
  rewrite (H x) by now left. apply IH. intros y Hy. apply H. now right.
Qed.

Lemma filter_unique_device (l : list device) (dv : device) :
  NoDup (map dev_id l) -> In dv l ->
  filter (fun x => (dev_id x =? dev_id dv)%string) l = [dv].
Proof.
  induction l as [|x l IH]; cbn [map]; intros Hnd Hin; [destruct Hin|].
  apply NoDup_cons_iff in Hnd. destruct Hnd as [Hnot Hnd].
  cbn [filter]. destruct Hin as [->|Hin].
  - rewrite String.eqb_refl. f_equal.
    apply filter_nothing. intros y Hy.
    destruct (String.eqb_spec (dev_id y) (dev_id dv)) as [E|];
      [|reflexivity].
    exfalso. apply Hnot. rewrite <- E. now apply in_map.
  - destruct (String.eqb_spec (dev_id x) (dev_id dv)) as [E|].
    + exfalso. apply Hnot. rewrite E. now apply in_map.
    + now apply IH.
Qed.

Lemma join_devices_sum (f : usage_record -> Z) (rows : list usage_record)
  (d : db) :
  NoDup (map dev_id (devices d)) ->
  (forall r, In r rows ->
             exists dv, In dv (devices d) /\ dev_id dv = ur_device_id r) ->
  Sql.sum_of (map (fun x => f (fst x)) (Analytics.join_devices rows d)) =
  Sql.sum_of (map f rows).
Proof.
  intros Hnd. unfold Analytics.join_devices.
  induction rows as [|r rows IH]; intros Hfk; [reflexivity|].
  cbn [flat_map map].
  destruct (Hfk r (or_introl eq_refl)) as (dv & Hdv & Hid).
  rewrite <- Hid, (filter_unique_device _ dv Hnd Hdv).
  cbn [map app fst]. rewrite !sum_of_cons, IH; [reflexivity|].
  intros r' Hr'. apply Hfk. now right.
Qed.

(** X26.  When device ids are unique and every usage record names a
    registered device, as the primary and foreign keys of the schema
    demand, the [deviceBreakdown] of GET /daily adds up to the totals of
    the day, seconds and visits. *)
Theorem daily_device_breakdown_adds_up (user : string) (qdate : jsval)
  (now : Z) (d : db) (s : Analytics.daily_summary) :
  NoDup (map dev_id (devices d)) ->
  (forall r, In r (usage_records d) ->
             exists dv, In dv (devices d) /\ dev_id dv = ur_device_id r) ->
  Analytics.daily user qdate now d = Some s ->
  Sql.sum_of (map Analytics.b_total_seconds (Analytics.deviceBreakdown s)) =
    Analytics.totalSeconds (Analytics.totals s) /\
  Sql.sum_of (map Analytics.b_total_visits (Analytics.deviceBreakdown s)) =
    Analytics.totalVisits (Analytics.totals s).
Proof.
  intros Hnd Hfk. unfold Analytics.daily.
  destruct (if truthy qdate then _ else _) as [dt|]; [|discriminate].
  intros [= <-].
  cbn [Analytics.deviceBreakdown Analytics.totals Analytics.totalSeconds
       Analytics.totalVisits].
  rewrite !coerced_sum. unfold Analytics.select_devices.
  rewrite !map_map.
  cbn [Analytics.b_total_seconds Analytics.b_total_visits].
  assert (Hkey : forall a b : string * string,
            ((fst a =? fst b) && (snd a =? snd b))%string = true <-> a = b).
  { intros [a1 a2] [b1 b2]. cbn [fst snd].
    rewrite andb_true_iff, !String.eqb_eq.
    split; [intros [-> ->]; reflexivity|intros [= -> ->]; auto]. }
  assert (Hin : forall r,
            In r (Analytics.records_on user (pg_text dt) d) ->
            exists dv, In dv (devices d) /\ dev_id dv = ur_device_id r).
  { intros r Hr. apply filter_In in Hr. apply Hfk. tauto. }
  split.
  - rewrite (group_by_sums _ _ Hkey (fun x => total_seconds (fst x))).
    now apply join_devices_sum.
  - rewrite (group_by_sums _ _ Hkey (fun x => visits (fst x))).
    now apply join_devices_sum.
Qed.

End WithPlatform.
End FurtherFacts.

(** ** Replays, rejections and the device breakdown on the example data *)

Module FurtherChecks.
Import Examples Scenarios.

Lemma replayed_push_repeats_events_witness :
  fst (Sync.push (P:=reference_platform) "u1" events_push 1000 fresh)
    = Sync.SyncComplete 0 2 /\
  fst (Sync.push (P:=reference_platform) "u1" events_push 2000
         (snd (Sync.push (P:=reference_platform) "u1" events_push 1000
                 fresh)))
    = Sync.SyncComplete 0 2.
Proof.
  split; [reflexivity|].
  apply (proj1
           (FurtherFacts.replayed_push_repeats_events
              (P:=reference_platform) "u1" events_push 1000 2000 fresh 0 2
              eq_refl)).
Defined.

Lemma upload_base64_rejects_unchanged_witness :
  Screenshots.match_data_url "data:text/plain;base64,AAAA" = None /\
  Screenshots.upload_base64 (P:=reference_platform) "u1"
    (JStr "data:text/plain;base64,AAAA") metadata "0a1b2c3d-0000" "new-id"
    upload_time two_shots
  = (Screenshots.InvalidDataUrl, two_shots).
Proof.
  split; [reflexivity|].
  apply (FurtherFacts.upload_base64_rejects_unchanged
           (P:=reference_platform) "u1"
           (JStr "data:text/plain;base64,AAAA") metadata "0a1b2c3d-0000"
           "new-id" upload_time two_shots).
  reflexivity.
Defined.

Lemma daily_device_breakdown_adds_up_witness :
  NoDup (map dev_id (devices two_titles)) /\
  (forall r, In r (usage_records two_titles) ->
             exists dv, In dv (devices two_titles) /\
                        dev_id dv = ur_device_id r) /\
  exists s,
    Analytics.daily (P:=reference_platform) "u1" (JStr "2024-01-02")
      query_time two_titles = Some s /\
    Sql.sum_of
      (map Analytics.b_total_seconds (Analytics.deviceBreakdown s)) =
    Analytics.totalSeconds (Analytics.totals s).
Proof.
  assert (Hnd : NoDup (map dev_id (devices two_titles))).
  { repeat (constructor; [cbn; intuition discriminate|]). constructor. }
  assert (Hfk : forall r, In r (usage_records two_titles) ->
                          exists dv, In dv (devices two_titles) /\
                                     dev_id dv = ur_device_id r).
  { intros r [<-|[<-|[<-|[]]]]; eexists; (split; [now left|reflexivity]). }
  split; [exact Hnd|]. split; [exact Hfk|].
  eexists. split; [reflexivity|].
  apply (proj1
           (FurtherFacts.daily_device_breakdown_adds_up
              (P:=reference_platform) "u1" (JStr "2024-01-02") query_time
              two_titles _ Hnd Hfk eq_refl)).
Defined.

End FurtherChecks.
